(** * ODESI browse scraper: fetch, parse, aggregate, detect duplicates, export

    A shallow embedding of [src/odesi_scraper.py] (class [ODESIScraper]) and
    the properties of its pipeline.

    Conventions of the embedding.
    - A Python [str] is a Rocq [string], read as the UTF-8 bytes of the text.
      Comparison by bytes agrees with Python's comparison by code point.
      [lower] and [strip] are [str.lower] and [str.strip] on ASCII text. On
      other text the two methods follow the Unicode character database, so
      the detector and the exporter take them as parameters.
    - A decoded JSON document is a [json] value; a Python [dict] is an
      association list in insertion order, looked up by first match.
    - A Python exception is a [Raise] in the [result] type; code that touches
      the network, the clock or a shared object runs in the monad [M].
    - A Python [float] is a [spec_float], the IEEE 754 values.
    - What the interpreter and the libraries decide outside the program
      (the answer to a request, the lengths [time.sleep] refuses, the files
      the Excel writer cannot open) is a parameter of the code that relies
      on it.
    - The frames of the detector and of the exporter hold text in every
      cell: they are built from records whose five fields are strings.
    - Calls to the module logger are left out: they write to the process log
      and feed nothing back into the program. *)

From Stdlib Require Import String Ascii List Bool Arith ZArith NArith Lia.
From Stdlib Require Import Permutation Sorted OrderedTypeEx.
From Stdlib Require Import Floats.SpecFloat.
Import ListNotations.

Local Open Scope string_scope.
Local Open Scope list_scope.

(* ================================================================== *)
(** * Part I: the program *)
(* ================================================================== *)

(** ** Python values decoded from JSON *)

(** What [json.loads] (and so [response.json()]) can return. *)
#[warnings="-register-all"]
Inductive json : Type :=
| JNull                                  (* None *)
| JBool (b : bool)
| JInt (n : Z)
| JFloat (f : spec_float)
| JStr (s : string)
| JArr (l : list json)
| JObj (o : list (string * json)).

(** A [dict] with string keys. *)
Definition dict : Type := list (string * json).

(** ** Exceptions *)

(** The classes of [requests.exceptions] that derive from
    [RequestException]. *)
Inductive request_error : Type :=
| ConnectionError
| Timeout
| TooManyRedirects
| HTTPError (status_code : Z)
| JSONDecodeError
| OtherRequestError.

Inductive exn : Type :=
| AttributeError
| TypeError
| ValueError
| OverflowError
| OSError
| IndexError
| IllegalCharacterError                  (* openpyxl.utils.exceptions *)
| KeyError (key : string)
| RequestException (e : request_error).

Inductive result (A : Type) : Type :=
| Ok (a : A)
| Raise (e : exn).

Arguments Ok {A} a.
Arguments Raise {A} e.

Definition result_bind {A B : Type} (r : result A) (k : A -> result B) : result B :=
  match r with
  | Ok a => k a
  | Raise e => Raise e
  end.

Declare Scope result_scope.
Delimit Scope result_scope with result.
Notation "x <- r ;; k" := (result_bind r (fun x => k))
  (at level 61, r at next level, right associativity) : result_scope.

(** A [for] loop over a list whose body updates a loop-carried value and may
    raise: the first exception ends the loop. *)
Fixpoint for_each {A B : Type} (xs : list A) (acc : B) (body : B -> A -> result B)
  : result B :=
  match xs with
  | [] => Ok acc
  | x :: xs' =>
      match body acc x with
      | Ok acc' => for_each xs' acc' body
      | Raise e => Raise e
      end
  end.

(** ** Strings *)

Definition is_upper (c : ascii) : bool :=
  let n := nat_of_ascii c in (65 <=? n)%nat && (n <=? 90)%nat.

Definition lower_char (c : ascii) : ascii :=
  if is_upper c then ascii_of_nat (nat_of_ascii c + 32) else c.

(** [str.lower()] on ASCII text: the bytes above 127 are left alone. *)
Fixpoint lower (s : string) : string :=
  match s with
  | EmptyString => EmptyString
  | String c s' => String (lower_char c) (lower s')
  end.

(** [str.isspace()] on one ASCII character: tab, line feed, vertical tab,
    form feed, carriage return, the four separators 28..31 and space. *)
Definition is_space (c : ascii) : bool :=
  let n := nat_of_ascii c in
  ((9 <=? n)%nat && (n <=? 13)%nat) || ((28 <=? n)%nat && (n <=? 32)%nat).

Fixpoint lstrip (s : string) : string :=
  match s with
  | EmptyString => EmptyString
  | String c s' => if is_space c then lstrip s' else s
  end.

Fixpoint rstrip (s : string) : string :=
  match s with
  | EmptyString => EmptyString
  | String c s' =>
      match rstrip s' with
      | EmptyString => if is_space c then EmptyString else String c EmptyString
      | t => String c t
      end
  end.

(** [str.strip()] on ASCII text: only ASCII white space is removed. *)
Definition strip (s : string) : string := rstrip (lstrip s).

(** [sub in s] for strings. *)
Fixpoint str_contains (sub s : string) : bool :=
  if String.prefix sub s then true
  else match s with
       | EmptyString => false
       | String _ s' => str_contains sub s'
       end.

(** *** [urllib.parse.quote] with its default [safe='/'] *)

Definition is_digit (c : ascii) : bool :=
  let n := nat_of_ascii c in (48 <=? n)%nat && (n <=? 57)%nat.

Definition is_lower (c : ascii) : bool :=
  let n := nat_of_ascii c in (97 <=? n)%nat && (n <=? 122)%nat.

Definition quote_keeps (c : ascii) : bool :=
  is_upper c || is_lower c || is_digit c ||
  existsb (Ascii.eqb c) ["_"; "."; "-"; "~"; "/"]%char.

Definition hex_digit (n : nat) : ascii :=
  if (n <? 10)%nat then ascii_of_nat (48 + n) else ascii_of_nat (55 + n).

Definition percent_encode (c : ascii) : string :=
  let n := nat_of_ascii c in
  String "%" (String (hex_digit (n / 16)) (String (hex_digit (n mod 16)) EmptyString)).

Fixpoint quote (s : string) : string :=
  match s with
  | EmptyString => EmptyString
  | String c s' =>
      (if quote_keeps c then String c EmptyString else percent_encode c) ++ quote s'
  end.

(** ** The operations the code applies to decoded values *)

(** [bool(v)] *)
Definition truthy (v : json) : bool :=
  match v with
  | JNull => false
  | JBool b => b
  | JInt n => negb (n =? 0)%Z
  | JFloat (S754_zero _) => false
  | JFloat _ => true
  | JStr s => negb (s =? "")
  | JArr l => match l with [] => false | _ => true end
  | JObj o => match o with [] => false | _ => true end
  end.

Fixpoint dict_lookup (k : string) (o : dict) : option json :=
  match o with
  | [] => None
  | (k', v) :: o' => if k =? k' then Some v else dict_lookup k o'
  end.

Definition dict_keys (o : dict) : list string := map fst o.

(** [k in v]: key membership in a dict, element membership in a list,
    substring of a str; a [TypeError] on anything else. *)
Definition py_in (k : string) (v : json) : result bool :=
  match v with
  | JObj o => Ok (existsb (String.eqb k) (dict_keys o))
  | JArr l => Ok (existsb (fun x => match x with JStr s => k =? s | _ => false end) l)
  | JStr s => Ok (str_contains k s)
  | _ => Raise TypeError
  end.

(** [v.get(k, default)]: only a dict has the method. *)
Definition py_get (v : json) (k : string) (default : json) : result json :=
  match v with
  | JObj o => Ok (match dict_lookup k o with Some x => x | None => default end)
  | _ => Raise AttributeError
  end.

(** [isinstance(v, dict)] *)
Definition isinstance_dict (v : json) : bool :=
  match v with JObj _ => true | _ => false end.

Fixpoint chars (s : string) : list json :=
  match s with
  | EmptyString => []
  | String c s' => JStr (String c EmptyString) :: chars s'
  end.

(** The elements [for x in v] goes through: the elements of a list, the keys
    of a dict, the characters of a str; a [TypeError] on anything else. *)
Definition py_iter (v : json) : result (list json) :=
  match v with
  | JArr l => Ok l
  | JObj o => Ok (map JStr (dict_keys o))
  | JStr s => Ok (chars s)
  | _ => Raise TypeError
  end.

(** ** Survey records *)

(** The dict literal of [parse_category_data], with its five keys in the
    order they are written. [V] is the type of the values held. *)
Record record (V : Type) : Type := mkRecord {
  Category : V;
  Series_Name : V;
  Year : V;
  Survey_Title : V;
  URI : V
}.

Arguments mkRecord {V}.
Arguments Category {V}.
Arguments Series_Name {V}.
Arguments Year {V}.
Arguments Survey_Title {V}.
Arguments URI {V}.

Definition RECORD_KEYS : list string :=
  ["Category"; "Series_Name"; "Year"; "Survey_Title"; "URI"].

Definition record_values {V : Type} (r : record V) : list V :=
  [Category r; Series_Name r; Year r; Survey_Title r; URI r].

(** ** Parser *)

Section Parser.

Local Open Scope result_scope.

(** The innermost loop, over the surveys of one year. *)
Definition parse_surveys (category : string) (series_name year surveys : json)
    (records : list (record json)) : result (list (record json)) :=
  l <- py_iter surveys ;;
  for_each l records (fun records survey =>
    title <- py_get survey "title" (JStr "") ;;
    uri <- py_get survey "uri" (JStr "") ;;
    Ok (records ++ [mkRecord (JStr category) series_name year title uri])).

(** The loop over the years of one series. *)
Definition parse_years (category : string) (series_name years : json)
    (records : list (record json)) : result (list (record json)) :=
  l <- py_iter years ;;
  for_each l records (fun records year_data =>
    year <- py_get year_data "year" (JStr "Unknown") ;;
    surveys <- py_get year_data "item" (JArr []) ;;
    parse_surveys category series_name year surveys records).

(** The outer loop, over the series. *)
Definition parse_items (category : string) (items : json)
    (records : list (record json)) : result (list (record json)) :=
  l <- py_iter items ;;
  for_each l records (fun records series_item =>
    series_name <- py_get series_item "series" (JStr "Unknown") ;;
    years <- py_get series_item "years" (JArr []) ;;
    parse_years category series_name years records).

Definition parse_category_data (category : string) (data : json)
  : result (list (record json)) :=
  let records := [] in
  (* if not data or 'content' not in data *)
  no_content <- (if negb (truthy data) then Ok true
                 else (b <- py_in "content" data ;; Ok (negb b))) ;;
  if (no_content : bool) then Ok records
  else
    content <- py_get data "content" (JObj []) ;;
    datasets <- py_get content "datasets" (JObj []) ;;
    if negb (isinstance_dict datasets) then Ok records
    else
      items <- py_get datasets "items" (JArr []) ;;
      parse_items category items records.

End Parser.

(** ** State and exceptions *)

(** Code with effects: a computation over a store [S] that returns or
    raises. The store survives a raise, as the trace of requests or the
    caller's data frame do in Python. *)
Definition M (S A : Type) : Type := S -> result A * S.

Definition ret {S A : Type} (a : A) : M S A := fun s => (Ok a, s).

Definition bind {S A B : Type} (m : M S A) (k : A -> M S B) : M S B :=
  fun s =>
    match m s with
    | (Ok a, s') => k a s'
    | (Raise e, s') => (Raise e, s')
    end.

Definition lift {S A : Type} (r : result A) : M S A := fun s => (r, s).

Definition get_state {S : Type} : M S S := fun s => (Ok s, s).

Definition put_state {S : Type} (s : S) : M S unit := fun _ => (Ok tt, s).

(** [try: m except C: handler], where [catches] says which exceptions are
    instances of [C]. *)
Definition try_except {S A : Type} (m : M S A) (catches : exn -> bool)
    (handler : exn -> M S A) : M S A :=
  fun s =>
    match m s with
    | (Ok a, s') => (Ok a, s')
    | (Raise e, s') => if catches e then handler e s' else (Raise e, s')
    end.

Declare Scope monad_scope.
Delimit Scope monad_scope with monad.
Notation "x <- m ;; k" := (bind m (fun x => k))
  (at level 61, m at next level, right associativity) : monad_scope.
Notation "m ;;; k" := (bind m (fun _ => k))
  (at level 61, right associativity) : monad_scope.

Fixpoint for_eachM {S A B : Type} (xs : list A) (acc : B) (body : B -> A -> M S B)
  : M S B :=
  match xs with
  | [] => ret acc
  | x :: xs' => bind (body acc x) (fun acc' => for_eachM xs' acc' body)
  end.

(** [enumerate(xs, start)] *)
Fixpoint enumerate {A : Type} (start : nat) (xs : list A) : list (nat * A) :=
  match xs with
  | [] => []
  | x :: xs' => (start, x) :: enumerate (S start) xs'
  end.

(** ** Data frames *)

(** A [pandas.DataFrame] as a table: column labels and rows of cells, each
    row as long as [columns]. The row index is the default one and is never
    written out where the code passes [index=False]. *)
Record DataFrame (V : Type) : Type := mkFrame {
  columns : list string;
  rows : list (list V)
}.

Arguments mkFrame {V}.
Arguments columns {V}.
Arguments rows {V}.

(** [pd.DataFrame()] *)
Definition empty_frame {V : Type} : DataFrame V := mkFrame [] [].

(** [pd.DataFrame(records)] on a list of dicts that all have the keys of
    [RECORD_KEYS] and hold strings only: the columns hold the strings as
    given, and there is no column at all when the list is empty. *)
Definition DataFrame_of_records (records : list (record string)) : DataFrame string :=
  match records with
  | [] => empty_frame
  | _ :: _ => mkFrame RECORD_KEYS (map record_values records)
  end.

(** [pd.DataFrame(records)] on the records of the parser, whose values are
    whatever the response held. pandas gives every column one type of its
    own choice, so that a cell need not be the value it was built from; a
    frame of that kind is known here by the list of records it was built
    from, one row per record in the order of the list. *)
Inductive dataset : Type :=
| pd_DataFrame (records : list (record json)).

(** [df.empty]: one of the two axes has length 0. *)
Definition df_empty {V : Type} (df : DataFrame V) : bool :=
  match columns df, rows df with
  | [], _ => true
  | _, [] => true
  | _, _ => false
  end.

(** ** Network, clock and the scraper object *)

Inductive http_outcome : Type :=
| Failed (e : request_error)                    (* [session.get] raised *)
| Response (status_code : Z) (body : option json).
    (* [body] is the decoded body, [None] when it is not JSON *)

Inductive event : Type :=
| Get (url : string) (headers : list (string * string)) (timeout : Z)
| Sleep (seconds : spec_float).

Definition trace : Type := list event.

Definition is_get (e : event) : bool :=
  match e with Get _ _ _ => true | Sleep _ => false end.

Definition is_sleep (e : event) : bool :=
  match e with Sleep _ => true | Get _ _ _ => false end.

Definition requests_made (t : trace) : nat := length (filter is_get t).

Definition BASE_URL : string := "https://odesi.ca/api/browse".

Definition CATEGORIES : list string :=
  [ "Agriculture";
    "Business and Financial";
    "Census of Population";
    "Communications and Information";
    "Consumer Surveys";
    "COVID-19";
    "Crime and Justice";
    "Demographics and Population";
    "Education";
    "Elections and Politics";
    "Geography";
    "Government Finances and Economic Indicators";
    "Health";
    "Labour and Employment";
    "Natural Resources and Environment";
    "Public Opinion Polls";
    "Social Surveys";
    "Trade";
    "Travel" ].

Record ODESIScraper : Type := mkScraper {
  delay : spec_float;
  session_headers : list (string * string)
}.

(** The floats [1.0], the default of [delay], [0.0] and [-1.0]. *)
Definition DEFAULT_DELAY : spec_float := S754_finite false 4503599627370496 (-52).
Definition NO_DELAY : spec_float := S754_zero false.
Definition MINUS_ONE : spec_float := S754_finite true 4503599627370496 (-52).

(** [ODESIScraper.__init__] *)
Definition init (delay : spec_float) : ODESIScraper :=
  mkScraper delay
    [("User-Agent", "Mozilla/5.0 (Windows NT 10.0; Win64; x64) AppleWebKit/537.36")].

(** [Response.raise_for_status]: an [HTTPError] on 4xx and 5xx. *)
Definition raise_for_status (status_code : Z) : result unit :=
  if ((400 <=? status_code) && (status_code <? 600))%Z
  then Raise (RequestException (HTTPError status_code))
  else Ok tt.

(** [Response.json]: a body that is not JSON raises
    [requests.exceptions.JSONDecodeError], which derives from
    [RequestException] (requests 2.27 and later). *)
Definition response_json (body : option json) : result json :=
  match body with
  | Some j => Ok j
  | None => Raise (RequestException JSONDecodeError)
  end.

Definition is_RequestException (e : exn) : bool :=
  match e with RequestException _ => true | _ => false end.

Section Scraper.

(** The outside world: what the [n]-th request of the run, to [url], meets. *)
Variable net : nat -> string -> http_outcome.

(** The interpreter: what [time.sleep] raises on a length, if anything (a
    [ValueError] on a negative length and on NaN, an [OverflowError] on a
    length its clock cannot hold). *)
Variable sleep_error : spec_float -> option exn.

(** [time.sleep] *)
Definition time_sleep (seconds : spec_float) : M trace unit :=
  fun t => match sleep_error seconds with
           | Some e => (Raise e, t)
           | None => (Ok tt, t ++ [Sleep seconds])
           end.

Local Open Scope monad_scope.

(** [self.session.get(url, timeout=timeout)] *)
Definition session_get (self : ODESIScraper) (url : string) (timeout : Z)
  : M trace (Z * option json) :=
  fun t =>
    let t' := t ++ [Get url (session_headers self) timeout] in
    match net (requests_made t) url with
    | Failed e => (Raise (RequestException e), t')
    | Response status_code body => (Ok (status_code, body), t')
    end.

Definition browse_url (category : string) : string :=
  BASE_URL ++ "?category=" ++ quote category.

Definition fetch_category_data (self : ODESIScraper) (category : string)
  : M trace json :=
  let url := browse_url category in
  try_except
    (response <- session_get self url 30 ;;
     lift (raise_for_status (fst response)) ;;;
     lift (response_json (snd response)))
    is_RequestException
    (fun _ => ret (JObj [])).

Definition scrape_all_categories (self : ODESIScraper)
    (categories : option (list string)) : M trace dataset :=
  let categories := match categories with
                    | None => CATEGORIES
                    | Some cs => cs
                    end in
  all_records <-
    for_eachM (enumerate 1 categories) []
      (fun all_records '(i, category) =>
         data <- fetch_category_data self category ;;
         records <- lift (parse_category_data category data) ;;
         let all_records := all_records ++ records in
         (if (i <? length categories)%nat then time_sleep (delay self) else ret tt) ;;;
         ret all_records) ;;
  ret (pd_DataFrame all_records).

End Scraper.

(** ** The pandas operations the detector and the exporter use *)

(** From here on the cells of a frame are text: every field of a survey
    record is a string in the data this part of the pipeline is written
    for, the year being a label that is compared as text. *)
Definition frame : Type := DataFrame string.

(** Position of a column label; a [KeyError] when there is none. *)
Fixpoint get_loc (name : string) (cols : list string) : result nat :=
  match cols with
  | [] => Raise (KeyError name)
  | c :: cols' =>
      if name =? c then Ok 0
      else match get_loc name cols' with
           | Ok i => Ok (S i)
           | Raise e => Raise e
           end
  end.

Fixpoint get_locs (names cols : list string) : result (list nat) :=
  match names with
  | [] => Ok []
  | n :: names' =>
      match get_loc n cols, get_locs names' cols with
      | Ok i, Ok l => Ok (i :: l)
      | Raise e, _ => Raise e
      | _, Raise e => Raise e
      end
  end.

Definition cell (i : nat) (row : list string) : string := nth i row "".

(** The cells of a row at the given positions, as the tuple pandas compares. *)
Definition project (locs : list nat) (row : list string) : list string :=
  map (fun i => cell i row) locs.

(** [df[name]] *)
Definition getitem (df : frame) (name : string) : result (list string) :=
  match get_loc name (columns df) with
  | Ok i => Ok (map (cell i) (rows df))
  | Raise e => Raise e
  end.

Fixpoint set_nth {A : Type} (i : nat) (x : A) (l : list A) : list A :=
  match i, l with
  | _, [] => []
  | O, _ :: l' => x :: l'
  | S i', y :: l' => y :: set_nth i' x l'
  end.

Fixpoint remove_nth {A : Type} (i : nat) (l : list A) : list A :=
  match i, l with
  | _, [] => []
  | O, _ :: l' => l'
  | S i', y :: l' => y :: remove_nth i' l'
  end.

(** [df[name] = values]: the column is overwritten where it exists and
    appended as the last column where it does not. *)
Definition setitem (df : frame) (name : string) (values : list string) : frame :=
  match get_loc name (columns df) with
  | Ok i =>
      mkFrame (columns df)
              (map (fun rv => set_nth i (snd rv) (fst rv)) (combine (rows df) values))
  | Raise _ =>
      mkFrame (columns df ++ [name])
              (map (fun rv => fst rv ++ [snd rv]) (combine (rows df) values))
  end.

Definition key_eqb (a b : list string) : bool :=
  if list_eq_dec string_dec a b then true else false.

Definition occurrences (k : list string) (keys : list (list string)) : nat :=
  length (filter (key_eqb k) keys).

(** [df.duplicated(subset=subset, keep=False)]: the mask of the rows whose
    cells under [subset] occur in more than one row. *)
Definition duplicated_keep_false (df : frame) (subset : list string)
  : result (list bool) :=
  match get_locs subset (columns df) with
  | Ok locs =>
      let keys := map (project locs) (rows df) in
      Ok (map (fun k => (1 <? occurrences k keys)%nat) keys)
  | Raise e => Raise e
  end.

(** [df[mask]] *)
Definition select_rows (df : frame) (mask : list bool) : frame :=
  mkFrame (columns df) (map snd (filter fst (combine mask (rows df)))).

(** Tuples of strings in Python's order: lexicographic, each component by
    string comparison. *)
Fixpoint lex_compare (a b : list string) : comparison :=
  match a, b with
  | [], [] => Eq
  | [], _ :: _ => Lt
  | _ :: _, [] => Gt
  | x :: a', y :: b' =>
      match String.compare x y with
      | Eq => lex_compare a' b'
      | c => c
      end
  end.

Definition lex_leb (a b : list string) : bool :=
  match lex_compare a b with Gt => false | _ => true end.

(** A stable sort: an element goes before the first element that is not
    smaller; the list being sorted from its end, elements that compare equal
    keep the order they came in. *)
Fixpoint insert_sorted {A : Type} (leb : A -> A -> bool) (x : A) (l : list A) : list A :=
  match l with
  | [] => [x]
  | y :: l' => if leb x y then x :: l else y :: insert_sorted leb x l'
  end.

Definition stable_sort {A : Type} (leb : A -> A -> bool) (l : list A) : list A :=
  fold_right (insert_sorted leb) [] l.

(** [df.sort_values(by)]: ascending, by the tuple of the [by] columns. With
    several keys pandas sorts stably. *)
Definition sort_values (df : frame) (by_ : list string) : result frame :=
  match get_locs by_ (columns df) with
  | Ok locs =>
      Ok (mkFrame (columns df)
            (stable_sort (fun a b => lex_leb (project locs a) (project locs b)) (rows df)))
  | Raise e => Raise e
  end.

(** [df.drop(columns=names)] *)
Fixpoint drop_columns (df : frame) (names : list string) : result frame :=
  match names with
  | [] => Ok df
  | n :: names' =>
      match get_loc n (columns df) with
      | Ok i =>
          drop_columns (mkFrame (remove_nth i (columns df))
                                (map (remove_nth i) (rows df))) names'
      | Raise e => Raise e
      end
  end.

(** ** Duplicate detector *)

Section Detector.

Local Open Scope monad_scope.

(** Python's [str.lower] and [str.strip], which [.str.lower()] and
    [.str.strip()] apply to every title. Both follow the Unicode character
    database: [str.lower] maps every cased character, [str.strip] removes
    every character that Unicode counts as white space, the no-break space
    among them. The detector is written over the two methods. *)
Variable str_lower : string -> string.
Variable str_strip : string -> string.

(** The store is the frame object the caller passed: [df[...] = ...] changes
    that object, the other operations build new frames. *)
Definition find_duplicates_with : M frame frame :=
  df <- get_state ;;
  if df_empty df then ret empty_frame
  else
    titles <- lift (getitem df "Survey_Title") ;;
    put_state (setitem df "Title_Normalized"
                 (map (fun t => str_strip (str_lower t)) titles)) ;;;
    df <- get_state ;;
    mask <- lift (duplicated_keep_false df ["Title_Normalized"; "Series_Name"; "Year"]) ;;
    duplicates <- lift (sort_values (select_rows df mask)
                          ["Series_Name"; "Year"; "Survey_Title"]) ;;
    lift (drop_columns duplicates ["Title_Normalized"]).

End Detector.

(** The detector on titles that are ASCII text, where the two methods are
    [lower] and [strip]. *)
Definition find_duplicates : M frame frame := find_duplicates_with lower strip.

(** ** Exporter *)

(** A cell of a sheet: text, or a count. *)
Inductive xl_cell : Type :=
| Text (s : string)
| Number (n : nat).

Record sheet : Type := mkSheet {
  sheet_name : string;
  header : list string;
  body : list (list xl_cell)
}.

(** What a workbook holds under a sheet name: a sheet written to its end,
    or a sheet that an exception cut short. Of the latter only the name is
    kept: which of its cells had been written is not said. *)
Inductive written : Type :=
| Full (sh : sheet)
| Partial (name : string).

Definition workbook : Type := list written.

(** The store of the exporter: the caller's frame and the sheets of the
    workbook so far. *)
Record export_state : Type := mkExport {
  df_obj : frame;
  book : workbook
}.

(** *** Cells as openpyxl takes them *)

(** A byte that continues a UTF-8 character. *)
Definition is_continuation (c : ascii) : bool :=
  let n := nat_of_ascii c in (128 <=? n)%nat && (n <=? 191)%nat.

(** [value[:n]]: the first [n] characters of a text. *)
Fixpoint take_chars (n : N) (s : string) : string :=
  match s with
  | EmptyString => EmptyString
  | String c s' =>
      if is_continuation c then String c (take_chars n s')
      else match n with
           | N0 => EmptyString
           | _ => String c (take_chars (N.pred n) s')
           end
  end.

(** The characters of [ILLEGAL_CHARACTERS_RE]: the control characters
    other than tab, line feed and carriage return. *)
Definition illegal_character (c : ascii) : bool :=
  let n := nat_of_ascii c in
  (n <=? 8)%nat || ((11 <=? n)%nat && (n <=? 12)%nat)
  || ((14 <=? n)%nat && (n <=? 31)%nat).

Fixpoint string_exists (p : ascii -> bool) (s : string) : bool :=
  match s with
  | EmptyString => false
  | String c s' => p c || string_exists p s'
  end.

(** [Cell.check_string]: a text is cut to 32767 characters, and refused when
    what is left holds an illegal character. A text that is kept is stored
    as it is; one that begins with [=] is marked as a formula. *)
Definition check_string (value : string) : result string :=
  let value := take_chars 32767 value in
  if string_exists illegal_character value then Raise IllegalCharacterError
  else Ok value.

Definition write_cell (c : xl_cell) : result xl_cell :=
  match c with
  | Text s =>
      match check_string s with
      | Ok v => Ok (Text v)
      | Raise e => Raise e
      end
  | Number n => Ok (Number n)
  end.

(** A loop that stops at the first exception. *)
Fixpoint map_result {A B : Type} (f : A -> result B) (l : list A) : result (list B) :=
  match l with
  | [] => Ok []
  | x :: l' =>
      match f x with
      | Ok y =>
          match map_result f l' with
          | Ok ys => Ok (y :: ys)
          | Raise e => Raise e
          end
      | Raise e => Raise e
      end
  end.

(** The limits of a sheet. *)
Definition MAX_ROWS : Z := 1048576.
Definition MAX_COLS : Z := 16384.

(** Writing a table of [nrows] by [ncols] under a sheet name
    ([ExcelFormatter.write]). A table beyond the limits of a sheet is
    refused before anything is written. Otherwise the sheet is created and
    the cells are set one by one, so that a cell openpyxl refuses leaves the
    sheet in the workbook, cut short. *)
Definition write_table (name : string) (nrows ncols : nat)
    (header : list string) (body : list (list xl_cell)) : M export_state unit :=
  fun s =>
    if ((MAX_ROWS <? Z.of_nat nrows) || (MAX_COLS <? Z.of_nat ncols))%Z
    then (Raise ValueError, s)
    else
      match map_result check_string header,
            map_result (map_result write_cell) body with
      | Ok h, Ok b => (Ok tt, mkExport (df_obj s) (book s ++ [Full (mkSheet name h b)]))
      | Raise e, _ => (Raise e, mkExport (df_obj s) (book s ++ [Partial name]))
      | _, Raise e => (Raise e, mkExport (df_obj s) (book s ++ [Partial name]))
      end.

(** [df.to_excel(writer, sheet_name=name, index=False)] *)
Definition to_excel (df : frame) (name : string) : M export_state unit :=
  write_table name (length (rows df)) (length (columns df))
              (columns df) (map (map Text) (rows df)).

(** The result of [groupby(by).agg(...)]: the group keys are the row index,
    under the names [index_names]. *)
Record summary : Type := mkSummary {
  index_names : list string;
  value_names : list string;
  entries : list (list string * list xl_cell)
}.

(** The table of a summary as it is written: the index in the leading
    columns. The table is given by its values: the writer merges the cells
    of an outer index level that repeat. *)
Definition summary_header (sm : summary) : list string :=
  index_names sm ++ value_names sm.

Definition summary_body (sm : summary) : list (list xl_cell) :=
  map (fun e => map Text (fst e) ++ snd e) (entries sm).

(** [summary.to_excel(writer, sheet_name=name)] *)
Definition summary_to_excel (sm : summary) (name : string) : M export_state unit :=
  write_table name (length (entries sm)) (length (value_names sm))
              (summary_header sm) (summary_body sm).

Fixpoint dedup (l : list (list string)) : list (list string) :=
  match l with
  | [] => []
  | k :: l' => k :: filter (fun k' => negb (key_eqb k k')) (dedup l')
  end.

(** [df.groupby(by)]: the groups in ascending order of their keys, each with
    its rows in frame order. *)
Definition groupby (df : frame) (by_ : list string)
  : result (list (list string * list (list string))) :=
  match get_locs by_ (columns df) with
  | Ok locs =>
      let keys := stable_sort lex_leb (dedup (map (project locs) (rows df))) in
      Ok (map (fun k => (k, filter (fun row => key_eqb k (project locs row)) (rows df)))
              keys)
  | Raise e => Raise e
  end.

(** The aggregations ['count'], ['nunique'], ['min'] and ['max'] on a column
    of text. *)
Definition agg_count (col : list string) : xl_cell := Number (length col).

Definition agg_nunique (col : list string) : xl_cell :=
  Number (length (dedup (map (fun v => [v]) col))).

Definition str_min (a b : string) : string := if String.leb b a then b else a.
Definition str_max (a b : string) : string := if String.leb a b then b else a.

Definition agg_min (col : list string) : xl_cell :=
  Text (fold_left str_min (tl col) (hd "" col)).

Definition agg_max (col : list string) : xl_cell :=
  Text (fold_left str_max (tl col) (hd "" col)).

Section Exporter.

Local Open Scope result_scope.

(** [df.groupby('Category').agg({'Series_Name': 'nunique',
    'Survey_Title': 'count'}).rename(columns=...)] *)
Definition category_summary (df : frame) : result summary :=
  groups <- groupby df ["Category"] ;;
  series <- get_loc "Series_Name" (columns df) ;;
  title <- get_loc "Survey_Title" (columns df) ;;
  Ok (mkSummary ["Category"] ["Unique_Series"; "Total_Surveys"]
        (map (fun g => (fst g, [agg_nunique (map (cell series) (snd g));
                                agg_count (map (cell title) (snd g))]))
             groups)).

(** [df.groupby(['Category', 'Series_Name']).agg({'Survey_Title': 'count',
    'Year': ['min', 'max']})] with its columns renamed. *)
Definition series_summary (df : frame) : result summary :=
  groups <- groupby df ["Category"; "Series_Name"] ;;
  title <- get_loc "Survey_Title" (columns df) ;;
  year <- get_loc "Year" (columns df) ;;
  Ok (mkSummary ["Category"; "Series_Name"] ["Survey_Count"; "First_Year"; "Last_Year"]
        (map (fun g => (fst g, [agg_count (map (cell title) (snd g));
                                agg_min (map (cell year) (snd g));
                                agg_max (map (cell year) (snd g))]))
             groups)).

End Exporter.

(** Run a computation on the caller's frame inside the exporter. *)
Definition on_frame {A : Type} (m : M frame A) : M export_state A :=
  fun s => match m (df_obj s) with
           | (r, df') => (r, mkExport df' (book s))
           end.

Section ExportToExcel.

Local Open Scope monad_scope.

Variable str_lower : string -> string.
Variable str_strip : string -> string.

(** What [pd.ExcelWriter(filename, engine='openpyxl')] raises, if anything,
    when it opens the file: [ValueError] on an extension the engine does
    not write, [OSError] on a path that cannot be written. *)
Variable writer_error : string -> option exn.

(** The body of the [with] block. *)
Definition export_to_excel_body : M export_state unit :=
  df <- on_frame get_state ;;
  to_excel df "All_Data" ;;;
  if negb (df_empty df) then
    cs <- lift (category_summary df) ;;
    summary_to_excel cs "Category_Summary" ;;;
    ss <- lift (series_summary df) ;;
    summary_to_excel ss "Series_Summary" ;;;
    duplicates <- on_frame (find_duplicates_with str_lower str_strip) ;;
    if negb (df_empty duplicates)
    then to_excel duplicates "Potential_Duplicates"
    else ret tt
  else ret tt.

(** [export_to_excel(df, filename)]: the outcome, the workbook saved under
    [filename] if one is, and the caller's frame afterwards. The writer
    saves the workbook when the [with] block is left, also when an
    exception leaves it; openpyxl does not save a workbook without a sheet,
    and its [IndexError] then replaces the exception that left the
    block. *)
Definition export_to_excel (df : frame) (filename : string)
  : result unit * option workbook * frame :=
  match writer_error filename with
  | Some e => (Raise e, None, df)
  | None =>
      match export_to_excel_body (mkExport df []) with
      | (r, s) =>
          match book s with
          | [] => (Raise IndexError, None, df_obj s)
          | _ :: _ => (r, Some (book s), df_obj s)
          end
      end
  end.

End ExportToExcel.

(* ================================================================== *)
(** * Part II: the vocabulary of the properties *)
(* ================================================================== *)

(** ** Responses of the browse API *)

(** A response of the shape the parser consumes: a list of series, each
    with its years, each with its surveys. An object of the response may
    carry any other keys; [se_attrs] and [ye_attrs] hold those of a series
    and of a year, among them ["series"] and ["year"] when present. *)
Record year_entry : Type := mkYear {
  ye_attrs : dict;
  ye_item : list dict
}.

Record series_entry : Type := mkSeries {
  se_attrs : dict;
  se_years : list year_entry
}.

Definition encode_year (y : year_entry) : json :=
  JObj (("item", JArr (map JObj (ye_item y))) :: ye_attrs y).

Definition encode_series (s : series_entry) : json :=
  JObj (("years", JArr (map encode_year (se_years s))) :: se_attrs s).

(** [top], [content] and [datasets] hold the other keys of the three outer
    objects. *)
Definition api_response (top content datasets : dict) (items : list series_entry) : json :=
  JObj (("content",
         JObj (("datasets",
                JObj (("items", JArr (map encode_series items)) :: datasets))
               :: content))
        :: top).

(** The value under [k], or the string [default] when the key is absent. *)
Definition field_or (k default : string) (o : dict) : json :=
  match dict_lookup k o with
  | Some v => v
  | None => JStr default
  end.

(** One record per survey, series by series and year by year. *)
Definition records_of_year (category : string) (s : series_entry) (y : year_entry)
  : list (record json) :=
  map (fun survey =>
         mkRecord (JStr category)
                  (field_or "series" "Unknown" (se_attrs s))
                  (field_or "year" "Unknown" (ye_attrs y))
                  (field_or "title" "" survey)
                  (field_or "uri" "" survey))
      (ye_item y).

Definition records_of_series (category : string) (s : series_entry)
  : list (record json) :=
  flat_map (records_of_year category s) (se_years s).

Definition leaf_records (category : string) (items : list series_entry)
  : list (record json) :=
  flat_map (records_of_series category) items.


(** ** Inputs the parser tolerates *)

(** Every value that is present on the consumed path has the type the code
    goes on to use: [content] a mapping, [items], [years] and [item] lists
    of mappings. Keys may be missing anywhere, and ["datasets"] may hold
    anything. *)
Definition survey_ok (v : json) : bool := isinstance_dict v.

Definition year_ok (v : json) : bool :=
  match v with
  | JObj o =>
      match dict_lookup "item" o with
      | None => true
      | Some (JArr l) => forallb survey_ok l
      | Some _ => false
      end
  | _ => false
  end.

Definition series_ok (v : json) : bool :=
  match v with
  | JObj o =>
      match dict_lookup "years" o with
      | None => true
      | Some (JArr l) => forallb year_ok l
      | Some _ => false
      end
  | _ => false
  end.

Definition well_typed (data : json) : bool :=
  match data with
  | JObj o =>
      match dict_lookup "content" o with
      | None => true
      | Some (JObj c) =>
          match dict_lookup "datasets" c with
          | None => true
          | Some (JObj ds) =>
              match dict_lookup "items" ds with
              | None => true
              | Some (JArr l) => forallb series_ok l
              | Some _ => false
              end
          | Some _ => true
          end
      | Some _ => false
      end
  | _ => false
  end.

(** The degenerate inputs: an empty mapping (or any other falsy value), a
    mapping without ["content"], a content without ["datasets"], a
    ["datasets"] that is not a mapping, a datasets without ["items"]. *)
Definition degenerate (data : json) : bool :=
  negb (truthy data) ||
  match data with
  | JObj o =>
      match dict_lookup "content" o with
      | None => true
      | Some (JObj c) =>
          match dict_lookup "datasets" c with
          | None => true
          | Some (JObj ds) =>
              match dict_lookup "items" ds with
              | None => true
              | Some _ => false
              end
          | Some _ => true
          end
      | Some _ => false
      end
  | _ => false
  end.

(** ** What a fetch hands to the parser *)

(** The value [fetch_category_data] returns for an outcome of the request. *)
Definition response_data (o : http_outcome) : json :=
  match o with
  | Failed _ => JObj []
  | Response status_code body =>
      if ((400 <=? status_code) && (status_code <? 600))%Z then JObj []
      else match body with
           | Some j => j
           | None => JObj []
           end
  end.

Definition request_for (self : ODESIScraper) (category : string) : event :=
  Get (BASE_URL ++ "?category=" ++ quote category) (session_headers self) 30.

(** [sep] between every two neighbours of [l], and nowhere else. *)
Fixpoint intersperse {A : Type} (sep : A) (l : list A) : list A :=
  match l with
  | [] => []
  | x :: l' =>
      match l' with
      | [] => [x]
      | _ :: _ => x :: sep :: intersperse sep l'
      end
  end.

Definition effective_categories (categories : option (list string)) : list string :=
  match categories with
  | None => CATEGORIES
  | Some cs => cs
  end.

(** ** Duplicates among text records *)

(** The title as the detector compares it: lower-cased, then stripped. *)
Definition normalize (str_lower str_strip : string -> string) (t : string) : string :=
  str_strip (str_lower t).

(** The triple the detector compares, [norm] being the normalization of the
    title. *)
Definition duplicate_key (norm : string -> string) (r : record string) : list string :=
  [norm (Survey_Title r); Series_Name r; Year r].

(** The triple the detector sorts by. *)
Definition sort_key (r : record string) : list string :=
  [Series_Name r; Year r; Survey_Title r].

(** Two or more records of [rs] have the triple of [r]. *)
Definition is_duplicate (norm : string -> string) (rs : list (record string))
    (r : record string) : bool :=
  (2 <=? length (filter (fun r' => key_eqb (duplicate_key norm r) (duplicate_key norm r'))
                        rs))%nat.

(** The records of one (category, series) group. *)
Definition same_group (c s : string) (r : record string) : bool :=
  (Category r =? c) && (Series_Name r =? s).

(** A row of the caller's frame once the detector has added its column. *)
Definition normalized_row (norm : string -> string) (r : record string) : list string :=
  record_values r ++ [norm (Survey_Title r)].

(** The caller's frame after a run of the detector. *)
Definition normalized_frame (norm : string -> string) (rs : list (record string))
  : frame :=
  mkFrame (RECORD_KEYS ++ ["Title_Normalized"]) (map (normalized_row norm) rs).

Definition by_sort_key (a b : record string) : bool :=
  lex_leb (sort_key a) (sort_key b).

(** The records the detector returns, in the order it returns them. *)
Definition duplicates_of (norm : string -> string) (rs : list (record string))
  : list (record string) :=
  stable_sort by_sort_key (filter (is_duplicate norm rs) rs).

(** ** Workbooks *)

Definition written_name (w : written) : string :=
  match w with
  | Full sh => sheet_name sh
  | Partial name => name
  end.

(** The sheet of that name, when it was written to its end. *)
Fixpoint sheet_named (name : string) (wb : workbook) : option sheet :=
  match wb with
  | [] => None
  | Full sh :: wb' => if sheet_name sh =? name then Some sh else sheet_named name wb'
  | Partial _ :: wb' => sheet_named name wb'
  end.

(** The workbook an export saved, if it saved one. *)
Definition saved_workbook (out : result unit * option workbook * frame)
  : option workbook :=
  snd (fst out).

(** A text that a cell takes as it is: 32767 characters at most and none
    of the control characters openpyxl refuses. *)
Definition writable (s : string) : bool :=
  match check_string s with
  | Ok v => v =? s
  | Raise _ => false
  end.

Definition writable_cell (c : xl_cell) : bool :=
  match c with
  | Text s => writable s
  | Number _ => true
  end.

Definition writable_record (r : record string) : bool :=
  forallb writable (record_values r).

(** A number of rows within the limits of a sheet. *)
Definition fits_a_sheet (n : nat) : Prop := (Z.of_nat n <= MAX_ROWS)%Z.

(** ** Inputs used as examples *)

Definition example_items : list series_entry :=
  [mkSeries [("series", JStr "Labour Force Survey")]
     [mkYear [("year", JStr "2001")]
        [[("title", JStr "LFS 2001 Wave 1"); ("uri", JStr "/lfs/2001/1")];
         [("title", JStr "LFS 2001 Wave 1")]]]].

Definition net_example (n : nat) (url : string) : http_outcome :=
  match n with
  | 0 => Response 200 (Some (JObj [("content", JObj [])]))
  | 1 => Failed Timeout
  | _ => Response 503 None
  end.

(** A [time.sleep] for the examples, after CPython's: [ValueError] on NaN,
    [OverflowError] on a length whose nanoseconds do not fit 64 bits, the
    infinite ones included, [ValueError] on a negative length. The length
    [m * 2^e] seconds is compared with [2^63] nanoseconds after scaling
    both by [2^1074]. *)
Definition sleep_sample (d : spec_float) : option exn :=
  match d with
  | S754_zero _ => None
  | S754_nan => Some ValueError
  | S754_infinity _ => Some OverflowError
  | S754_finite sign m e =>
      if (Z.pos m * 1000000000 * 2 ^ (e + 1074) <? 2 ^ (63 + 1074))%Z
      then (if sign then Some ValueError else None)
      else Some OverflowError
  end.

Definition net_null (n : nat) (url : string) : http_outcome :=
  Response 200 (Some (JObj [("content", JNull)])).

Definition net_surveys (n : nat) (url : string) : http_outcome :=
  Response 200 (Some (api_response [] [] [] example_items)).

(** The key of the per-series summary, and its groups in sheet order. *)
Definition group_key (r : record string) : list string :=
  [Category r; Series_Name r].

Definition group_keys (rs : list (record string)) : list (list string) :=
  stable_sort lex_leb (dedup (map group_key rs)).

Definition group_of (rs : list (record string)) (k : list string) : list (record string) :=
  filter (fun r => key_eqb k (group_key r)) rs.

Definition category_keys (rs : list (record string)) : list (list string) :=
  stable_sort lex_leb (dedup (map (fun r => [Category r]) rs)).

Definition category_group (rs : list (record string)) (k : list string)
  : list (record string) :=
  filter (fun r => key_eqb k [Category r]) rs.

(** The three sheets an export of a non-empty list of records starts with. *)
Definition all_data_sheet (rs : list (record string)) : sheet :=
  mkSheet "All_Data" RECORD_KEYS (map (fun r => map Text (record_values r)) rs).

Definition category_summary_sheet (rs : list (record string)) : sheet :=
  mkSheet "Category_Summary" ["Category"; "Unique_Series"; "Total_Surveys"]
    (map (fun k => map Text k ++
                   [agg_nunique (map Series_Name (category_group rs k));
                    agg_count (map Survey_Title (category_group rs k))])
         (category_keys rs)).

Definition series_summary_sheet (rs : list (record string)) : sheet :=
  mkSheet "Series_Summary"
    ["Category"; "Series_Name"; "Survey_Count"; "First_Year"; "Last_Year"]
    (map (fun k => map Text k ++
                   [agg_count (map Survey_Title (group_of rs k));
                    agg_min (map Year (group_of rs k));
                    agg_max (map Year (group_of rs k))])
         (group_keys rs)).

Definition duplicates_sheet (norm : string -> string) (rs : list (record string))
  : list written :=
  match duplicates_of norm rs with
  | [] => []
  | _ :: _ =>
      [Full (mkSheet "Potential_Duplicates" RECORD_KEYS
               (map (fun r => map Text (record_values r)) (duplicates_of norm rs)))]
  end.

(** The [All_Data] sheet of a frame that has the detector's column. *)
Definition normalized_data_sheet (norm : string -> string) (rs : list (record string))
  : sheet :=
  mkSheet "All_Data" (RECORD_KEYS ++ ["Title_Normalized"])
          (map (fun r => map Text (normalized_row norm r)) rs).

(** The sheet of a frame written as it is. *)
Definition sheet_of_frame (name : string) (df : frame) : sheet :=
  mkSheet name (columns df) (map (map Text) (rows df)).

(** A frame within the limits of a sheet whose labels and cells are all
    taken as they are. *)
Definition writable_frame (df : frame) : bool :=
  (Z.of_nat (length (rows df)) <=? MAX_ROWS)%Z
  && (Z.of_nat (length (columns df)) <=? MAX_COLS)%Z
  && forallb writable (columns df)
  && forallb (forallb writable) (rows df).

Definition labour_records : list (record string) :=
  [mkRecord "Labour and Employment" "Labour Surveys" "2001" "Labour Survey 2001" "/a";
   mkRecord "Labour and Employment" "Labour Surveys" "2001" " labour survey 2001 " "/b";
   mkRecord "Labour and Employment" "Labour Surveys" "2002" "Labour Survey 2002" "/c"].

(** The pair of [labour_records] and a third record of the same series and
    year under another title. *)
Definition revised_records : list (record string) :=
  [mkRecord "Labour and Employment" "Labour Surveys" "2001" "Labour Survey 2001" "/a";
   mkRecord "Labour and Employment" "Labour Surveys" "2001" " labour survey 2001 " "/b";
   mkRecord "Labour and Employment" "Labour Surveys" "2001" "Labour Survey 2001 Revised"
            "/r"].

(** One record whose title holds a vertical tab, as the JSON escape
    [\u000b] decodes. *)
Definition vertical_tab_record : list (record string) :=
  [mkRecord "Health" "Labour Force Survey" "2001"
            (String (ascii_of_nat 11) "LFS 2001 Wave 1") "/lfs/2001/1"].

(** A writer for the examples: it opens the files whose name holds
    [.xlsx] and raises [ValueError] on the others. *)
Definition writer_sample (filename : string) : option exn :=
  if str_contains ".xlsx" filename then None else Some ValueError.

(** ** Vocabulary of the further properties *)

Fixpoint string_forall (p : ascii -> bool) (s : string) : bool :=
  match s with
  | EmptyString => true
  | String c s' => p c && string_forall p s'
  end.


(** The value of a hexadecimal digit as [hex_digit] writes it. *)
Definition unhex (c : ascii) : nat :=
  let n := nat_of_ascii c in
  if (n <? 58)%nat then n - 48 else n - 55.

(** A record under another category. *)
Definition with_category (category : string) (r : record json) : record json :=
  mkRecord (JStr category) (Series_Name r) (Year r) (Survey_Title r) (URI r).

Definition result_map {A B : Type} (f : A -> B) (r : result A) : result B :=
  match r with
  | Ok a => Ok (f a)
  | Raise e => Raise e
  end.

(** The count held by the cell at position [i] of a row of a sheet. *)
Definition number_at (i : nat) (row : list xl_cell) : nat :=
  match nth i row (Number 0) with
  | Number n => n
  | Text _ => 0
  end.

Definition same_category (c : string) (r : record string) : bool :=
  Category r =? c.

Definition attribute_or_type_error (e : exn) : Prop :=
  e = AttributeError \/ e = TypeError.

Definition net_down (n : nat) (url : string) : http_outcome :=
  match n with
  | 0 => Failed ConnectionError
  | 1 => Response 503 None
  | _ => Failed Timeout
  end.

Definition frame_without_titles : frame :=
  mkFrame ["Series_Name"; "Year"] [["Labour Surveys"; "2001"]].

Definition frame_without_category : frame :=
  mkFrame ["Series_Name"; "Year"; "Survey_Title"]
          [["Labour Surveys"; "2001"; "Labour Survey 2001"]].

(* ================================================================== *)
(** * Part III: properties *)
(* ================================================================== *)

(** ** Parser *)

Lemma in_keys_lookup (k : string) (o : dict) :
  existsb (String.eqb k) (dict_keys o) =
  match dict_lookup k o with Some _ => true | None => false end.
Proof.
  induction o as [|[k' v] o IH]; simpl; [reflexivity|].
  destruct (k =? k'); simpl; [reflexivity | exact IH].
Qed.

(** On a mapping the guard of the parser is a lookup of ["content"]. *)
Lemma parse_mapping (category : string) (o : dict) :
  parse_category_data category (JObj o) =
  match dict_lookup "content" o with
  | None => Ok []
  | Some content =>
      result_bind (py_get content "datasets" (JObj [])) (fun datasets =>
        if negb (isinstance_dict datasets) then Ok []
        else result_bind (py_get datasets "items" (JArr []))
               (fun items => parse_items category items []))
  end.
Proof.
  unfold parse_category_data.
  destruct o as [|p o]; [reflexivity|].
  cbn [truthy negb py_in result_bind].
  rewrite in_keys_lookup.
  cbn [py_get].
  destruct (dict_lookup "content" (p :: o)); reflexivity.
Qed.

Lemma parse_falsy (category : string) (data : json) :
  truthy data = false -> parse_category_data category data = Ok [].
Proof.
  intros H. unfold parse_category_data. rewrite H. reflexivity.
Qed.

(** *** The loops on a well-shaped response *)







(** *** The loops never raise on values of the expected types *)

Lemma surveys_total (category : string) (sn yr : json) (l : list json) :
  forallb survey_ok l = true ->
  forall records, exists records',
    parse_surveys category sn yr (JArr l) records = Ok records'.
Proof.
  unfold parse_surveys. cbn [py_iter result_bind].
  induction l as [|v l IH]; intros Hl records; simpl.
  - eauto.
  - simpl in Hl. apply andb_true_iff in Hl as [Hv Hl].
    destruct v; try discriminate Hv. simpl. apply IH, Hl.
Qed.

Lemma years_total (category : string) (sn : json) (l : list json) :
  forallb year_ok l = true ->
  forall records, exists records',
    parse_years category sn (JArr l) records = Ok records'.
Proof.
  unfold parse_years. cbn [py_iter result_bind].
  induction l as [|v l IH]; intros Hl records; simpl.
  - eauto.
  - simpl in Hl. apply andb_true_iff in Hl as [Hv Hl].
    destruct v as [| | | | |?|o]; try discriminate Hv.
    cbn [py_get result_bind]. unfold year_ok in Hv.
    destruct (dict_lookup "item" o) as [surveys|].
    + destruct surveys as [| | | | |svs|?]; try discriminate Hv.
      destruct (surveys_total category sn
                  (match dict_lookup "year" o with
                   | Some x => x | None => JStr "Unknown" end) svs Hv records)
        as [records' ->].
      apply IH, Hl.
    + change (parse_surveys category sn _ (JArr []) records) with (Ok records).
      apply IH, Hl.
Qed.

Lemma items_total (category : string) (l : list json) :
  forallb series_ok l = true ->
  forall records, exists records',
    parse_items category (JArr l) records = Ok records'.
Proof.
  unfold parse_items. cbn [py_iter result_bind].
  induction l as [|v l IH]; intros Hl records; simpl.
  - eauto.
  - simpl in Hl. apply andb_true_iff in Hl as [Hv Hl].
    destruct v as [| | | | |?|o]; try discriminate Hv.
    cbn [py_get result_bind]. unfold series_ok in Hv.
    destruct (dict_lookup "years" o) as [years|].
    + destruct years as [| | | | |ys|?]; try discriminate Hv.
      destruct (years_total category
                  (match dict_lookup "series" o with
                   | Some x => x | None => JStr "Unknown" end) ys Hv records)
        as [records' ->].
      apply IH, Hl.
    + change (parse_years category _ (JArr []) records) with (Ok records).
      apply IH, Hl.
Qed.

(** C1, as the specification has it, fails: a ["content"] that is not a
    mapping makes the parser raise. *)
Lemma parse_category_data_raises :
  parse_category_data "Health" (JObj [("content", JNull)]) = Raise AttributeError
  /\ ~ (forall category data,
          exists records, parse_category_data category data = Ok records).
Proof.
  split; [reflexivity|].
  intros H. destruct (H "Health" (JObj [("content", JNull)])) as [records Hr].
  discriminate Hr.
Qed.

(** C1, amended. The parser never raises on a mapping in which every value
    present at ["content"], ["items"], ["years"] and ["item"] has the
    expected type (a mapping, and lists of mappings), whatever keys are
    missing and whatever ["datasets"] holds; and it returns no record for
    an empty mapping, a mapping without ["content"], a content without
    ["datasets"], a ["datasets"] that is not a mapping and a datasets
    without ["items"]. *)
Theorem parse_category_data_tolerant :
  forall (category : string) (data : json),
    (well_typed data = true ->
     exists records, parse_category_data category data = Ok records)
    /\ (degenerate data = true -> parse_category_data category data = Ok []).
Proof.
  intros category data. split.
  - intros H. destruct data as [| | | | | |o]; try discriminate H.
    rewrite parse_mapping. unfold well_typed in H.
    destruct (dict_lookup "content" o) as [content|]; [|eauto].
    destruct content as [| | | | | |c]; try discriminate H.
    cbn [py_get result_bind].
    destruct (dict_lookup "datasets" c) as [datasets|].
    + destruct datasets as [| | | | | |ds]; try (eexists; reflexivity).
      cbn [isinstance_dict negb py_get result_bind].
      destruct (dict_lookup "items" ds) as [items|].
      * destruct items as [| | | | |l|]; try discriminate H.
        apply items_total, H.
      * eexists. reflexivity.
    + eexists. reflexivity.
  - intros H. unfold degenerate in H.
    destruct (truthy data) eqn:Ht; [|now apply parse_falsy].
    simpl in H.
    destruct data as [| | | | | |o]; try discriminate H.
    rewrite parse_mapping.
    destruct (dict_lookup "content" o) as [content|]; [|reflexivity].
    destruct content as [| | | | | |c]; try discriminate H.
    cbn [py_get result_bind].
    destruct (dict_lookup "datasets" c) as [datasets|].
    + destruct datasets as [| | | | | |ds]; try reflexivity.
      cbn [isinstance_dict negb py_get result_bind].
      destruct (dict_lookup "items" ds); [discriminate H | reflexivity].
    + reflexivity.
Qed.

Lemma parse_category_data_tolerant_witness :
  (exists records,
     parse_category_data "Health"
       (JObj [("content", JObj [("datasets",
          JObj [("items", JArr [JObj [("series", JStr "S")]])])])]) = Ok records)
  /\ parse_category_data "Health" (JObj []) = Ok []
  /\ parse_category_data "Health"
       (JObj [("content", JObj [("datasets", JStr "No datasets")])]) = Ok [].
Proof.
  split; [|split].
  - apply (proj1 (parse_category_data_tolerant "Health" _)). reflexivity.
  - apply (proj2 (parse_category_data_tolerant "Health" _)). reflexivity.
  - apply (proj2 (parse_category_data_tolerant "Health" _)). reflexivity.
Defined.

(** ** Fetcher *)

Section FetcherFacts.

Variable net : nat -> string -> http_outcome.

Lemma fetch_category_data_run (self : ODESIScraper) (category : string) (t : trace) :
  fetch_category_data net self category t =
  (Ok (response_data (net (requests_made t) (browse_url category))),
   t ++ [request_for self category]).
Proof.
  unfold fetch_category_data, try_except, bind, session_get, lift, ret,
    response_data, request_for, browse_url.
  destruct (net (requests_made t) (BASE_URL ++ "?category=" ++ quote category))
    as [e|status_code body]; [reflexivity|].
  cbn [fst snd]. unfold raise_for_status.
  destruct ((400 <=? status_code)%Z && (status_code <? 600)%Z); [reflexivity|].
  destruct body; reflexivity.
Qed.

(** C6. Whatever the request meets, a fetch issues exactly one request (no
    retry), with a timeout of 30, and never raises: it returns the empty
    mapping when the request fails (connection error, timeout, ...) or is
    answered with a 4xx or 5xx status, and the decoded body when it is
    answered otherwise. *)
Theorem fetch_category_data_total :
  forall (self : ODESIScraper) (category : string) (t : trace),
    let outcome := net (requests_made t) (browse_url category) in
    let run := fetch_category_data net self category t in
    snd run = t ++ [Get (browse_url category) (session_headers self) 30]
    /\ requests_made (snd run) = S (requests_made t)
    /\ (exists data, fst run = Ok data)
    /\ (forall e, outcome = Failed e -> fst run = Ok (JObj []))
    /\ (forall status_code body,
          outcome = Response status_code body ->
          (400 <= status_code < 600)%Z -> fst run = Ok (JObj []))
    /\ (forall status_code data,
          outcome = Response status_code (Some data) ->
          ~ (400 <= status_code < 600)%Z -> fst run = Ok data).
Proof.
  intros self category t outcome run. subst run.
  rewrite fetch_category_data_run. cbn [fst snd]. fold outcome.
  split; [reflexivity|]. split.
  { unfold requests_made, request_for. rewrite filter_app, length_app.
    simpl. lia. }
  split; [eauto|]. split; [|split].
  - intros e ->. reflexivity.
  - intros status_code body -> Hs. simpl.
    replace ((400 <=? status_code)%Z && (status_code <? 600)%Z) with true;
      [reflexivity|].
    symmetry. apply andb_true_iff. split; [apply Z.leb_le | apply Z.ltb_lt]; lia.
  - intros status_code data -> Hs. simpl.
    destruct ((400 <=? status_code)%Z && (status_code <? 600)%Z) eqn:E;
      [|reflexivity].
    apply andb_true_iff in E as [E1 E2].
    apply Z.leb_le in E1. apply Z.ltb_lt in E2. exfalso. apply Hs. lia.
Qed.

End FetcherFacts.

Lemma fetch_category_data_total_witness :
  fst (fetch_category_data net_example (init DEFAULT_DELAY) "Health" []) =
    Ok (JObj [("content", JObj [])])
  /\ fst (fetch_category_data net_example (init DEFAULT_DELAY) "Health"
            [Get "u" [] 30]) = Ok (JObj [])
  /\ fst (fetch_category_data net_example (init DEFAULT_DELAY) "Health"
            [Get "u" [] 30; Sleep DEFAULT_DELAY; Get "v" [] 30]) = Ok (JObj []).
Proof.
  split; [|split].
  - apply (proj2 (proj2 (proj2 (proj2 (proj2
      (fetch_category_data_total net_example (init DEFAULT_DELAY) "Health" []))))) 200%Z).
    + reflexivity.
    + lia.
  - apply (proj1 (proj2 (proj2 (proj2
      (fetch_category_data_total net_example (init DEFAULT_DELAY) "Health" [Get "u" [] 30]))))
      Timeout).
    reflexivity.
  - apply (proj1 (proj2 (proj2 (proj2 (proj2
      (fetch_category_data_total net_example (init DEFAULT_DELAY) "Health"
         [Get "u" [] 30; Sleep DEFAULT_DELAY; Get "v" [] 30]))))) 503%Z None).
    + reflexivity.
    + lia.
Defined.

(** ** Aggregator *)

Lemma requests_made_get (t : trace) (url : string) (h : list (string * string)) (z : Z) :
  requests_made (t ++ [Get url h z]) = S (requests_made t).
Proof.
  unfold requests_made. rewrite filter_app, length_app. simpl. lia.
Qed.

Lemma requests_made_sleep (t : trace) (d : spec_float) :
  requests_made (t ++ [Sleep d]) = requests_made t.
Proof.
  unfold requests_made. rewrite filter_app, length_app. simpl. lia.
Qed.

Lemma intersperse_cons {A : Type} (sep x y : A) (l : list A) :
  intersperse sep (x :: y :: l) = x :: sep :: intersperse sep (y :: l).
Proof. reflexivity. Qed.

Lemma intersperse_snoc_cons {A : Type} (sep x : A) (l : list A) (y : A) :
  intersperse sep (x :: l ++ [y]) = x :: sep :: intersperse sep (l ++ [y]).
Proof. destruct l; reflexivity. Qed.

Section Counting.

Variable self : ODESIScraper.

Lemma pacing_gets (cs : list string) :
  filter is_get (intersperse (Sleep (delay self)) (map (request_for self) cs))
  = map (request_for self) cs.
Proof.
  induction cs as [|c [|c' cs] IH]; [reflexivity | reflexivity |].
  change (map (request_for self) (c :: c' :: cs))
    with (request_for self c :: request_for self c' :: map (request_for self) cs).
  rewrite intersperse_cons.
  change (map (request_for self) (c' :: cs))
    with (request_for self c' :: map (request_for self) cs) in IH.
  cbn [filter is_get request_for is_sleep]. f_equal. exact IH.
Qed.

Lemma pacing_sleeps (cs : list string) :
  length (filter is_sleep (intersperse (Sleep (delay self)) (map (request_for self) cs)))
  = length cs - 1.
Proof.
  induction cs as [|c [|c' cs] IH]; [reflexivity | reflexivity |].
  change (map (request_for self) (c :: c' :: cs))
    with (request_for self c :: request_for self c' :: map (request_for self) cs).
  rewrite intersperse_cons.
  change (map (request_for self) (c' :: cs))
    with (request_for self c' :: map (request_for self) cs) in IH.
  cbn [filter is_get request_for is_sleep length]. rewrite IH. simpl. lia.
Qed.

(** A pause of the pacing has a request right before it and a request right
    after it. *)
Lemma pacing_between (cs : list string) :
  forall pre post d,
    intersperse (Sleep (delay self)) (map (request_for self) cs)
      = pre ++ Sleep d :: post ->
    exists pre' c1 c2 post',
      pre = pre' ++ [request_for self c1] /\ post = request_for self c2 :: post'.
Proof.
  induction cs as [|c [|c' cs] IH]; intros pre post d H.
  - destruct pre; discriminate H.
  - destruct pre as [|e [|e' pre]]; discriminate H.
  - change (map (request_for self) (c :: c' :: cs))
      with (request_for self c :: request_for self c' :: map (request_for self) cs) in H.
    rewrite intersperse_cons in H.
    destruct pre as [|e [|e' pre]].
    + discriminate H.
    + injection H as He Hd Hpost. subst e.
      exists [], c, c'.
      change (map (request_for self) (c' :: cs))
        with (request_for self c' :: map (request_for self) cs) in IH.
      destruct cs as [|c'' cs].
      * exists []. split; [reflexivity|]. now rewrite <- Hpost.
      * exists (Sleep (delay self) :: intersperse (Sleep (delay self))
                  (map (request_for self) (c'' :: cs))).
        split; [reflexivity|]. now rewrite <- Hpost.
    + injection H as He He' Hrest. subst e e'.
      destruct (IH pre post d Hrest) as (pre' & c1 & c2 & post' & Hp & Hq).
      exists (request_for self c :: Sleep (delay self) :: pre'), c1, c2, post'.
      split; [now rewrite Hp | exact Hq].
Qed.

End Counting.

Section AggregatorFacts.

Variable net : nat -> string -> http_outcome.
Variable sleep_error : spec_float -> option exn.
Variable self : ODESIScraper.

(** What the [j]-th request of a run, for category [c], hands to the parser
    when [k] requests came before the run. *)
Let handed (k j : nat) (c : string) : json :=
  response_data (net (k + j) (browse_url c)).

(** One turn of the loop of [scrape_all_categories] over [n] categories. *)
Let turn (n : nat) (all_records : list (record json)) (ic : nat * string)
  : M trace (list (record json)) :=
  let '(i, category) := ic in
  bind (fetch_category_data net self category) (fun data =>
  bind (lift (parse_category_data category data)) (fun records =>
  let all_records := all_records ++ records in
  bind (if (i <? n)%nat then time_sleep sleep_error (delay self) else ret tt) (fun _ =>
  ret all_records))).

Lemma scrape_all_categories_loop (categories : option (list string)) (t : trace) :
  scrape_all_categories net sleep_error self categories t =
  bind (for_eachM (enumerate 1 (effective_categories categories)) []
          (turn (length (effective_categories categories))))
       (fun all_records => ret (pd_DataFrame all_records)) t.
Proof. reflexivity. Qed.

(** A turn whose response parses, with a pause after it. *)
Lemma turn_pauses (n i : nat) (c : string) (acc records : list (record json))
    (t : trace) :
  (i <? n)%nat = true ->
  sleep_error (delay self) = None ->
  parse_category_data c (handed (requests_made t) 0 c) = Ok records ->
  turn n acc (i, c) t =
  (Ok (acc ++ records), t ++ [request_for self c] ++ [Sleep (delay self)]).
Proof.
  intros Hi Hs Hp. unfold turn, handed in *. rewrite Nat.add_0_r in Hp.
  unfold bind at 1. rewrite fetch_category_data_run.
  unfold bind at 1. unfold lift at 1. rewrite Hp, Hi.
  unfold bind, time_sleep, ret. rewrite Hs. now rewrite <- app_assoc.
Qed.

(** A turn whose response parses, without a pause: the last one. *)
Lemma turn_last (n i : nat) (c : string) (acc records : list (record json))
    (t : trace) :
  (i <? n)%nat = false ->
  parse_category_data c (handed (requests_made t) 0 c) = Ok records ->
  turn n acc (i, c) t = (Ok (acc ++ records), t ++ [request_for self c]).
Proof.
  intros Hi Hp. unfold turn, handed in *. rewrite Nat.add_0_r in Hp.
  unfold bind at 1. rewrite fetch_category_data_run.
  unfold bind at 1. unfold lift at 1. rewrite Hp, Hi. reflexivity.
Qed.

(** A turn whose response makes the parser raise. *)
Lemma turn_raises (n i : nat) (c : string) (acc : list (record json)) (e : exn)
    (t : trace) :
  parse_category_data c (handed (requests_made t) 0 c) = Raise e ->
  turn n acc (i, c) t = (Raise e, t ++ [request_for self c]).
Proof.
  intros Hp. unfold turn, handed in *. rewrite Nat.add_0_r in Hp.
  unfold bind at 1. rewrite fetch_category_data_run.
  unfold bind at 1. unfold lift at 1. rewrite Hp. reflexivity.
Qed.

(** A turn whose pause is refused. *)
Lemma turn_refused (n i : nat) (c : string) (acc records : list (record json))
    (e : exn) (t : trace) :
  (i <? n)%nat = true ->
  sleep_error (delay self) = Some e ->
  parse_category_data c (handed (requests_made t) 0 c) = Ok records ->
  turn n acc (i, c) t = (Raise e, t ++ [request_for self c]).
Proof.
  intros Hi Hs Hp. unfold turn, handed in *. rewrite Nat.add_0_r in Hp.
  unfold bind at 1. rewrite fetch_category_data_run.
  unfold bind at 1. unfold lift at 1. rewrite Hp, Hi.
  unfold bind, time_sleep. now rewrite Hs.
Qed.

Lemma requests_after_pause (t : trace) (c : string) :
  requests_made (t ++ [request_for self c] ++ [Sleep (delay self)])
  = S (requests_made t).
Proof.
  rewrite app_assoc, requests_made_sleep. unfold request_for.
  apply requests_made_get.
Qed.

(** The loop from its [i]-th turn on, [cs] being the categories still to
    come out of [n] and [p] the position of the first of them, when every
    response parses. *)
Lemma scrape_loop (n : nat) (recs : nat -> list (record json)) :
  (2 <= n -> sleep_error (delay self) = None) ->
  forall (cs : list string) (i p : nat) (acc : list (record json)) (t : trace),
    1 <= i -> i + length cs = S n ->
    (forall j c, nth_error cs j = Some c ->
       parse_category_data c (handed (requests_made t) j c) = Ok (recs (p + j))) ->
    for_eachM (enumerate i cs) acc (turn n) t
    = (Ok (acc ++ concat (map recs (seq p (length cs)))),
       t ++ intersperse (Sleep (delay self)) (map (request_for self) cs)).
Proof.
  intros Hd cs.
  induction cs as [|c cs IH]; intros i p acc t Hi1 Hi H.
  - simpl. now rewrite !app_nil_r.
  - cbn [enumerate for_eachM]. unfold bind at 1.
    pose proof (H 0 c eq_refl) as H0. rewrite Nat.add_0_r in H0.
    destruct cs as [|c' cs].
    + simpl in Hi.
      rewrite (turn_last n i c acc (recs p) t); [|apply Nat.ltb_ge; lia|exact H0].
      cbn [enumerate for_eachM ret seq map concat length intersperse].
      now rewrite app_nil_r.
    + cbn [length] in Hi.
      rewrite (turn_pauses n i c acc (recs p) t);
        [|apply Nat.ltb_lt; lia|apply Hd; lia|exact H0].
      rewrite (IH (S i) (S p)).
      * f_equal.
        -- cbn [length seq map concat]. now rewrite <- app_assoc.
        -- change (map (request_for self) (c :: c' :: cs))
             with (request_for self c :: request_for self c'
                   :: map (request_for self) cs).
           rewrite intersperse_cons. rewrite <- !app_assoc. reflexivity.
      * lia.
      * cbn [length] in *. lia.
      * intros j c0 Hj. rewrite requests_after_pause. unfold handed.
        replace (S (requests_made t) + j) with (requests_made t + S j) by lia.
        replace (S p + j) with (p + S j) by lia.
        apply (H (S j) c0). exact Hj.
Qed.

(** The loop when the parser raises on the category that follows [pre]. *)
Lemma scrape_loop_raises (n : nat) (e : exn) :
  forall (pre : list string) (c : string) (post : list string)
         (i : nat) (acc : list (record json)) (t : trace),
    (pre <> [] -> sleep_error (delay self) = None) ->
    i + length (pre ++ c :: post) = S n ->
    (forall j c', nth_error pre j = Some c' ->
       exists records,
         parse_category_data c' (handed (requests_made t) j c') = Ok records) ->
    parse_category_data c (handed (requests_made t) (length pre) c) = Raise e ->
    for_eachM (enumerate i (pre ++ c :: post)) acc (turn n) t
    = (Raise e,
       t ++ intersperse (Sleep (delay self)) (map (request_for self) (pre ++ [c]))).
Proof.
  induction pre as [|c0 pre IH]; intros c post i acc t Hd Hi Hpre Hc.
  - cbn [app enumerate for_eachM]. unfold bind at 1.
    rewrite (turn_raises n i c acc e t); [reflexivity | exact Hc].
  - cbn [app enumerate for_eachM]. unfold bind at 1.
    destruct (Hpre 0 c0 eq_refl) as [records H0].
    cbn [app length] in Hi. rewrite length_app in Hi. cbn [length] in Hi.
    rewrite (turn_pauses n i c0 acc records t);
      [|apply Nat.ltb_lt; lia|apply Hd; discriminate|exact H0].
    rewrite (IH c post (S i)).
    + f_equal. cbn [map app]. rewrite map_app. cbn [map].
      rewrite intersperse_snoc_cons. rewrite <- !app_assoc. reflexivity.
    + intros _. apply Hd. discriminate.
    + rewrite length_app. cbn [length]. lia.
    + intros j c' Hj. rewrite requests_after_pause. unfold handed.
      replace (S (requests_made t) + j) with (requests_made t + S j) by lia.
      apply (Hpre (S j) c'). exact Hj.
    + rewrite requests_after_pause. unfold handed in *.
      replace (S (requests_made t) + length pre)
        with (requests_made t + length (c0 :: pre)) by (cbn [length]; lia).
      exact Hc.
Qed.

(** The loop when it returns: every response has parsed, and the value is
    what was there followed by the records of the categories, in order. *)
Lemma scrape_loop_returns (n : nat) :
  forall (cs : list string) (i p : nat) (acc acc' : list (record json))
         (t t' : trace),
    for_eachM (enumerate i cs) acc (turn n) t = (Ok acc', t') ->
    exists recs : nat -> list (record json),
      (forall j c, nth_error cs j = Some c ->
         parse_category_data c (handed (requests_made t) j c) = Ok (recs (p + j)))
      /\ acc' = acc ++ concat (map recs (seq p (length cs))).
Proof.
  induction cs as [|c cs IH]; intros i p acc acc' t t' H.
  - simpl in H. injection H as <- _. exists (fun _ => []).
    split; [intros [|j] c Hj; discriminate Hj | simpl; now rewrite app_nil_r].
  - cbn [enumerate for_eachM] in H. unfold bind at 1 in H.
    destruct (parse_category_data c (handed (requests_made t) 0 c))
      as [records|e] eqn:Hp;
      [|rewrite (turn_raises n i c acc e t Hp) in H; discriminate H].
    destruct (i <? n)%nat eqn:Hi.
    + destruct (sleep_error (delay self)) as [e|] eqn:Hs;
        [rewrite (turn_refused n i c acc records e t Hi Hs Hp) in H;
         discriminate H|].
      rewrite (turn_pauses n i c acc records t Hi Hs Hp) in H.
      destruct (IH (S i) (S p) _ _ _ _ H) as (recs & Hrecs & ->).
      exists (fun j => if (j =? p)%nat then records else recs j).
      split.
      * intros [|j] c0 Hj.
        -- simpl in Hj. injection Hj as <-. rewrite Nat.add_0_r, Nat.eqb_refl.
           exact Hp.
        -- replace ((p + S j =? p)%nat) with false
             by (symmetry; apply Nat.eqb_neq; lia).
           specialize (Hrecs j c0 Hj). rewrite requests_after_pause in Hrecs.
           unfold handed in *.
           replace (requests_made t + S j) with (S (requests_made t) + j) by lia.
           replace (p + S j) with (S p + j) by lia. exact Hrecs.
      * cbn [length seq map concat]. rewrite Nat.eqb_refl, <- app_assoc.
        do 3 f_equal. apply map_ext_in. intros j Hj. apply in_seq in Hj.
        replace ((j =? p)%nat) with false
          by (symmetry; apply Nat.eqb_neq; lia).
        reflexivity.
    + rewrite (turn_last n i c acc records t Hi Hp) in H.
      destruct (IH (S i) (S p) _ _ _ _ H) as (recs & Hrecs & ->).
      exists (fun j => if (j =? p)%nat then records else recs j).
      split.
      * intros [|j] c0 Hj.
        -- simpl in Hj. injection Hj as <-. rewrite Nat.add_0_r, Nat.eqb_refl.
           exact Hp.
        -- replace ((p + S j =? p)%nat) with false
             by (symmetry; apply Nat.eqb_neq; lia).
           specialize (Hrecs j c0 Hj).
           unfold request_for in Hrecs. rewrite requests_made_get in Hrecs.
           unfold handed in *.
           replace (requests_made t + S j) with (S (requests_made t) + j) by lia.
           replace (p + S j) with (S p + j) by lia. exact Hrecs.
      * cbn [length seq map concat]. rewrite Nat.eqb_refl, <- app_assoc.
        do 3 f_equal. apply map_ext_in. intros j Hj. apply in_seq in Hj.
        replace ((j =? p)%nat) with false
          by (symmetry; apply Nat.eqb_neq; lia).
        reflexivity.
Qed.

(** A run in which every response parses. *)
Lemma scrape_all_categories_run (categories : option (list string))
    (t0 : trace) (recs : nat -> list (record json)) :
  let cats := effective_categories categories in
  (forall j c, nth_error cats j = Some c ->
     parse_category_data c
       (response_data (net (requests_made t0 + j) (browse_url c)))
     = Ok (recs j)) ->
  (2 <= length cats -> sleep_error (delay self) = None) ->
  scrape_all_categories net sleep_error self categories t0 =
  (Ok (pd_DataFrame (concat (map recs (seq 0 (length cats))))),
   t0 ++ intersperse (Sleep (delay self)) (map (request_for self) cats)).
Proof.
  intros cats H Hd. rewrite scrape_all_categories_loop. fold cats.
  unfold bind at 1.
  rewrite (scrape_loop (length cats) recs Hd cats 1 0 [] t0);
    [reflexivity | lia | lia | exact H].
Qed.

(** A run in which the parser raises on the category that follows [pre]. *)
Lemma scrape_all_categories_raises (categories : option (list string))
    (pre : list string) (c : string) (post : list string) (t0 : trace) (e : exn) :
  effective_categories categories = pre ++ c :: post ->
  (pre <> [] -> sleep_error (delay self) = None) ->
  (forall j c', nth_error pre j = Some c' ->
     exists records,
       parse_category_data c'
         (response_data (net (requests_made t0 + j) (browse_url c'))) = Ok records) ->
  parse_category_data c
    (response_data (net (requests_made t0 + length pre) (browse_url c))) = Raise e ->
  scrape_all_categories net sleep_error self categories t0 =
  (Raise e,
   t0 ++ intersperse (Sleep (delay self)) (map (request_for self) (pre ++ [c]))).
Proof.
  intros Hcats Hd Hpre Hc. rewrite scrape_all_categories_loop, Hcats.
  unfold bind at 1.
  rewrite (scrape_loop_raises (length (pre ++ c :: post)) e pre c post 1 [] t0
             Hd eq_refl Hpre Hc).
  reflexivity.
Qed.

(** A run that returns. *)
Lemma scrape_all_categories_returned (categories : option (list string))
    (t0 : trace) (ds : dataset) :
  let cats := effective_categories categories in
  fst (scrape_all_categories net sleep_error self categories t0) = Ok ds ->
  exists recs : nat -> list (record json),
    (forall j c, nth_error cats j = Some c ->
       parse_category_data c
         (response_data (net (requests_made t0 + j) (browse_url c)))
       = Ok (recs j))
    /\ ds = pd_DataFrame (concat (map recs (seq 0 (length cats)))).
Proof.
  intros cats H. rewrite scrape_all_categories_loop in H. fold cats in H.
  unfold bind at 1 in H.
  destruct (for_eachM (enumerate 1 cats) [] (turn (length cats)) t0)
    as [[acc'|e] t'] eqn:E; [|discriminate H].
  destruct (scrape_loop_returns (length cats) cats 1 0 [] acc' t0 t' E)
    as (recs & Hrecs & ->).
  exists recs. split; [exact Hrecs|].
  cbn [ret fst] in H. now injection H as <-.
Qed.

(** The trace of a run in which every response but, perhaps, the last one
    parses. *)
Lemma scrape_all_categories_trace (categories : option (list string)) (t0 : trace) :
  let cats := effective_categories categories in
  (forall j c, S j < length cats -> nth_error cats j = Some c ->
     exists records,
       parse_category_data c
         (response_data (net (requests_made t0 + j) (browse_url c))) = Ok records) ->
  (2 <= length cats -> sleep_error (delay self) = None) ->
  snd (scrape_all_categories net sleep_error self categories t0) =
  t0 ++ intersperse (Sleep (delay self)) (map (request_for self) cats).
Proof.
  intros cats. subst cats.
  remember (effective_categories categories) as cs eqn:Hcs.
  symmetry in Hcs. intros H Hd.
  destruct cs as [|c0 cs0].
  { rewrite (scrape_all_categories_run categories t0 (fun _ => [])).
    - now rewrite Hcs.
    - rewrite Hcs. intros [|j] c Hj; discriminate Hj.
    - rewrite Hcs. simpl. lia. }
  destruct (@exists_last _ (c0 :: cs0)) as (pre & c & Hlast); [discriminate|].
  rewrite Hlast in *. clear c0 cs0 Hlast.
  rewrite length_app in H, Hd. cbn [length] in H, Hd.
  assert (Hpre : forall j c', nth_error pre j = Some c' ->
            exists records,
              parse_category_data c'
                (response_data (net (requests_made t0 + j) (browse_url c')))
              = Ok records).
  { intros j c' Hj.
    assert (Hlt : j < length pre) by (apply nth_error_Some; congruence).
    apply H; [lia|]. now rewrite nth_error_app1. }
  destruct (parse_category_data c
              (response_data (net (requests_made t0 + length pre) (browse_url c))))
    as [records|e] eqn:Hc.
  - set (recs := fun j =>
           match nth_error (pre ++ [c]) j with
           | Some c' =>
               match parse_category_data c'
                       (response_data (net (requests_made t0 + j) (browse_url c')))
               with
               | Ok r => r
               | Raise _ => []
               end
           | None => []
           end).
    rewrite (scrape_all_categories_run categories t0 recs).
    + now rewrite Hcs.
    + rewrite Hcs. intros j c' Hj. unfold recs. rewrite Hj.
      destruct (Nat.lt_ge_cases j (length pre)) as [Hlt|Hge].
      * rewrite nth_error_app1 in Hj by exact Hlt.
        destruct (Hpre j c' Hj) as [r ->]. reflexivity.
      * rewrite nth_error_app2 in Hj by exact Hge.
        destruct (j - length pre) as [|k] eqn:Hk;
          [|destruct k; discriminate Hj].
        injection Hj as <-. replace j with (length pre) by lia.
        now rewrite Hc.
    + rewrite Hcs, length_app. cbn [length]. exact Hd.
  - rewrite (scrape_all_categories_raises categories pre c [] t0 e);
      [reflexivity | exact Hcs | | exact Hpre | exact Hc].
    intros Hne. apply Hd. destruct pre; [contradiction | simpl; lia].
Qed.

End AggregatorFacts.

(** C4, as the specification has it, fails: when the first response makes
    the parser raise, the run ends after one fetch out of two. *)
Lemma scrape_all_categories_stops_early :
  scrape_all_categories net_null sleep_sample (init NO_DELAY) (Some ["A"; "B"]) [] =
    (Raise AttributeError, [request_for (init NO_DELAY) "A"])
  /\ ~ (forall net sleep_error self categories,
          requests_made
            (snd (scrape_all_categories net sleep_error self (Some categories) []))
          = length categories).
Proof.
  split; [reflexivity|].
  intros H. specialize (H net_null sleep_sample (init NO_DELAY) ["A"; "B"]).
  discriminate H.
Qed.

(** C4, amended. When the parser accepts the response of every category
    but, perhaps, the last one, and [time.sleep] takes the delay (or there
    are fewer than two categories), a run over [n] categories adds to the
    trace exactly the [n] requests, one per category and in list order,
    with one pause of [delay] between every two consecutive requests and
    nowhere else: [n - 1] pauses for [n >= 1] and none for [n = 0], none
    before the first request and none after the last. *)
Theorem scrape_all_categories_pacing :
  forall (net : nat -> string -> http_outcome)
         (sleep_error : spec_float -> option exn) (self : ODESIScraper)
         (categories : option (list string)) (t0 : trace),
    let cats := effective_categories categories in
    let new := intersperse (Sleep (delay self)) (map (request_for self) cats) in
    (forall j c, S j < length cats -> nth_error cats j = Some c ->
       exists records,
         parse_category_data c
           (response_data (net (requests_made t0 + j) (browse_url c)))
         = Ok records) ->
    (2 <= length cats -> sleep_error (delay self) = None) ->
    snd (scrape_all_categories net sleep_error self categories t0) = t0 ++ new
    /\ filter is_get new = map (request_for self) cats
    /\ length (filter is_get new) = length cats
    /\ length (filter is_sleep new) = length cats - 1
    /\ (forall pre post d,
          new = pre ++ Sleep d :: post ->
          exists pre' c1 c2 post',
            pre = pre' ++ [request_for self c1]
            /\ post = request_for self c2 :: post').
Proof.
  intros net sleep_error self categories t0 cats new H Hd.
  split; [|split; [|split; [|split]]].
  - apply scrape_all_categories_trace; assumption.
  - apply pacing_gets.
  - unfold new. rewrite pacing_gets. apply length_map.
  - apply pacing_sleeps.
  - apply pacing_between.
Qed.

(** The example of the specification: categories [A] and [B] with delay 0
    give two fetches with one pause strictly between them. *)
Lemma scrape_all_categories_pacing_witness :
  snd (scrape_all_categories net_example sleep_sample (init NO_DELAY)
         (Some ["A"; "B"]) []) =
  [Get "https://odesi.ca/api/browse?category=A" (session_headers (init NO_DELAY)) 30;
   Sleep NO_DELAY;
   Get "https://odesi.ca/api/browse?category=B" (session_headers (init NO_DELAY)) 30].
Proof.
  refine (proj1 (scrape_all_categories_pacing net_example sleep_sample
                   (init NO_DELAY) (Some ["A"; "B"]) [] _ _)).
  - intros [|[|j]] c Hlt Hj; simpl in Hj.
    + injection Hj as <-. eexists. reflexivity.
    + simpl in Hlt. lia.
    + destruct j; discriminate Hj.
  - intros _. reflexivity.
Defined.

(** C5. A run returns a dataset exactly when every category's response
    parses to a list of records and [time.sleep] takes the delay (or there
    are fewer than two categories); the dataset it returns is then the
    frame built from the concatenation of those lists in the order of the
    categories: every record of every list, duplicates included, none
    moved. *)
Theorem scrape_all_categories_concat :
  forall (net : nat -> string -> http_outcome)
         (sleep_error : spec_float -> option exn) (self : ODESIScraper)
         (categories : option (list string)) (t0 : trace),
    let cats := effective_categories categories in
    let run := scrape_all_categories net sleep_error self categories t0 in
    (forall recs : nat -> list (record json),
       (forall j c, nth_error cats j = Some c ->
          parse_category_data c
            (response_data (net (requests_made t0 + j) (browse_url c)))
          = Ok (recs j)) ->
       (2 <= length cats -> sleep_error (delay self) = None) ->
       fst run = Ok (pd_DataFrame (concat (map recs (seq 0 (length cats))))))
    /\ (forall ds : dataset,
          fst run = Ok ds ->
          exists recs : nat -> list (record json),
            (forall j c, nth_error cats j = Some c ->
               parse_category_data c
                 (response_data (net (requests_made t0 + j) (browse_url c)))
               = Ok (recs j))
            /\ ds = pd_DataFrame (concat (map recs (seq 0 (length cats))))).
Proof.
  intros net sleep_error self categories t0 cats run. split.
  - intros recs H Hd. subst run.
    now rewrite (scrape_all_categories_run net sleep_error self categories t0 recs H Hd).
  - intros ds H. apply (scrape_all_categories_returned _ _ _ _ _ _ H).
Qed.

Lemma scrape_all_categories_concat_witness :
  fst (scrape_all_categories net_surveys sleep_sample (init NO_DELAY)
         (Some ["Health"; "Labour"]) [])
  = Ok (pd_DataFrame (leaf_records "Health" example_items ++
                      leaf_records "Labour" example_items ++ [])).
Proof.
  refine (proj1 (scrape_all_categories_concat net_surveys sleep_sample
                   (init NO_DELAY) (Some ["Health"; "Labour"]) [])
            (fun j => match j with
                      | 0 => leaf_records "Health" example_items
                      | 1 => leaf_records "Labour" example_items
                      | _ => []
                      end) _ _).
  - intros [|[|j]] c Hj; simpl in Hj.
    + injection Hj as <-. reflexivity.
    + injection Hj as <-. reflexivity.
    + destruct j; discriminate Hj.
  - intros _. reflexivity.
Defined.

(** ** Order on text and sorting *)

Lemma string_compare_refl (a : string) : String.compare a a = Eq.
Proof. now apply String_as_OT.cmp_eq. Qed.

Lemma string_compare_lt_trans (a b c : string) :
  String.compare a b = Lt -> String.compare b c = Lt -> String.compare a c = Lt.
Proof.
  intros H1 H2.
  apply String_as_OT.cmp_lt in H1. apply String_as_OT.cmp_lt in H2.
  apply String_as_OT.cmp_lt. eapply String_as_OT.lt_trans; eassumption.
Qed.

Lemma string_leb_refl (a : string) : String.leb a a = true.
Proof. unfold String.leb. now rewrite string_compare_refl. Qed.

Lemma string_leb_trans (a b c : string) :
  String.leb a b = true -> String.leb b c = true -> String.leb a c = true.
Proof.
  unfold String.leb.
  destruct (String.compare a b) eqn:Hab; try discriminate;
    destruct (String.compare b c) eqn:Hbc; try discriminate; intros _ _.
  - apply String.compare_eq_iff in Hab, Hbc. subst. now rewrite string_compare_refl.
  - apply String.compare_eq_iff in Hab. subst. now rewrite Hbc.
  - apply String.compare_eq_iff in Hbc. subst. now rewrite Hab.
  - now rewrite (string_compare_lt_trans a b c Hab Hbc).
Qed.

Lemma lex_compare_refl (a : list string) : lex_compare a a = Eq.
Proof.
  induction a as [|x a IH]; simpl; [reflexivity|].
  now rewrite string_compare_refl.
Qed.

Lemma lex_compare_eq (a b : list string) : lex_compare a b = Eq -> a = b.
Proof.
  revert b. induction a as [|x a IH]; intros [|y b] H; simpl in H;
    try discriminate; [reflexivity|].
  destruct (String.compare x y) eqn:Hxy; try discriminate.
  apply String.compare_eq_iff in Hxy. subst. f_equal. now apply IH.
Qed.

Lemma lex_compare_antisym (a b : list string) :
  lex_compare a b = CompOpp (lex_compare b a).
Proof.
  revert b. induction a as [|x a IH]; intros [|y b]; simpl; try reflexivity.
  rewrite String.compare_antisym.
  destruct (String.compare y x); simpl; [apply IH | reflexivity | reflexivity].
Qed.

Lemma lex_compare_lt_trans (a b c : list string) :
  lex_compare a b = Lt -> lex_compare b c = Lt -> lex_compare a c = Lt.
Proof.
  revert b c. induction a as [|x a IH]; intros [|y b] [|z c]; simpl;
    try discriminate; try reflexivity.
  destruct (String.compare x y) eqn:Hxy; try discriminate;
    destruct (String.compare y z) eqn:Hyz; try discriminate; intros H1 H2.
  - apply String.compare_eq_iff in Hxy, Hyz. subst.
    rewrite string_compare_refl. eapply IH; eassumption.
  - apply String.compare_eq_iff in Hxy. subst. now rewrite Hyz.
  - apply String.compare_eq_iff in Hyz. subst. now rewrite Hxy.
  - now rewrite (string_compare_lt_trans x y z Hxy Hyz).
Qed.

Lemma lex_leb_total (a b : list string) : lex_leb a b = false -> lex_leb b a = true.
Proof.
  unfold lex_leb. rewrite (lex_compare_antisym b a).
  destruct (lex_compare a b); simpl; intros H; try discriminate; reflexivity.
Qed.

Lemma lex_leb_trans (a b c : list string) :
  lex_leb a b = true -> lex_leb b c = true -> lex_leb a c = true.
Proof.
  unfold lex_leb.
  destruct (lex_compare a b) eqn:Hab; try discriminate;
    destruct (lex_compare b c) eqn:Hbc; try discriminate; intros _ _.
  - apply lex_compare_eq in Hab, Hbc. subst. now rewrite lex_compare_refl.
  - apply lex_compare_eq in Hab. subst. now rewrite Hbc.
  - apply lex_compare_eq in Hbc. subst. now rewrite Hab.
  - now rewrite (lex_compare_lt_trans a b c Hab Hbc).
Qed.

Lemma key_eqb_eq (a b : list string) : key_eqb a b = true <-> a = b.
Proof.
  unfold key_eqb. destruct (list_eq_dec string_dec a b); split; intros H;
    try reflexivity; try assumption; try discriminate; contradiction.
Qed.

Lemma key_eqb_refl (a : list string) : key_eqb a a = true.
Proof. now apply key_eqb_eq. Qed.

Section Sorting.

Context {A : Type}.
Variable leb : A -> A -> bool.

Lemma insert_sorted_perm (x : A) (l : list A) :
  Permutation (insert_sorted leb x l) (x :: l).
Proof.
  induction l as [|y l IH]; simpl; [apply Permutation_refl|].
  destruct (leb x y).
  - apply Permutation_refl.
  - rewrite IH. apply perm_swap.
Qed.

Lemma stable_sort_perm (l : list A) : Permutation (stable_sort leb l) l.
Proof.
  induction l as [|x l IH]; simpl; [constructor|].
  rewrite insert_sorted_perm. now constructor.
Qed.

Lemma stable_sort_in (l : list A) (x : A) : In x (stable_sort leb l) <-> In x l.
Proof.
  split; apply Permutation_in;
    [apply stable_sort_perm | apply Permutation_sym, stable_sort_perm].
Qed.

Hypothesis leb_total : forall a b, leb a b = false -> leb b a = true.
Hypothesis leb_trans : forall a b c, leb a b = true -> leb b c = true -> leb a c = true.

Lemma insert_sorted_sorted (x : A) (l : list A) :
  StronglySorted (fun a b => leb a b = true) l ->
  StronglySorted (fun a b => leb a b = true) (insert_sorted leb x l).
Proof.
  induction l as [|y l IH]; intros Hs; simpl.
  - constructor; constructor.
  - inversion Hs as [|? ? Hs' Hall]; subst.
    destruct (leb x y) eqn:Hxy.
    + constructor; [exact Hs|].
      constructor; [exact Hxy|].
      apply Forall_forall. intros z Hz.
      rewrite Forall_forall in Hall.
      apply leb_trans with y; [exact Hxy | now apply Hall].
    + constructor; [now apply IH|].
      apply Forall_forall. intros z Hz.
      apply (Permutation_in _ (insert_sorted_perm x l)) in Hz.
      destruct Hz as [<-|Hz]; [now apply leb_total|].
      rewrite Forall_forall in Hall. now apply Hall.
Qed.

Lemma stable_sort_sorted (l : list A) :
  StronglySorted (fun a b => leb a b = true) (stable_sort leb l).
Proof.
  induction l as [|x l IH]; simpl; [constructor|].
  now apply insert_sorted_sorted.
Qed.

End Sorting.

(** Sorting the images under [f] is sorting by the order pulled back along
    [f]. *)
Lemma stable_sort_map {A B : Type} (f : A -> B) (lebA : A -> A -> bool)
    (lebB : B -> B -> bool) (l : list A) :
  (forall a b, lebB (f a) (f b) = lebA a b) ->
  stable_sort lebB (map f l) = map f (stable_sort lebA l).
Proof.
  intros H. induction l as [|x l IH]; simpl; [reflexivity|].
  rewrite IH. generalize (stable_sort lebA l) as s.
  induction s as [|y s IHs]; simpl; [reflexivity|].
  rewrite H. destruct (lebA x y); simpl; [reflexivity | now rewrite IHs].
Qed.

(** The sort is stable: the elements of one key come out in the order they
    came in. *)
Lemma stable_sort_stable {A K : Type} (key : A -> K) (lebA : A -> A -> bool)
    (same : K -> K -> bool) (k : K) (l : list A) :
  (forall a b, same k (key a) = true -> same k (key b) = true -> lebA a b = true) ->
  filter (fun a => same k (key a)) (stable_sort lebA l)
  = filter (fun a => same k (key a)) l.
Proof.
  intros Heq. induction l as [|x l IH]; [reflexivity|].
  cbn [stable_sort fold_right]. fold (stable_sort lebA l).
  cbn [filter]. rewrite <- IH. clear IH.
  generalize (stable_sort lebA l) as s.
  induction s as [|y s IHs]; [reflexivity|].
  cbn [insert_sorted]. destruct (lebA x y) eqn:Hxy; [reflexivity|].
  cbn [filter]. rewrite IHs.
  destruct (same k (key x)) eqn:Hx; [|reflexivity].
  destruct (same k (key y)) eqn:Hy; [|reflexivity].
  rewrite (Heq x y Hx Hy) in Hxy. discriminate Hxy.
Qed.

Lemma combine_map_same {A B C : Type} (f : A -> B) (g : A -> C) (l : list A) :
  combine (map f l) (map g l) = map (fun x => (f x, g x)) l.
Proof. induction l; simpl; [reflexivity | now f_equal]. Qed.

Lemma select_by_mask {A B : Type} (p : A -> bool) (f : A -> B) (l : list A) :
  map snd (filter fst (combine (map p l) (map f l))) = map f (filter p l).
Proof.
  induction l as [|x l IH]; simpl; [reflexivity|].
  destruct (p x); simpl; now rewrite IH.
Qed.

Lemma filter_map_comm {A B : Type} (p : B -> bool) (f : A -> B) (l : list A) :
  filter p (map f l) = map f (filter (fun x => p (f x)) l).
Proof.
  induction l as [|x l IH]; simpl; [reflexivity|].
  destruct (p (f x)); simpl; now rewrite IH.
Qed.

(** ** Duplicate detector *)

Lemma filter_has_one {A : Type} (p : A -> bool) (l : list A) (a : A) :
  In a l -> p a = true -> 1 <= length (filter p l).
Proof.
  induction l as [|x l IH]; intros Hin Hp; [destruct Hin|].
  simpl. destruct Hin as [->|Hin].
  - rewrite Hp. simpl. lia.
  - specialize (IH Hin Hp). destruct (p x); simpl; lia.
Qed.

(** Two positions of a list that both satisfy [p] make at least two
    elements of the filtered list. *)
Lemma filter_has_two {A : Type} (p : A -> bool) (l : list A) :
  forall i j a b,
    i <> j -> nth_error l i = Some a -> nth_error l j = Some b ->
    p a = true -> p b = true -> 2 <= length (filter p l).
Proof.
  induction l as [|x l IH]; intros i j a b Hij Hi Hj Ha Hb.
  - destruct i; discriminate Hi.
  - destruct i as [|i], j as [|j]; simpl in Hi, Hj.
    + contradiction.
    + injection Hi as ->. simpl. rewrite Ha. simpl.
      apply nth_error_In in Hj.
      pose proof (filter_has_one p l b Hj Hb). lia.
    + injection Hj as ->. simpl. rewrite Hb. simpl.
      apply nth_error_In in Hi.
      pose proof (filter_has_one p l a Hi Ha). lia.
    + assert (Hij' : i <> j) by congruence.
      pose proof (IH i j a b Hij' Hi Hj Ha Hb).
      simpl. destruct (p x); simpl; lia.
Qed.

Lemma by_sort_key_total (a b : record string) :
  by_sort_key a b = false -> by_sort_key b a = true.
Proof. apply lex_leb_total. Qed.

Lemma by_sort_key_trans (a b c : record string) :
  by_sort_key a b = true -> by_sort_key b c = true -> by_sort_key a c = true.
Proof. apply lex_leb_trans. Qed.

(** Records with one sort key may come in either order. *)
Lemma by_sort_key_tie (k : list string) (a b : record string) :
  key_eqb k (sort_key a) = true -> key_eqb k (sort_key b) = true ->
  by_sort_key a b = true.
Proof.
  intros Ha Hb. apply key_eqb_eq in Ha, Hb.
  unfold by_sort_key, lex_leb. rewrite <- Ha, <- Hb.
  now rewrite lex_compare_refl.
Qed.

Section DetectorFacts.

Variable norm : string -> string.

Lemma occurrences_by_key (rs : list (record string)) (r : record string) :
  (1 <? occurrences (duplicate_key norm r) (map (duplicate_key norm) rs))%nat
  = is_duplicate norm rs r.
Proof.
  unfold occurrences, is_duplicate.
  rewrite filter_map_comm, length_map. reflexivity.
Qed.

Lemma duplicates_of_in (rs : list (record string)) (r : record string) :
  In r (duplicates_of norm rs) <-> In r rs /\ is_duplicate norm rs r = true.
Proof.
  unfold duplicates_of. rewrite stable_sort_in. apply filter_In.
Qed.

(** The records of one sort key are returned in the order of the list. *)
Lemma duplicates_of_ties (rs : list (record string)) (k : list string) :
  filter (fun r => key_eqb k (sort_key r)) (duplicates_of norm rs)
  = filter (fun r => key_eqb k (sort_key r)) (filter (is_duplicate norm rs) rs).
Proof.
  unfold duplicates_of.
  apply (stable_sort_stable sort_key by_sort_key key_eqb k).
  apply by_sort_key_tie.
Qed.

(** Records at two places of the list with one triple are both
    duplicates. *)
Lemma is_duplicate_pair (rs : list (record string)) (i j : nat)
    (r1 r2 : record string) :
  i <> j -> nth_error rs i = Some r1 -> nth_error rs j = Some r2 ->
  duplicate_key norm r1 = duplicate_key norm r2 ->
  In r1 (duplicates_of norm rs) /\ In r2 (duplicates_of norm rs).
Proof.
  intros Hij Hi Hj Hk.
  assert (H2 : forall r, duplicate_key norm r = duplicate_key norm r1 ->
                         is_duplicate norm rs r = true).
  { intros r Hr. unfold is_duplicate. apply Nat.leb_le.
    apply (filter_has_two _ rs i j r1 r2 Hij Hi Hj); apply key_eqb_eq; congruence. }
  split; apply duplicates_of_in; split.
  - eapply nth_error_In; eassumption.
  - now apply H2.
  - eapply nth_error_In; eassumption.
  - apply H2. now symmetry.
Qed.

(** The comparison, the sort and the drop on a frame that has the
    normalized column. *)
Lemma compare_sort_drop (rs : list (record string)) :
  result_bind
    (duplicated_keep_false (normalized_frame norm rs)
       ["Title_Normalized"; "Series_Name"; "Year"])
    (fun mask =>
       result_bind
         (sort_values (select_rows (normalized_frame norm rs) mask)
            ["Series_Name"; "Year"; "Survey_Title"])
         (fun duplicates => drop_columns duplicates ["Title_Normalized"]))
  = Ok (mkFrame RECORD_KEYS (map record_values (duplicates_of norm rs))).
Proof.
  assert (Hmask : duplicated_keep_false (normalized_frame norm rs)
                    ["Title_Normalized"; "Series_Name"; "Year"]
                  = Ok (map (is_duplicate norm rs) rs)).
  { unfold duplicated_keep_false, normalized_frame.
    cbn [columns rows RECORD_KEYS app get_locs get_loc String.eqb Ascii.eqb Bool.eqb].
    cbv iota beta. f_equal. rewrite !map_map. apply map_ext. intros a.
    rewrite <- occurrences_by_key. reflexivity. }
  rewrite Hmask. cbn [result_bind].
  unfold select_rows, normalized_frame. cbn [columns rows].
  rewrite select_by_mask.
  unfold sort_values.
  cbn [columns rows RECORD_KEYS app get_locs get_loc String.eqb Ascii.eqb Bool.eqb].
  cbv iota beta. cbn [result_bind].
  rewrite (stable_sort_map (normalized_row norm) by_sort_key)
    by (intros a b; reflexivity).
  fold (duplicates_of norm rs).
  unfold drop_columns.
  cbn [columns rows RECORD_KEYS app get_loc String.eqb Ascii.eqb Bool.eqb remove_nth].
  cbv iota beta. rewrite map_map. reflexivity.
Qed.

End DetectorFacts.

Section DetectorRuns.

Variable str_lower : string -> string.
Variable str_strip : string -> string.

Local Notation "'norm'" := (normalize str_lower str_strip).

(** The detector from the point where the frame has its normalized
    column. *)
Lemma find_duplicates_with_rest (df : frame) (rs : list (record string)) :
  df_empty df = false ->
  getitem df "Survey_Title" = Ok (map Survey_Title rs) ->
  setitem df "Title_Normalized" (map norm (map Survey_Title rs))
  = normalized_frame norm rs ->
  find_duplicates_with str_lower str_strip df =
  (Ok (mkFrame RECORD_KEYS (map record_values (duplicates_of norm rs))),
   normalized_frame norm rs).
Proof.
  intros He Hget Hset.
  pose proof (compare_sort_drop norm rs) as Hrest.
  unfold find_duplicates_with, bind, get_state, put_state, lift, ret.
  rewrite He, Hget.
  change (map (fun t => str_strip (str_lower t)) (map Survey_Title rs))
    with (map norm (map Survey_Title rs)).
  rewrite Hset.
  destruct (duplicated_keep_false (normalized_frame norm rs)
              ["Title_Normalized"; "Series_Name"; "Year"]) as [mask|e];
    [|discriminate Hrest].
  cbn [result_bind] in Hrest.
  destruct (sort_values (select_rows (normalized_frame norm rs) mask)
              ["Series_Name"; "Year"; "Survey_Title"]) as [sorted|e];
    [|discriminate Hrest].
  cbn [result_bind] in Hrest. rewrite Hrest. reflexivity.
Qed.

(** What the detector does on the frame of a non-empty list of records. *)
Lemma find_duplicates_with_run (r : record string) (rs' : list (record string)) :
  let rs := r :: rs' in
  find_duplicates_with str_lower str_strip (DataFrame_of_records rs) =
  (Ok (mkFrame RECORD_KEYS (map record_values (duplicates_of norm rs))),
   normalized_frame norm rs).
Proof.
  intros rs. apply find_duplicates_with_rest.
  - reflexivity.
  - change (DataFrame_of_records rs) with (mkFrame RECORD_KEYS (map record_values rs)).
    unfold getitem.
    cbn [columns rows RECORD_KEYS get_loc String.eqb Ascii.eqb Bool.eqb].
    cbv iota beta. rewrite map_map. reflexivity.
  - change (DataFrame_of_records rs) with (mkFrame RECORD_KEYS (map record_values rs)).
    unfold setitem, normalized_frame.
    cbn [columns rows RECORD_KEYS get_loc String.eqb Ascii.eqb Bool.eqb].
    cbv iota beta. rewrite map_map, combine_map_same, map_map. reflexivity.
Qed.

(** A run on the frame that a first run left. *)
Lemma find_duplicates_with_again (r : record string) (rs' : list (record string)) :
  let rs := r :: rs' in
  find_duplicates_with str_lower str_strip (normalized_frame norm rs) =
  (Ok (mkFrame RECORD_KEYS (map record_values (duplicates_of norm rs))),
   normalized_frame norm rs).
Proof.
  intros rs. apply find_duplicates_with_rest.
  - reflexivity.
  - unfold getitem, normalized_frame.
    cbn [columns rows RECORD_KEYS app get_loc String.eqb Ascii.eqb Bool.eqb].
    cbv iota beta. rewrite map_map. reflexivity.
  - unfold setitem, normalized_frame.
    cbn [columns rows RECORD_KEYS app get_loc String.eqb Ascii.eqb Bool.eqb].
    cbv iota beta. f_equal.
    rewrite map_map, combine_map_same, map_map. apply map_ext. intros a.
    reflexivity.
Qed.

Lemma find_duplicates_with_empty :
  find_duplicates_with str_lower str_strip (DataFrame_of_records [])
  = (Ok empty_frame, empty_frame).
Proof. reflexivity. Qed.

Lemma find_duplicates_with_returns (rs : list (record string)) :
  exists d, fst (find_duplicates_with str_lower str_strip (DataFrame_of_records rs)) = Ok d
            /\ rows d = map record_values (duplicates_of norm rs)
            /\ ~ In "Title_Normalized" (columns d).
Proof.
  destruct rs as [|r rs'].
  - exists empty_frame. rewrite find_duplicates_with_empty.
    repeat split. intros [].
  - rewrite find_duplicates_with_run. eexists. split; [reflexivity|].
    split; [reflexivity|]. cbn [columns RECORD_KEYS In].
    intros H. repeat (destruct H as [H|H]; [discriminate H|]). exact H.
Qed.

End DetectorRuns.

(** The same on ASCII titles. *)
Lemma find_duplicates_run (r : record string) (rs' : list (record string)) :
  let rs := r :: rs' in
  find_duplicates (DataFrame_of_records rs) =
  (Ok (mkFrame RECORD_KEYS (map record_values (duplicates_of (normalize lower strip) rs))),
   normalized_frame (normalize lower strip) rs).
Proof. exact (find_duplicates_with_run lower strip r rs'). Qed.

Lemma find_duplicates_again (r : record string) (rs' : list (record string)) :
  let rs := r :: rs' in
  find_duplicates (normalized_frame (normalize lower strip) rs) =
  (Ok (mkFrame RECORD_KEYS (map record_values (duplicates_of (normalize lower strip) rs))),
   normalized_frame (normalize lower strip) rs).
Proof. exact (find_duplicates_with_again lower strip r rs'). Qed.

Lemma find_duplicates_returns (rs : list (record string)) :
  exists d, fst (find_duplicates (DataFrame_of_records rs)) = Ok d
            /\ rows d = map record_values (duplicates_of (normalize lower strip) rs)
            /\ ~ In "Title_Normalized" (columns d).
Proof. exact (find_duplicates_with_returns lower strip rs). Qed.

(** C3. Whatever [str.lower] and [str.strip] do to a title, on the frame of
    any list of text records the detector returns exactly the records
    whose triple (title lower-cased then stripped, series name, year) is
    that of two or more records of the list: every member of such a group,
    with its multiplicity. They come sorted by (series name, year, title as
    written), and the records that agree on these three come in the order
    of the list. So two records at different places whose titles are the
    same once lower-cased and stripped, with the same series and year, are
    both returned. *)
Theorem find_duplicates_spec :
  forall (str_lower str_strip : string -> string) (rs : list (record string)),
    let norm := normalize str_lower str_strip in
    exists (d : frame) (dups : list (record string)),
      fst (find_duplicates_with str_lower str_strip (DataFrame_of_records rs)) = Ok d
      /\ rows d = map record_values dups
      /\ Permutation dups (filter (is_duplicate norm rs) rs)
      /\ (forall r, In r dups <-> In r rs /\ is_duplicate norm rs r = true)
      /\ StronglySorted (fun a b => lex_leb (sort_key a) (sort_key b) = true) dups
      /\ (forall k, filter (fun r => key_eqb k (sort_key r)) dups
                    = filter (fun r => key_eqb k (sort_key r))
                             (filter (is_duplicate norm rs) rs))
      /\ (forall i j r1 r2,
            i <> j -> nth_error rs i = Some r1 -> nth_error rs j = Some r2 ->
            str_strip (str_lower (Survey_Title r1))
            = str_strip (str_lower (Survey_Title r2)) ->
            Series_Name r1 = Series_Name r2 -> Year r1 = Year r2 ->
            In r1 dups /\ In r2 dups).
Proof.
  intros str_lower str_strip rs norm.
  destruct (find_duplicates_with_returns str_lower str_strip rs) as (d & Hd & Hrows & _).
  exists d, (duplicates_of norm rs).
  split; [exact Hd|]. split; [exact Hrows|].
  split; [apply stable_sort_perm|].
  split; [apply duplicates_of_in|].
  split; [apply (stable_sort_sorted by_sort_key by_sort_key_total by_sort_key_trans)|].
  split; [apply duplicates_of_ties|].
  intros i j r1 r2 Hij Hi Hj Ht Hs Hy.
  apply (is_duplicate_pair norm rs i j r1 r2 Hij Hi Hj).
  unfold duplicate_key, norm, normalize. now rewrite Ht, Hs, Hy.
Qed.

(** The example of the specification, with [lower] and [strip] on ASCII
    titles: ["Labour Survey 2001"] and [" labour survey 2001 "] of one
    series and year are returned as a pair, and a third record of that
    series and year under another title is not returned. *)
Lemma find_duplicates_spec_witness :
  exists d : frame,
    fst (find_duplicates (DataFrame_of_records revised_records)) = Ok d
    /\ In ["Labour and Employment"; "Labour Surveys"; "2001";
           "Labour Survey 2001"; "/a"] (rows d)
    /\ In ["Labour and Employment"; "Labour Surveys"; "2001";
           " labour survey 2001 "; "/b"] (rows d)
    /\ ~ In ["Labour and Employment"; "Labour Surveys"; "2001";
             "Labour Survey 2001 Revised"; "/r"] (rows d).
Proof.
  destruct (find_duplicates_spec lower strip revised_records)
    as (d & dups & Hd & Hrows & _ & Hin & _ & _ & Hpair).
  exists d. split; [exact Hd|].
  destruct (Hpair 0 1 _ _ (Nat.neq_0_succ 0) eq_refl eq_refl eq_refl eq_refl eq_refl)
    as [H1 H2].
  rewrite Hrows. split; [|split].
  - exact (in_map record_values dups _ H1).
  - exact (in_map record_values dups _ H2).
  - intros H. apply in_map_iff in H as (r & Hr & Hdup).
    apply Hin in Hdup as [Hrs Hdup].
    destruct Hrs as [<-|[<-|[<-|[]]]].
    + discriminate Hr.
    + discriminate Hr.
    + discriminate Hdup.
Defined.

(** C8. What holds of it: the frame the detector returns has no
    normalized-title column, and the five fields of the caller's records
    keep their values. What fails: the column the detector adds for the
    comparison stays on the caller's frame after the call. *)
Theorem find_duplicates_leaves_column :
  forall (r : record string) (rs' : list (record string)),
    let df := DataFrame_of_records (r :: rs') in
    let out := find_duplicates df in
    columns df = RECORD_KEYS
    /\ columns (snd out) = RECORD_KEYS ++ ["Title_Normalized"]
    /\ snd out <> df
    /\ map (firstn 5) (rows (snd out)) = rows df
    /\ (exists d, fst out = Ok d /\ columns d = RECORD_KEYS).
Proof.
  intros r rs' df out. subst out df.
  rewrite find_duplicates_run. unfold normalized_frame. cbn [fst snd columns rows].
  split; [reflexivity|]. split; [reflexivity|]. split; [|split].
  - intros H. apply (f_equal (fun f => length (columns f))) in H. discriminate H.
  - change (rows (DataFrame_of_records (r :: rs')))
      with (map record_values (r :: rs')).
    rewrite map_map. apply map_ext. intros a. reflexivity.
  - eexists. split; reflexivity.
Qed.

(** ** Exporter *)

Lemma dedup_in (l : list (list string)) (x : list string) :
  In x (dedup l) <-> In x l.
Proof.
  induction l as [|k l IH]; simpl; [reflexivity|].
  rewrite filter_In, IH. split.
  - intros [H|[H _]]; auto.
  - intros [H|H]; [now left|].
    destruct (key_eqb k x) eqn:E.
    + left. now apply key_eqb_eq.
    + right. now split.
Qed.

Lemma dedup_nodup (l : list (list string)) : NoDup (dedup l).
Proof.
  induction l as [|k l IH]; simpl; constructor.
  - rewrite filter_In, key_eqb_refl. intros [_ H]. discriminate H.
  - now apply NoDup_filter.
Qed.

Lemma str_min_fold (l : list string) :
  forall x, let m := fold_left str_min l x in
    (m = x \/ In m l) /\ String.leb m x = true
    /\ (forall y, In y l -> String.leb m y = true).
Proof.
  induction l as [|y l IH]; intros x; simpl.
  - split; [now left|]. split; [apply string_leb_refl | intros ? []].
  - destruct (IH (str_min x y)) as (Hin & Hle & Hall).
    assert (Hx : String.leb (str_min x y) x = true /\ String.leb (str_min x y) y = true
                 /\ (str_min x y = x \/ str_min x y = y)).
    { unfold str_min. destruct (String.leb y x) eqn:E.
      - split; [exact E|]. split; [apply string_leb_refl | now right].
      - split; [apply string_leb_refl|]. split; [|now left].
        destruct (String.leb_total x y) as [H|H]; [exact H | congruence]. }
    destruct Hx as (Hx1 & Hx2 & Hx3).
    split; [|split].
    + destruct Hin as [Hm|Hm]; [|now right; right].
      rewrite Hm. destruct Hx3 as [->| ->]; [now left | now right; left].
    + eapply string_leb_trans; eassumption.
    + intros z [<-|Hz]; [eapply string_leb_trans; eassumption | now apply Hall].
Qed.

Lemma str_max_fold (l : list string) :
  forall x, let m := fold_left str_max l x in
    (m = x \/ In m l) /\ String.leb x m = true
    /\ (forall y, In y l -> String.leb y m = true).
Proof.
  induction l as [|y l IH]; intros x; simpl.
  - split; [now left|]. split; [apply string_leb_refl | intros ? []].
  - destruct (IH (str_max x y)) as (Hin & Hle & Hall).
    assert (Hx : String.leb x (str_max x y) = true /\ String.leb y (str_max x y) = true
                 /\ (str_max x y = x \/ str_max x y = y)).
    { unfold str_max. destruct (String.leb x y) eqn:E.
      - split; [exact E|]. split; [apply string_leb_refl | now right].
      - split; [apply string_leb_refl|]. split; [|now left].
        destruct (String.leb_total x y) as [H|H]; [congruence | exact H]. }
    destruct Hx as (Hx1 & Hx2 & Hx3).
    split; [|split].
    + destruct Hin as [Hm|Hm]; [|now right; right].
      rewrite Hm. destruct Hx3 as [->| ->]; [now left | now right; left].
    + eapply string_leb_trans; eassumption.
    + intros z [<-|Hz]; [eapply string_leb_trans; eassumption | now apply Hall].
Qed.

(** On a column that is not empty, ['min'] and ['max'] give the least and
    the greatest label in the order [String.leb], the lexicographic order
    of strings. *)
Lemma agg_min_max (col : list string) :
  col <> [] ->
  exists y1 y2,
    agg_min col = Text y1 /\ agg_max col = Text y2
    /\ In y1 col /\ (forall y, In y col -> String.leb y1 y = true)
    /\ In y2 col /\ (forall y, In y col -> String.leb y y2 = true).
Proof.
  destruct col as [|x l]; [congruence|]. intros _.
  destruct (str_min_fold l x) as (Hin1 & Hle1 & Hall1).
  destruct (str_max_fold l x) as (Hin2 & Hle2 & Hall2).
  exists (fold_left str_min l x), (fold_left str_max l x).
  split; [reflexivity|]. split; [reflexivity|].
  split; [|split; [|split]].
  - destruct Hin1 as [->|H]; [now left | now right].
  - intros y [<-|Hy]; [exact Hle1 | now apply Hall1].
  - destruct Hin2 as [->|H]; [now left | now right].
  - intros y [<-|Hy]; [exact Hle2 | now apply Hall2].
Qed.

Lemma group_of_same_group (rs : list (record string)) (c s : string) :
  group_of rs [c; s] = filter (same_group c s) rs.
Proof.
  unfold group_of. apply filter_ext. intros r.
  unfold same_group, group_key.
  destruct (key_eqb [c; s] [Category r; Series_Name r]) eqn:E.
  - apply key_eqb_eq in E. injection E as -> ->.
    now rewrite !String.eqb_refl.
  - destruct (Category r =? c) eqn:Ec; [|reflexivity].
    destruct (Series_Name r =? s) eqn:Es; [|reflexivity].
    apply String.eqb_eq in Ec, Es. subst.
    now rewrite key_eqb_refl in E.
Qed.

Lemma group_keys_in (rs : list (record string)) (k : list string) :
  In k (group_keys rs) <-> exists r, In r rs /\ k = group_key r.
Proof.
  unfold group_keys. rewrite stable_sort_in, dedup_in, in_map_iff.
  split; intros (r & H1 & H2); exists r; auto.
Qed.

Lemma group_keys_nodup (rs : list (record string)) : NoDup (group_keys rs).
Proof.
  unfold group_keys.
  eapply Permutation_NoDup; [apply Permutation_sym, stable_sort_perm|].
  apply dedup_nodup.
Qed.

Lemma map_Text_injective (a b : list string) : map Text a = map Text b -> a = b.
Proof.
  revert b. induction a as [|x a IH]; intros [|y b] H; simpl in H;
    try discriminate; [reflexivity|].
  injection H as Hx Hab. subst. f_equal. now apply IH.
Qed.

Lemma category_group_same_category (rs : list (record string)) (c : string) :
  category_group rs [c] = filter (same_category c) rs.
Proof.
  unfold category_group. apply filter_ext. intros r. unfold same_category.
  destruct (key_eqb [c] [Category r]) eqn:E.
  - apply key_eqb_eq in E. injection E as ->. now rewrite String.eqb_refl.
  - destruct (Category r =? c) eqn:Ec; [|reflexivity].
    apply String.eqb_eq in Ec. subst. now rewrite key_eqb_refl in E.
Qed.

Lemma category_keys_in (rs : list (record string)) (k : list string) :
  In k (category_keys rs) <-> exists r, In r rs /\ k = [Category r].
Proof.
  unfold category_keys. rewrite stable_sort_in, dedup_in, in_map_iff.
  split; intros (r & H1 & H2); exists r; auto.
Qed.

Lemma category_keys_nodup (rs : list (record string)) : NoDup (category_keys rs).
Proof.
  unfold category_keys.
  eapply Permutation_NoDup; [apply Permutation_sym, stable_sort_perm|].
  apply dedup_nodup.
Qed.

(** *** Cells that are taken as they are *)

Lemma writable_check (s : string) : writable s = true -> check_string s = Ok s.
Proof.
  unfold writable. destruct (check_string s) as [v|e]; [|discriminate].
  intros H. apply String.eqb_eq in H. now subst.
Qed.

Lemma writable_cell_write (c : xl_cell) : writable_cell c = true -> write_cell c = Ok c.
Proof.
  destruct c as [s|n]; simpl; [|reflexivity].
  intros H. now rewrite (writable_check s H).
Qed.

Lemma writable_cells_text (l : list string) :
  forallb writable_cell (map Text l) = forallb writable l.
Proof. induction l as [|x l IH]; simpl; [reflexivity | now rewrite IH]. Qed.

Lemma check_string_raises (s : string) (e : exn) :
  check_string s = Raise e -> e = IllegalCharacterError.
Proof.
  unfold check_string.
  destruct (string_exists illegal_character (take_chars 32767 s)); congruence.
Qed.

Lemma write_cell_raises (c : xl_cell) (e : exn) :
  write_cell c = Raise e -> e = IllegalCharacterError.
Proof.
  destruct c as [s|n]; simpl; [|discriminate].
  destruct (check_string s) as [v|e'] eqn:E; [discriminate|].
  intros H. injection H as <-. exact (check_string_raises s e' E).
Qed.

Lemma map_result_id {A : Type} (f : A -> result A) (l : list A) :
  (forall x, In x l -> f x = Ok x) -> map_result f l = Ok l.
Proof.
  induction l as [|a l IH]; intros H; simpl; [reflexivity|].
  rewrite (H a (or_introl eq_refl)), IH; [reflexivity|].
  intros x Hx. apply H. now right.
Qed.

(** A loop raises what one of its turns raises. *)
Lemma map_result_raises {A B : Type} (f : A -> result B) (l : list A) (e : exn) :
  map_result f l = Raise e -> exists x, In x l /\ f x = Raise e.
Proof.
  induction l as [|a l IH]; simpl; [discriminate|].
  destruct (f a) as [y|e'] eqn:E.
  - destruct (map_result f l) as [ys|e'']; [discriminate|].
    intros H. injection H as ->.
    destruct (IH eq_refl) as (x & Hx & Hfx). exists x. split; [now right | exact Hfx].
  - intros H. injection H as ->. exists a. split; [now left | exact E].
Qed.

(** A loop with a turn that raises does raise. *)
Lemma map_result_stops {A B : Type} (f : A -> result B) (l : list A) (x : A) (e : exn) :
  In x l -> f x = Raise e -> exists e', map_result f l = Raise e'.
Proof.
  induction l as [|a l IH]; intros Hin Hx; [destruct Hin|]. simpl.
  destruct (f a) as [y|e'] eqn:E; [|now exists e'].
  destruct Hin as [->|Hin]; [congruence|].
  destruct (IH Hin Hx) as (e'' & ->). now exists e''.
Qed.

Lemma write_table_full (name : string) (nrows ncols : nat) (labels : list string)
    (cells : list (list xl_cell)) (s : export_state) :
  (Z.of_nat nrows <= MAX_ROWS)%Z -> (Z.of_nat ncols <= MAX_COLS)%Z ->
  forallb writable labels = true ->
  forallb (forallb writable_cell) cells = true ->
  write_table name nrows ncols labels cells s =
  (Ok tt, mkExport (df_obj s) (book s ++ [Full (mkSheet name labels cells)])).
Proof.
  intros Hr Hc Hl Hb. unfold write_table.
  apply Z.ltb_ge in Hr, Hc. rewrite Hr, Hc. cbn [orb].
  rewrite (map_result_id check_string labels).
  - rewrite (map_result_id (map_result write_cell) cells); [reflexivity|].
    intros row Hrow. apply map_result_id. intros c Hin.
    apply writable_cell_write.
    rewrite forallb_forall in Hb. specialize (Hb row Hrow).
    rewrite forallb_forall in Hb. now apply Hb.
  - intros l Hin. apply writable_check.
    rewrite forallb_forall in Hl. now apply Hl.
Qed.

(** A frame that is written as it is. *)
Lemma to_excel_full (df : frame) (name : string) (s : export_state) :
  writable_frame df = true ->
  to_excel df name s =
  (Ok tt, mkExport (df_obj s) (book s ++ [Full (sheet_of_frame name df)])).
Proof.
  unfold writable_frame. intros H.
  apply andb_true_iff in H as [H Hb]. apply andb_true_iff in H as [H Hl].
  apply andb_true_iff in H as [Hr Hc]. apply Z.leb_le in Hr, Hc.
  unfold to_excel, sheet_of_frame. apply write_table_full; try assumption.
  rewrite forallb_forall in *. intros row Hrow.
  apply in_map_iff in Hrow as (row' & <- & Hrow').
  rewrite writable_cells_text. now apply Hb.
Qed.

Lemma writable_fields (rs : list (record string)) (r : record string) :
  forallb writable_record rs = true -> In r rs ->
  writable (Category r) = true /\ writable (Series_Name r) = true
  /\ writable (Year r) = true /\ writable (Survey_Title r) = true
  /\ writable (URI r) = true.
Proof.
  intros H Hr. rewrite forallb_forall in H. specialize (H r Hr).
  unfold writable_record, record_values in H. cbn [forallb] in H.
  repeat (apply andb_true_iff in H as [? H]). auto.
Qed.

Lemma writable_records_rows (rs : list (record string)) :
  forallb writable_record rs = true ->
  forallb (forallb writable_cell) (map (fun r => map Text (record_values r)) rs) = true.
Proof.
  intros H. rewrite forallb_forall in *. intros row Hrow.
  apply in_map_iff in Hrow as (r & <- & Hr).
  rewrite writable_cells_text. exact (H r Hr).
Qed.

Lemma record_keys_writable : forallb writable RECORD_KEYS = true.
Proof. vm_compute. reflexivity. Qed.

Lemma dedup_length (l : list (list string)) : length (dedup l) <= length l.
Proof.
  induction l as [|k l IH]; simpl; [lia|].
  pose proof (filter_length_le (fun k' => negb (key_eqb k k')) (dedup l)). lia.
Qed.

(** There are no more groups than records. *)
Lemma group_count {A : Type} (key : A -> list string) (l : list A) :
  length (stable_sort lex_leb (dedup (map key l))) <= length l.
Proof.
  rewrite (Permutation_length (stable_sort_perm lex_leb _)).
  pose proof (dedup_length (map key l)) as H. now rewrite length_map in H.
Qed.

Lemma fits_fewer (n m : nat) : n <= m -> fits_a_sheet m -> fits_a_sheet n.
Proof. unfold fits_a_sheet. lia. Qed.

(** *** The summaries *)

Lemma category_summary_sheet_writable (rs : list (record string)) :
  forallb writable_record rs = true ->
  forallb (forallb writable_cell) (body (category_summary_sheet rs)) = true.
Proof.
  intros H. cbn [category_summary_sheet body].
  apply forallb_forall. intros row Hrow.
  apply in_map_iff in Hrow as (k & <- & Hk).
  apply category_keys_in in Hk as (r & Hr & ->).
  destruct (writable_fields rs r H Hr) as (Hc & _).
  cbn [map app forallb writable_cell agg_nunique agg_count]. now rewrite Hc.
Qed.

Lemma series_summary_sheet_writable (rs : list (record string)) :
  forallb writable_record rs = true ->
  forallb (forallb writable_cell) (body (series_summary_sheet rs)) = true.
Proof.
  intros H. cbn [series_summary_sheet body].
  apply forallb_forall. intros row Hrow.
  apply in_map_iff in Hrow as (k & <- & Hk).
  apply group_keys_in in Hk as (r & Hr & ->).
  destruct (writable_fields rs r H Hr) as (Hc & Hs & _).
  assert (Hne : map Year (group_of rs (group_key r)) <> []).
  { assert (Hin : In r (group_of rs (group_key r))).
    { apply filter_In. split; [exact Hr | apply key_eqb_refl]. }
    destruct (group_of rs (group_key r)); [destruct Hin | discriminate]. }
  destruct (agg_min_max _ Hne) as (y1 & y2 & Hmin & Hmax & H1 & _ & H2 & _).
  rewrite Hmin, Hmax.
  assert (Hy : forall y, In y (map Year (group_of rs (group_key r))) -> writable y = true).
  { intros y Hy. apply in_map_iff in Hy as (r' & <- & Hr').
    apply filter_In in Hr' as [Hr' _].
    now destruct (writable_fields rs r' H Hr') as (_ & _ & Hyear & _). }
  cbn [group_key map app forallb writable_cell agg_count].
  now rewrite Hc, Hs, (Hy y1 H1), (Hy y2 H2).
Qed.

Lemma category_summary_run (r : record string) (rs' : list (record string)) :
  let rs := r :: rs' in
  exists sm, category_summary (DataFrame_of_records rs) = Ok sm
             /\ mkSheet "Category_Summary" (summary_header sm) (summary_body sm)
                = category_summary_sheet rs
             /\ length (entries sm) <= length rs
             /\ length (value_names sm) = 2.
Proof.
  intros rs.
  change (DataFrame_of_records rs) with (mkFrame RECORD_KEYS (map record_values rs)).
  unfold category_summary, groupby, result_bind.
  cbn [columns rows RECORD_KEYS get_locs get_loc String.eqb Ascii.eqb Bool.eqb].
  cbv iota beta. eexists. split; [reflexivity|].
  split; [|split; [|reflexivity]].
  - unfold summary_header, summary_body, category_summary_sheet.
    cbn [index_names value_names entries app]. f_equal.
    rewrite !map_map. unfold category_keys.
    apply map_ext. intros k. cbn [fst snd]. f_equal.
    unfold category_group.
    rewrite (filter_map_comm (fun row => key_eqb k (project [0] row)) record_values rs).
    rewrite !map_map. reflexivity.
  - cbn [entries]. rewrite !length_map, map_map. apply group_count.
Qed.

Lemma series_summary_run (r : record string) (rs' : list (record string)) :
  let rs := r :: rs' in
  exists sm, series_summary (DataFrame_of_records rs) = Ok sm
             /\ mkSheet "Series_Summary" (summary_header sm) (summary_body sm)
                = series_summary_sheet rs
             /\ length (entries sm) <= length rs
             /\ length (value_names sm) = 3.
Proof.
  intros rs.
  change (DataFrame_of_records rs) with (mkFrame RECORD_KEYS (map record_values rs)).
  unfold series_summary, groupby, result_bind.
  cbn [columns rows RECORD_KEYS get_locs get_loc String.eqb Ascii.eqb Bool.eqb].
  cbv iota beta. eexists. split; [reflexivity|].
  split; [|split; [|reflexivity]].
  - unfold summary_header, summary_body, series_summary_sheet.
    cbn [index_names value_names entries app]. f_equal.
    rewrite !map_map. unfold group_keys.
    apply map_ext. intros k. cbn [fst snd]. f_equal.
    unfold group_of.
    rewrite (filter_map_comm (fun row => key_eqb k (project [0; 1] row)) record_values rs).
    rewrite !map_map. reflexivity.
  - cbn [entries]. rewrite !length_map, map_map. apply group_count.
Qed.

Section SummariesAgain.

Variable norm : string -> string.

Lemma category_summary_again (rs : list (record string)) :
  exists sm, category_summary (normalized_frame norm rs) = Ok sm
             /\ mkSheet "Category_Summary" (summary_header sm) (summary_body sm)
                = category_summary_sheet rs
             /\ length (entries sm) <= length rs
             /\ length (value_names sm) = 2.
Proof.
  unfold category_summary, groupby, result_bind, normalized_frame.
  cbn [columns rows RECORD_KEYS app get_locs get_loc String.eqb Ascii.eqb Bool.eqb].
  cbv iota beta. eexists. split; [reflexivity|].
  split; [|split; [|reflexivity]].
  - unfold summary_header, summary_body, category_summary_sheet.
    cbn [index_names value_names entries app]. f_equal.
    rewrite !map_map. unfold category_keys.
    apply map_ext. intros k. cbn [fst snd]. f_equal.
    unfold category_group.
    rewrite (filter_map_comm (fun row => key_eqb k (project [0] row))
               (normalized_row norm) rs).
    rewrite !map_map. reflexivity.
  - cbn [entries]. rewrite !length_map, map_map. apply group_count.
Qed.

Lemma series_summary_again (rs : list (record string)) :
  exists sm, series_summary (normalized_frame norm rs) = Ok sm
             /\ mkSheet "Series_Summary" (summary_header sm) (summary_body sm)
                = series_summary_sheet rs
             /\ length (entries sm) <= length rs
             /\ length (value_names sm) = 3.
Proof.
  unfold series_summary, groupby, result_bind, normalized_frame.
  cbn [columns rows RECORD_KEYS app get_locs get_loc String.eqb Ascii.eqb Bool.eqb].
  cbv iota beta. eexists. split; [reflexivity|].
  split; [|split; [|reflexivity]].
  - unfold summary_header, summary_body, series_summary_sheet.
    cbn [index_names value_names entries app]. f_equal.
    rewrite !map_map. unfold group_keys.
    apply map_ext. intros k. cbn [fst snd]. f_equal.
    unfold group_of.
    rewrite (filter_map_comm (fun row => key_eqb k (project [0; 1] row))
               (normalized_row norm) rs).
    rewrite !map_map. reflexivity.
  - cbn [entries]. rewrite !length_map, map_map. apply group_count.
Qed.

End SummariesAgain.

(** A summary that is written as it is. *)
Lemma summary_to_excel_full (sm : summary) (name : string) (sh : sheet)
    (n : nat) (s : export_state) :
  mkSheet name (summary_header sm) (summary_body sm) = sh ->
  length (entries sm) <= n -> fits_a_sheet n ->
  length (value_names sm) <= 3 ->
  forallb writable (header sh) = true ->
  forallb (forallb writable_cell) (body sh) = true ->
  summary_to_excel sm name s = (Ok tt, mkExport (df_obj s) (book s ++ [Full sh])).
Proof.
  intros <- Hn Hfit Hv Hl Hb. unfold summary_to_excel.
  apply write_table_full; try assumption.
  - exact (fits_fewer _ _ Hn Hfit).
  - unfold MAX_COLS. lia.
Qed.

(** *** An export of the frame of a non-empty list of records *)

Section ExporterRuns.

Variable str_lower : string -> string.
Variable str_strip : string -> string.
Variable writer_error : string -> option exn.

Local Notation "'norm'" := (normalize str_lower str_strip).
Local Notation "'export'" := (export_to_excel str_lower str_strip writer_error).

Lemma duplicates_to_excel (rs : list (record string)) (s : export_state) :
  fits_a_sheet (length rs) -> forallb writable_record rs = true ->
  (if negb (df_empty (mkFrame RECORD_KEYS (map record_values (duplicates_of norm rs))))
   then to_excel (mkFrame RECORD_KEYS (map record_values (duplicates_of norm rs)))
                 "Potential_Duplicates"
   else ret tt) s
  = (Ok tt, mkExport (df_obj s) (book s ++ duplicates_sheet norm rs)).
Proof.
  intros Hfit Hw.
  assert (Hsub : forall r, In r (duplicates_of norm rs) -> In r rs).
  { intros r Hr. now apply duplicates_of_in in Hr. }
  assert (Hlen : length (duplicates_of norm rs) <= length rs).
  { unfold duplicates_of.
    rewrite (Permutation_length (stable_sort_perm by_sort_key _)).
    apply filter_length_le. }
  unfold duplicates_sheet.
  destruct (duplicates_of norm rs) as [|d ds] eqn:Hd.
  - cbn [map negb df_empty columns rows RECORD_KEYS]. unfold ret.
    rewrite app_nil_r. now destruct s.
  - cbv iota beta.
    replace (df_empty (mkFrame RECORD_KEYS (map record_values (d :: ds))))
      with false by reflexivity.
    cbn [negb]. remember (d :: ds) as l eqn:Hl. clear Hl Hd.
    unfold to_excel. cbn [columns rows]. rewrite map_map, length_map.
    apply write_table_full.
    + exact (fits_fewer _ _ Hlen Hfit).
    + unfold MAX_COLS. cbn. lia.
    + exact record_keys_writable.
    + apply writable_records_rows. apply forallb_forall. intros r Hr.
      rewrite forallb_forall in Hw. apply Hw. now apply Hsub.
Qed.

(** The export of a frame of the records [rs], once its [All_Data] sheet is
    written: the two summaries, the detector, the duplicates. *)
Lemma export_to_excel_frame (df : frame) (rs : list (record string))
    (filename : string) (data : sheet) :
  writer_error filename = None ->
  df_empty df = false ->
  to_excel df "All_Data" (mkExport df []) = (Ok tt, mkExport df [Full data]) ->
  (exists sm, category_summary df = Ok sm
              /\ mkSheet "Category_Summary" (summary_header sm) (summary_body sm)
                 = category_summary_sheet rs
              /\ length (entries sm) <= length rs
              /\ length (value_names sm) = 2) ->
  (exists sm, series_summary df = Ok sm
              /\ mkSheet "Series_Summary" (summary_header sm) (summary_body sm)
                 = series_summary_sheet rs
              /\ length (entries sm) <= length rs
              /\ length (value_names sm) = 3) ->
  find_duplicates_with str_lower str_strip df =
    (Ok (mkFrame RECORD_KEYS (map record_values (duplicates_of norm rs))),
     normalized_frame norm rs) ->
  fits_a_sheet (length rs) -> forallb writable_record rs = true ->
  export df filename =
  (Ok tt,
   Some ([Full data; Full (category_summary_sheet rs); Full (series_summary_sheet rs)]
           ++ duplicates_sheet norm rs),
   normalized_frame norm rs).
Proof.
  intros Hopen He Hdata (cs & Hcs & Hc & Hcn & Hcv) (ss & Hss & Hs & Hsn & Hsv)
         Hf Hfit Hw.
  unfold export_to_excel. rewrite Hopen.
  unfold export_to_excel_body.
  unfold bind at 1. unfold on_frame at 1, get_state at 1. cbn [df_obj book].
  unfold bind at 1. rewrite Hdata. rewrite He. cbn [negb].
  unfold bind at 1. unfold lift at 1. rewrite Hcs.
  unfold bind at 1.
  rewrite (summary_to_excel_full cs "Category_Summary" (category_summary_sheet rs)
             (length rs) _ Hc Hcn Hfit);
    [|lia | reflexivity | now apply category_summary_sheet_writable].
  unfold bind at 1. unfold lift at 1. rewrite Hss.
  unfold bind at 1.
  rewrite (summary_to_excel_full ss "Series_Summary" (series_summary_sheet rs)
             (length rs) _ Hs Hsn Hfit);
    [|lia | reflexivity | now apply series_summary_sheet_writable].
  unfold bind at 1. unfold on_frame at 1. cbn [df_obj book app].
  rewrite Hf.
  pose proof (duplicates_to_excel rs
                (mkExport (normalized_frame norm rs)
                   [Full data; Full (category_summary_sheet rs);
                    Full (series_summary_sheet rs)]) Hfit Hw) as Hd.
  rewrite Hd. cbn [df_obj book app]. reflexivity.
Qed.

(** What an export of the frame of a non-empty list of records writes. *)
Lemma export_to_excel_run (r : record string) (rs' : list (record string))
    (filename : string) :
  let rs := r :: rs' in
  writer_error filename = None ->
  fits_a_sheet (length rs) -> forallb writable_record rs = true ->
  export (DataFrame_of_records rs) filename =
  (Ok tt,
   Some ([Full (all_data_sheet rs); Full (category_summary_sheet rs);
          Full (series_summary_sheet rs)]
           ++ duplicates_sheet norm rs),
   normalized_frame norm rs).
Proof.
  intros rs Hopen Hfit Hw.
  apply export_to_excel_frame; try assumption.
  - reflexivity.
  - change (DataFrame_of_records rs) with (mkFrame RECORD_KEYS (map record_values rs)).
    unfold to_excel. cbn [columns rows]. rewrite map_map, length_map.
    apply write_table_full; try assumption.
    + unfold MAX_COLS. cbn. lia.
    + exact record_keys_writable.
    + now apply writable_records_rows.
  - apply category_summary_run.
  - apply series_summary_run.
  - apply find_duplicates_with_run.
Qed.

(** The same on the frame that an export left, when the normalized titles
    are taken as they are too. *)
Lemma export_to_excel_again (r : record string) (rs' : list (record string))
    (filename : string) :
  let rs := r :: rs' in
  writer_error filename = None ->
  fits_a_sheet (length rs) -> forallb writable_record rs = true ->
  forallb (fun r => writable (norm (Survey_Title r))) rs = true ->
  export (normalized_frame norm rs) filename =
  (Ok tt,
   Some ([Full (normalized_data_sheet norm rs); Full (category_summary_sheet rs);
          Full (series_summary_sheet rs)]
           ++ duplicates_sheet norm rs),
   normalized_frame norm rs).
Proof.
  intros rs Hopen Hfit Hw Hn.
  apply export_to_excel_frame; try assumption.
  - reflexivity.
  - unfold to_excel, normalized_frame. cbn [columns rows].
    rewrite map_map, length_map.
    apply write_table_full; try assumption.
    + unfold MAX_COLS. cbn. lia.
    + vm_compute. reflexivity.
    + apply forallb_forall. intros row Hrow.
      apply in_map_iff in Hrow as (a & <- & Ha).
      rewrite writable_cells_text. unfold normalized_row.
      rewrite forallb_app. cbn [forallb].
      rewrite forallb_forall in Hw, Hn.
      rewrite (Hn a Ha). rewrite andb_true_r. exact (Hw a Ha).
  - apply category_summary_again.
  - apply series_summary_again.
  - apply find_duplicates_with_again.
Qed.

End ExporterRuns.

(** C7, as the specification has it, fails: the dataset of a scrape that
    found no record is [pd.DataFrame([])], a frame without a column, and
    the [All_Data] sheet of its export has no header cell. *)
Lemma export_to_excel_no_header :
  export_to_excel lower strip writer_sample (DataFrame_of_records []) "odesi_data.xlsx"
  = (Ok tt, Some [Full (mkSheet "All_Data" [] [])], DataFrame_of_records [])
  /\ ~ (forall (str_lower str_strip : string -> string)
               (writer_error : string -> option exn) (filename : string),
          writer_error filename = None ->
          exists wb sh,
            saved_workbook
              (export_to_excel str_lower str_strip writer_error
                 (DataFrame_of_records []) filename) = Some wb
            /\ sheet_named "All_Data" wb = Some sh
            /\ header sh <> []).
Proof.
  split; [reflexivity|].
  intros H.
  destruct (H lower strip writer_sample "odesi_data.xlsx" eq_refl)
    as (wb & sh & Hwb & Hsh & Hh).
  vm_compute in Hwb. injection Hwb as <-.
  vm_compute in Hsh. injection Hsh as <-.
  now apply Hh.
Qed.

(** C7, amended. When the writer can open the file, the export of a frame
    without rows, whose column labels a sheet takes as they are, writes
    one sheet and no other: [All_Data], with the column labels of the
    frame as its header row and no data row. The frame built from an empty
    list of records has no column, so that its [All_Data] sheet has no
    header cell either. For every list of text records within the limits
    of a sheet whose fields are taken as they are, every sheet of the
    workbook is written to its end, and there is a [Potential_Duplicates]
    sheet exactly when some record is in a duplicate group. *)
Theorem export_to_excel_sheets :
  forall (str_lower str_strip : string -> string)
         (writer_error : string -> option exn) (filename : string),
    let export := export_to_excel str_lower str_strip writer_error in
    let norm := normalize str_lower str_strip in
    writer_error filename = None ->
    (forall cols : list string,
       writable_frame (mkFrame cols []) = true ->
       export (mkFrame cols []) filename =
       (Ok tt, Some [Full (mkSheet "All_Data" cols [])], mkFrame cols []))
    /\ export (DataFrame_of_records []) filename =
       (Ok tt, Some [Full (mkSheet "All_Data" [] [])], DataFrame_of_records [])
    /\ (forall rs : list (record string),
          fits_a_sheet (length rs) -> forallb writable_record rs = true ->
          exists wb,
            saved_workbook (export (DataFrame_of_records rs) filename) = Some wb
            /\ (forall w, In w wb -> exists sh, w = Full sh)
            /\ ((exists sh, sheet_named "Potential_Duplicates" wb = Some sh)
                <-> (exists r, In r rs /\ is_duplicate norm rs r = true))).
Proof.
  intros str_lower str_strip writer_error filename export norm Hopen.
  assert (Hrowless : forall cols : list string,
             writable_frame (mkFrame cols []) = true ->
             export (mkFrame cols []) filename =
             (Ok tt, Some [Full (mkSheet "All_Data" cols [])], mkFrame cols [])).
  { intros cols Hw. unfold export, export_to_excel. rewrite Hopen.
    unfold export_to_excel_body.
    unfold bind at 1. unfold on_frame at 1, get_state at 1. cbn [df_obj book].
    unfold bind at 1. rewrite (to_excel_full _ _ _ Hw).
    replace (df_empty (mkFrame cols [])) with true by (now destruct cols).
    reflexivity. }
  split; [exact Hrowless|]. split; [exact (Hrowless [] eq_refl)|].
  intros rs Hfit Hw. destruct rs as [|r0 rs'].
  - rewrite (Hrowless [] eq_refl : export (DataFrame_of_records []) filename = _).
    eexists. split; [reflexivity|]. split.
    + intros w [<-|[]]. now eexists.
    + split.
      * intros (sh & Hsh). discriminate Hsh.
      * intros (r & [] & _).
  - unfold export.
    rewrite (export_to_excel_run str_lower str_strip writer_error r0 rs' filename
               Hopen Hfit Hw).
    fold norm. set (rs := r0 :: rs').
    eexists. split; [reflexivity|].
    unfold duplicates_sheet.
    destruct (duplicates_of norm rs) as [|d ds] eqn:Hd.
    + split.
      * intros w [<-|[<-|[<-|[]]]]; now eexists.
      * split.
        -- intros (sh & Hsh). discriminate Hsh.
        -- intros (r & Hr). apply duplicates_of_in in Hr. rewrite Hd in Hr.
           destruct Hr.
    + split.
      * intros w [<-|[<-|[<-|[<-|[]]]]]; now eexists.
      * split.
        -- intros _. exists d. apply duplicates_of_in. rewrite Hd. now left.
        -- intros _. eexists. reflexivity.
Qed.

Lemma export_to_excel_sheets_witness :
  exists wb sh,
    saved_workbook
      (export_to_excel lower strip writer_sample
         (DataFrame_of_records labour_records) "odesi_data.xlsx") = Some wb
    /\ sheet_named "Potential_Duplicates" wb = Some sh.
Proof.
  destruct (proj2 (proj2 (export_to_excel_sheets lower strip writer_sample
                            "odesi_data.xlsx" eq_refl))
              labour_records)
    as (wb & Hwb & _ & Hdup).
  - unfold fits_a_sheet, MAX_ROWS. simpl. lia.
  - reflexivity.
  - destruct (proj2 Hdup) as (sh & Hsh).
    + exists (mkRecord "Labour and Employment" "Labour Surveys" "2001"
                "Labour Survey 2001" "/a").
      split; [now left | reflexivity].
    + now exists wb, sh.
Defined.

(** C9, as the specification has it, fails: a title with a control
    character that openpyxl refuses ends the export in its first sheet,
    and the workbook has no [Series_Summary] sheet. *)
Lemma export_to_excel_no_series_summary :
  export_to_excel lower strip writer_sample
    (DataFrame_of_records vertical_tab_record) "odesi_data.xlsx"
  = (Raise IllegalCharacterError, Some [Partial "All_Data"],
     DataFrame_of_records vertical_tab_record)
  /\ ~ (forall (str_lower str_strip : string -> string)
               (writer_error : string -> option exn)
               (r : record string) (rs' : list (record string)) (filename : string),
          writer_error filename = None ->
          exists wb sh,
            saved_workbook
              (export_to_excel str_lower str_strip writer_error
                 (DataFrame_of_records (r :: rs')) filename) = Some wb
            /\ sheet_named "Series_Summary" wb = Some sh).
Proof.
  split; [vm_compute; reflexivity|].
  intros H.
  destruct (H lower strip writer_sample
              (mkRecord "Health" "Labour Force Survey" "2001"
                 (String (ascii_of_nat 11) "LFS 2001 Wave 1") "/lfs/2001/1")
              [] "odesi_data.xlsx" eq_refl)
    as (wb & sh & Hwb & Hsh).
  vm_compute in Hwb. injection Hwb as <-. discriminate Hsh.
Qed.

(** C9, amended. When the writer can open the file, in the export of a
    non-empty list of text records within the limits of a sheet whose
    fields are taken as they are, the [Series_Summary] sheet has, for every
    (category, series) pair met in the list, one row: the pair, the number
    of records of the group, and the least and the greatest of the year
    labels of the group in the lexicographic order of strings; and it has
    no other row. *)
Theorem export_series_summary :
  forall (str_lower str_strip : string -> string)
         (writer_error : string -> option exn)
         (r0 : record string) (rs' : list (record string)) (filename : string),
    let rs := r0 :: rs' in
    let out := export_to_excel str_lower str_strip writer_error
                 (DataFrame_of_records rs) filename in
    writer_error filename = None ->
    fits_a_sheet (length rs) -> forallb writable_record rs = true ->
    exists wb sh,
      saved_workbook out = Some wb
      /\ sheet_named "Series_Summary" wb = Some sh
      /\ header sh =
           ["Category"; "Series_Name"; "Survey_Count"; "First_Year"; "Last_Year"]
      /\ (forall r, In r rs ->
            let g := filter (same_group (Category r) (Series_Name r)) rs in
            exists y1 y2,
              In [Text (Category r); Text (Series_Name r); Number (length g);
                  Text y1; Text y2] (body sh)
              /\ In y1 (map Year g)
              /\ (forall y, In y (map Year g) -> String.leb y1 y = true)
              /\ In y2 (map Year g)
              /\ (forall y, In y (map Year g) -> String.leb y y2 = true))
      /\ (forall row, In row (body sh) ->
            exists r, In r rs
                      /\ firstn 2 row = [Text (Category r); Text (Series_Name r)])
      /\ NoDup (map (firstn 2) (body sh)).
Proof.
  intros str_lower str_strip writer_error r0 rs' filename rs out Hopen Hfit Hw.
  subst out rs.
  rewrite (export_to_excel_run str_lower str_strip writer_error r0 rs' filename
             Hopen Hfit Hw).
  unfold saved_workbook. cbn [fst snd].
  set (rs := r0 :: rs').
  eexists. exists (series_summary_sheet rs).
  split; [reflexivity|]. split; [reflexivity|]. split; [reflexivity|].
  cbn [series_summary_sheet body].
  split; [|split].
  - intros r Hr.
    set (g := filter (same_group (Category r) (Series_Name r)) rs).
    assert (Hg : group_of rs (group_key r) = g) by apply group_of_same_group.
    assert (Hne : map Year g <> []).
    { assert (Hin : In r g).
      { apply filter_In. split; [exact Hr|].
        unfold same_group. now rewrite !String.eqb_refl. }
      destruct g; [destruct Hin | discriminate]. }
    destruct (agg_min_max (map Year g) Hne)
      as (y1 & y2 & Hmin & Hmax & H1 & H2 & H3 & H4).
    exists y1, y2. split; [|auto].
    apply in_map_iff. exists (group_key r). split.
    + rewrite Hg, Hmin, Hmax. unfold agg_count. now rewrite length_map.
    + apply group_keys_in. now exists r.
  - intros row Hrow. apply in_map_iff in Hrow as (k & <- & Hk).
    apply group_keys_in in Hk as (r & Hr & ->).
    exists r. split; [exact Hr | reflexivity].
  - rewrite map_map.
    rewrite (map_ext_in _ (map Text)).
    + apply Finite.Injective_map_NoDup; [|apply group_keys_nodup].
      intros a b. apply map_Text_injective.
    + intros k Hk. apply group_keys_in in Hk as (r & _ & ->). reflexivity.
Qed.

Lemma export_series_summary_witness :
  exists wb sh y1 y2,
    saved_workbook
      (export_to_excel lower strip writer_sample
         (DataFrame_of_records labour_records) "odesi_data.xlsx") = Some wb
    /\ sheet_named "Series_Summary" wb = Some sh
    /\ In [Text "Labour and Employment"; Text "Labour Surveys"; Number 3;
           Text y1; Text y2] (body sh)
    /\ In y1 ["2001"; "2001"; "2002"]
    /\ In y2 ["2001"; "2001"; "2002"].
Proof.
  destruct (export_series_summary lower strip writer_sample
              (mkRecord "Labour and Employment" "Labour Surveys" "2001"
                 "Labour Survey 2001" "/a")
              [mkRecord "Labour and Employment" "Labour Surveys" "2001"
                 " labour survey 2001 " "/b";
               mkRecord "Labour and Employment" "Labour Surveys" "2002"
                 "Labour Survey 2002" "/c"]
              "odesi_data.xlsx")
    as (wb & sh & Hwb & Hsh & _ & Hrow & _).
  - reflexivity.
  - unfold fits_a_sheet, MAX_ROWS. simpl. lia.
  - reflexivity.
  - destruct (Hrow (mkRecord "Labour and Employment" "Labour Surveys" "2002"
                      "Labour Survey 2002" "/c"))
      as (y1 & y2 & Hin & H1 & _ & H2 & _).
    + right. right. now left.
    + exists wb, sh, y1, y2. auto.
Defined.

(** C10, as the specification has it, fails: a title with a control
    character that openpyxl refuses raises while [All_Data] is written,
    and the sheet is left cut short in the workbook. *)
Lemma export_to_excel_all_data_cut_short :
  let out := export_to_excel lower strip writer_sample
               (DataFrame_of_records vertical_tab_record) "odesi_data.xlsx" in
  fst (fst out) = Raise IllegalCharacterError
  /\ saved_workbook out = Some [Partial "All_Data"]
  /\ ~ (forall (str_lower str_strip : string -> string)
               (writer_error : string -> option exn)
               (r : record string) (rs' : list (record string)) (filename : string),
          writer_error filename = None ->
          exists wb sh,
            saved_workbook
              (export_to_excel str_lower str_strip writer_error
                 (DataFrame_of_records (r :: rs')) filename) = Some wb
            /\ sheet_named "All_Data" wb = Some sh
            /\ length (body sh) = length (r :: rs')).
Proof.
  split; [vm_compute; reflexivity|]. split; [vm_compute; reflexivity|].
  intros H.
  destruct (H lower strip writer_sample
              (mkRecord "Health" "Labour Force Survey" "2001"
                 (String (ascii_of_nat 11) "LFS 2001 Wave 1") "/lfs/2001/1")
              [] "odesi_data.xlsx" eq_refl)
    as (wb & sh & Hwb & Hsh & _).
  vm_compute in Hwb. injection Hwb as <-. discriminate Hsh.
Qed.

(** C10, amended. When the writer can open the file, in the export of a
    non-empty list of text records within the limits of a sheet whose
    fields are taken as they are, the first sheet is [All_Data], and it is
    the only sheet of that name; its header is Category, Series_Name, Year,
    Survey_Title, URI in that order, and its rows are the records, one row
    per record, in the order of the list. *)
Theorem export_all_data :
  forall (str_lower str_strip : string -> string)
         (writer_error : string -> option exn)
         (r0 : record string) (rs' : list (record string)) (filename : string),
    let rs := r0 :: rs' in
    let out := export_to_excel str_lower str_strip writer_error
                 (DataFrame_of_records rs) filename in
    writer_error filename = None ->
    fits_a_sheet (length rs) -> forallb writable_record rs = true ->
    exists sh rest,
      saved_workbook out = Some (Full sh :: rest)
      /\ sheet_name sh = "All_Data"
      /\ header sh = ["Category"; "Series_Name"; "Year"; "Survey_Title"; "URI"]
      /\ body sh =
           map (fun r => [Text (Category r); Text (Series_Name r); Text (Year r);
                          Text (Survey_Title r); Text (URI r)]) rs
      /\ length (body sh) = length rs
      /\ Forall (fun w => written_name w <> "All_Data") rest.
Proof.
  intros str_lower str_strip writer_error r0 rs' filename rs out Hopen Hfit Hw.
  subst out rs.
  rewrite (export_to_excel_run str_lower str_strip writer_error r0 rs' filename
             Hopen Hfit Hw).
  unfold saved_workbook. cbn [fst snd].
  set (rs := r0 :: rs').
  exists (all_data_sheet rs),
         ([Full (category_summary_sheet rs); Full (series_summary_sheet rs)]
            ++ duplicates_sheet (normalize str_lower str_strip) rs).
  split; [reflexivity|]. split; [reflexivity|]. split; [reflexivity|].
  split; [reflexivity|]. split; [apply length_map|].
  apply Forall_app. split.
  - repeat constructor; discriminate.
  - unfold duplicates_sheet.
    destruct (duplicates_of (normalize str_lower str_strip) rs); repeat constructor.
    discriminate.
Qed.

Lemma export_all_data_witness :
  exists sh rest,
    saved_workbook
      (export_to_excel lower strip writer_sample
         (DataFrame_of_records labour_records) "odesi_data.xlsx")
    = Some (Full sh :: rest)
    /\ sheet_name sh = "All_Data"
    /\ length (body sh) = 3.
Proof.
  destruct (export_all_data lower strip writer_sample
              (mkRecord "Labour and Employment" "Labour Surveys" "2001"
                 "Labour Survey 2001" "/a")
              [mkRecord "Labour and Employment" "Labour Surveys" "2001"
                 " labour survey 2001 " "/b";
               mkRecord "Labour and Employment" "Labour Surveys" "2002"
                 "Labour Survey 2002" "/c"]
              "odesi_data.xlsx")
    as (sh & rest & Hwb & Hname & _ & _ & Hlen & _).
  - reflexivity.
  - unfold fits_a_sheet, MAX_ROWS. simpl. lia.
  - reflexivity.
  - exists sh, rest. auto.
Defined.

(* ================================================================== *)
(** * Part IV: further properties *)
(* ================================================================== *)

(** ** The URL of a request *)

Lemma nat_of_ascii_bound (c : ascii) : nat_of_ascii c < 256.
Proof.
  destruct c as [[] [] [] [] [] [] [] []]; vm_compute; lia.
Qed.


Lemma unhex_hex_digit (k : nat) : k < 16 -> unhex (hex_digit k) = k.
Proof.
  intros H. do 16 (destruct k as [|k]; [reflexivity|]). lia.
Qed.


Lemma percent_not_kept : quote_keeps "%" = false.
Proof. reflexivity. Qed.

Lemma nat_of_ascii_injective (a b : ascii) : nat_of_ascii a = nat_of_ascii b -> a = b.
Proof.
  intros H. rewrite <- (ascii_nat_embedding a), <- (ascii_nat_embedding b).
  now rewrite H.
Qed.

Lemma percent_encode_injective (a b : ascii) :
  percent_encode a = percent_encode b -> a = b.
Proof.
  unfold percent_encode.
  pose proof (nat_of_ascii_bound a) as Ha. pose proof (nat_of_ascii_bound b) as Hb.
  assert (Hqa : nat_of_ascii a / 16 < 16) by (apply Nat.Div0.div_lt_upper_bound; lia).
  assert (Hqb : nat_of_ascii b / 16 < 16) by (apply Nat.Div0.div_lt_upper_bound; lia).
  assert (Hra : nat_of_ascii a mod 16 < 16) by (apply Nat.mod_upper_bound; lia).
  assert (Hrb : nat_of_ascii b mod 16 < 16) by (apply Nat.mod_upper_bound; lia).
  pose proof (Nat.div_mod_eq (nat_of_ascii a) 16) as Ea.
  pose proof (Nat.div_mod_eq (nat_of_ascii b) 16) as Eb.
  revert Hqa Hqb Hra Hrb Ea Eb.
  generalize (nat_of_ascii a / 16) (nat_of_ascii b / 16)
             (nat_of_ascii a mod 16) (nat_of_ascii b mod 16).
  intros qa qb ra rb Hqa Hqb Hra Hrb Ea Eb H.
  assert (H1 : hex_digit qa = hex_digit qb) by congruence.
  assert (H2 : hex_digit ra = hex_digit rb) by congruence.
  apply (f_equal unhex) in H1, H2.
  rewrite !unhex_hex_digit in H1, H2 by assumption.
  apply nat_of_ascii_injective. lia.
Qed.

Lemma percent_encode_app (c : ascii) (t : string) :
  (percent_encode c ++ t)%string =
  String "%" (String (hex_digit (nat_of_ascii c / 16))
                (String (hex_digit (nat_of_ascii c mod 16)) t)).
Proof. reflexivity. Qed.

Lemma quote_injective (s1 s2 : string) : quote s1 = quote s2 -> s1 = s2.
Proof.
  revert s2. induction s1 as [|c1 s1 IH]; intros [|c2 s2] H.
  - reflexivity.
  - cbn [quote] in H. destruct (quote_keeps c2);
      [|rewrite percent_encode_app in H]; discriminate H.
  - cbn [quote] in H. destruct (quote_keeps c1);
      [|rewrite percent_encode_app in H]; discriminate H.
  - cbn [quote] in H.
    destruct (quote_keeps c1) eqn:K1, (quote_keeps c2) eqn:K2;
      rewrite ?percent_encode_app in H.
    + cbn [append] in H. injection H as -> H. f_equal. now apply IH.
    + cbn [append] in H. assert (Hc : c1 = "%"%char) by congruence.
      subst c1. rewrite percent_not_kept in K1. discriminate K1.
    + cbn [append] in H. assert (Hc : c2 = "%"%char) by congruence.
      subst c2. rewrite percent_not_kept in K2. discriminate K2.
    + assert (Hc : percent_encode c1 = percent_encode c2)
        by (unfold percent_encode; congruence).
      apply percent_encode_injective in Hc. subst c2. f_equal. apply IH.
      congruence.
Qed.

Lemma append_injective (p a b : string) : (p ++ a = p ++ b)%string -> a = b.
Proof.
  induction p as [|c p IH]; simpl; intros H; [exact H|].
  injection H as H. now apply IH.
Qed.



(** X2. Two categories that differ are requested at two URLs that differ. *)
Theorem browse_url_injective :
  forall c1 c2 : string, c1 <> c2 -> browse_url c1 <> browse_url c2.
Proof.
  intros c1 c2 Hne H. apply Hne. unfold browse_url in H.
  apply append_injective, append_injective in H.
  now apply quote_injective.
Qed.

Lemma browse_url_injective_witness :
  browse_url "Labour and Employment" <> browse_url "Labour%20and%20Employment".
Proof.
  apply browse_url_injective. discriminate.
Defined.

(** ** Parser: the category only labels, and what can be raised *)

Lemma for_each_relabel {A : Type} (f : record json -> record json)
    (body body' : list (record json) -> A -> result (list (record json)))
    (l : list A) :
  (forall acc x, body' (map f acc) x = result_map (map f) (body acc x)) ->
  forall acc,
    for_each l (map f acc) body' = result_map (map f) (for_each l acc body).
Proof.
  intros H. induction l as [|x l IH]; intros acc; simpl; [reflexivity|].
  rewrite H. destruct (body acc x) as [acc'|e]; simpl; [apply IH | reflexivity].
Qed.

Lemma parse_surveys_relabel (c c' : string) (sn yr v : json) (acc : list (record json)) :
  parse_surveys c' sn yr v (map (with_category c') acc) =
  result_map (map (with_category c')) (parse_surveys c sn yr v acc).
Proof.
  unfold parse_surveys. destruct (py_iter v) as [l|e]; [|reflexivity].
  cbn [result_bind]. apply for_each_relabel. intros a x.
  destruct x; try reflexivity.
  cbn [py_get result_bind result_map]. now rewrite map_app.
Qed.

Lemma parse_years_relabel (c c' : string) (sn v : json) (acc : list (record json)) :
  parse_years c' sn v (map (with_category c') acc) =
  result_map (map (with_category c')) (parse_years c sn v acc).
Proof.
  unfold parse_years. destruct (py_iter v) as [l|e]; [|reflexivity].
  cbn [result_bind]. apply for_each_relabel. intros a x.
  destruct x; try reflexivity.
  cbn [py_get result_bind]. apply parse_surveys_relabel.
Qed.

Lemma parse_items_relabel (c c' : string) (v : json) (acc : list (record json)) :
  parse_items c' v (map (with_category c') acc) =
  result_map (map (with_category c')) (parse_items c v acc).
Proof.
  unfold parse_items. destruct (py_iter v) as [l|e]; [|reflexivity].
  cbn [result_bind]. apply for_each_relabel. intros a x.
  destruct x; try reflexivity.
  cbn [py_get result_bind]. apply parse_years_relabel.
Qed.

Lemma parse_category_data_relabel (c c' : string) (data : json) :
  parse_category_data c' data =
  result_map (map (with_category c')) (parse_category_data c data).
Proof.
  unfold parse_category_data.
  destruct (negb (truthy data)); [reflexivity|].
  destruct (py_in "content" data) as [b|e]; [|reflexivity].
  cbn [result_bind]. destruct (negb b); [reflexivity|].
  destruct (py_get data "content" (JObj [])) as [content|e]; [|reflexivity].
  cbn [result_bind].
  destruct (py_get content "datasets" (JObj [])) as [datasets|e]; [|reflexivity].
  cbn [result_bind]. destruct (negb (isinstance_dict datasets)); [reflexivity|].
  destruct (py_get datasets "items" (JArr [])) as [items|e]; [|reflexivity].
  cbn [result_bind]. apply (parse_items_relabel c c' items []).
Qed.

(** X3. The category given to the parser decides nothing but the label of
    the records: on every input, well-formed or not, parsing under another
    category raises the same exception or returns the same records with
    the other label; and every record returned carries the category
    given. *)
Theorem parse_category_data_labels :
  forall (c c' : string) (data : json),
    parse_category_data c' data =
      result_map (map (with_category c')) (parse_category_data c data)
    /\ (forall records, parse_category_data c data = Ok records ->
          Forall (fun r => Category r = JStr c) records).
Proof.
  intros c c' data. split; [apply parse_category_data_relabel|].
  intros records H.
  pose proof (parse_category_data_relabel c c data) as E.
  rewrite H in E. cbn [result_map] in E. injection E as E.
  apply Forall_forall. intros r Hr. rewrite E in Hr.
  apply in_map_iff in Hr as (r0 & <- & _). reflexivity.
Qed.

Lemma parse_category_data_labels_witness :
  Forall (fun r => Category r = JStr "Health")
    (leaf_records "Health" example_items).
Proof.
  apply (proj2 (parse_category_data_labels "Health" "Health"
                  (api_response [] [] [] example_items))).
  reflexivity.
Defined.

(** *** What the parser can raise *)

Lemma for_each_raises {A B : Type} (P : exn -> Prop)
    (body : B -> A -> result B) (l : list A) :
  (forall acc x e, body acc x = Raise e -> P e) ->
  forall acc e, for_each l acc body = Raise e -> P e.
Proof.
  intros H. induction l as [|x l IH]; intros acc e; simpl; [discriminate|].
  destruct (body acc x) as [acc'|e'] eqn:E.
  - apply IH.
  - intros He. injection He as <-. eapply H, E.
Qed.

Lemma py_get_raises (v : json) (k : string) (d : json) (e : exn) :
  py_get v k d = Raise e -> e = AttributeError.
Proof. destruct v; simpl; intros H; try discriminate; now injection H. Qed.

Lemma py_iter_raises (v : json) (e : exn) :
  py_iter v = Raise e -> e = TypeError.
Proof. destruct v; simpl; intros H; try discriminate; now injection H. Qed.

Lemma py_in_raises (k : string) (v : json) (e : exn) :
  py_in k v = Raise e -> e = TypeError.
Proof. destruct v; simpl; intros H; try discriminate; now injection H. Qed.

Lemma parse_surveys_raises (c : string) (sn yr v : json) (acc : list (record json))
    (e : exn) :
  parse_surveys c sn yr v acc = Raise e -> attribute_or_type_error e.
Proof.
  unfold parse_surveys. destruct (py_iter v) as [l|e'] eqn:Ei.
  - cbn [result_bind]. apply for_each_raises. intros a x e0.
    destruct (py_get x "title" (JStr "")) eqn:E1; cbn [result_bind].
    + destruct (py_get x "uri" (JStr "")) eqn:E2; cbn [result_bind];
        [discriminate|].
      intros H. injection H as <-. left. eapply py_get_raises, E2.
    + intros H. injection H as <-. left. eapply py_get_raises, E1.
  - cbn [result_bind]. intros H. injection H as <-. right.
    eapply py_iter_raises, Ei.
Qed.

Lemma parse_years_raises (c : string) (sn v : json) (acc : list (record json))
    (e : exn) :
  parse_years c sn v acc = Raise e -> attribute_or_type_error e.
Proof.
  unfold parse_years. destruct (py_iter v) as [l|e'] eqn:Ei.
  - cbn [result_bind]. apply for_each_raises. intros a x e0.
    destruct (py_get x "year" (JStr "Unknown")) eqn:E1; cbn [result_bind].
    + destruct (py_get x "item" (JArr [])) eqn:E2; cbn [result_bind].
      * apply parse_surveys_raises.
      * intros H. injection H as <-. left. eapply py_get_raises, E2.
    + intros H. injection H as <-. left. eapply py_get_raises, E1.
  - cbn [result_bind]. intros H. injection H as <-. right.
    eapply py_iter_raises, Ei.
Qed.

Lemma parse_items_raises (c : string) (v : json) (acc : list (record json))
    (e : exn) :
  parse_items c v acc = Raise e -> attribute_or_type_error e.
Proof.
  unfold parse_items. destruct (py_iter v) as [l|e'] eqn:Ei.
  - cbn [result_bind]. apply for_each_raises. intros a x e0.
    destruct (py_get x "series" (JStr "Unknown")) eqn:E1; cbn [result_bind].
    + destruct (py_get x "years" (JArr [])) eqn:E2; cbn [result_bind].
      * apply parse_years_raises.
      * intros H. injection H as <-. left. eapply py_get_raises, E2.
    + intros H. injection H as <-. left. eapply py_get_raises, E1.
  - cbn [result_bind]. intros H. injection H as <-. right.
    eapply py_iter_raises, Ei.
Qed.

(** X4. The parser raises nothing but an [AttributeError] (a [.get] on a
    value that is not a mapping) or a [TypeError] (a membership test or a
    loop on a value that has none); a number or a boolean that is not
    falsy as the whole input raises the [TypeError]; and an input that is
    not a mapping never gives a record: the parser returns the empty list
    or raises. *)
Theorem parse_category_data_errors :
  forall (c : string) (data : json),
    (forall e, parse_category_data c data = Raise e ->
       e = AttributeError \/ e = TypeError)
    /\ (forall records,
          isinstance_dict data = false ->
          parse_category_data c data = Ok records -> records = [])
    /\ (truthy data = true ->
        (exists n, data = JInt n) \/ (exists f, data = JFloat f) \/ data = JBool true ->
        parse_category_data c data = Raise TypeError).
Proof.
  intros c data. split; [|split].
  - intros e. unfold parse_category_data.
    destruct (negb (truthy data)); [discriminate|].
    destruct (py_in "content" data) as [b|e'] eqn:Ein; cbn [result_bind].
    + destruct (negb b); [discriminate|].
      destruct (py_get data "content" (JObj [])) as [content|e'] eqn:E1;
        cbn [result_bind];
        [|intros H; injection H as <-; left; eapply py_get_raises, E1].
      destruct (py_get content "datasets" (JObj [])) as [datasets|e'] eqn:E2;
        cbn [result_bind];
        [|intros H; injection H as <-; left; eapply py_get_raises, E2].
      destruct (negb (isinstance_dict datasets)); [discriminate|].
      destruct (py_get datasets "items" (JArr [])) as [items|e'] eqn:E3;
        cbn [result_bind];
        [|intros H; injection H as <-; left; eapply py_get_raises, E3].
      apply parse_items_raises.
    + intros H. injection H as <-. right. eapply py_in_raises, Ein.
  - intros records Hd. unfold parse_category_data.
    destruct (negb (truthy data)); [intros H; now injection H|].
    destruct (py_in "content" data) as [b|e'] eqn:Ein; cbn [result_bind];
      [|discriminate].
    destruct (negb b); [intros H; now injection H|].
    destruct data; try discriminate Hd; discriminate.
  - intros Ht Hk. unfold parse_category_data. rewrite Ht. cbn [negb].
    destruct Hk as [[n ->]|[[f ->]| ->]]; reflexivity.
Qed.

Lemma parse_category_data_errors_witness :
  parse_category_data "Health" (JInt 7) = Raise TypeError
  /\ (forall records,
        parse_category_data "Health" (JArr [JStr "x"]) = Ok records -> records = []).
Proof.
  split.
  - apply (proj2 (proj2 (parse_category_data_errors "Health" (JInt 7)))).
    + reflexivity.
    + left. now exists 7%Z.
  - intros records.
    apply (proj1 (proj2 (parse_category_data_errors "Health" (JArr [JStr "x"])))).
    reflexivity.
Defined.

(** ** Aggregator: failed fetches, exceptions and the delay *)

Lemma concat_map_nil {A B : Type} (l : list A) :
  concat (map (fun _ : A => @nil B) l) = [].
Proof. induction l; simpl; auto. Qed.

(** X5. A fetch that fails does not stop the run and leaves no mark in
    the dataset: when every request of a run fails or is answered with a
    4xx or 5xx status, and [time.sleep] takes the delay (or there are
    fewer than two categories), the run still issues one request per
    category with the pauses between them, and returns the frame built
    from no record at all. *)
Theorem scrape_all_categories_network_down :
  forall (net : nat -> string -> http_outcome)
         (sleep_error : spec_float -> option exn) (self : ODESIScraper)
         (categories : option (list string)) (t0 : trace),
    let cats := effective_categories categories in
    (forall k url,
       (exists e, net k url = Failed e)
       \/ (exists status_code body,
             net k url = Response status_code body
             /\ (400 <= status_code < 600)%Z)) ->
    (2 <= length cats -> sleep_error (delay self) = None) ->
    scrape_all_categories net sleep_error self categories t0 =
    (Ok (pd_DataFrame []),
     t0 ++ intersperse (Sleep (delay self)) (map (request_for self) cats)).
Proof.
  intros net sleep_error self categories t0 cats Hnet Hd.
  rewrite (scrape_all_categories_run net sleep_error self categories t0 (fun _ => []));
    [|intros j c _|exact Hd].
  - fold cats. now rewrite concat_map_nil.
  - destruct (Hnet (requests_made t0 + j) (browse_url c))
      as [[e ->]|(status_code & body & -> & Hs)]; [reflexivity|].
    unfold response_data.
    replace ((400 <=? status_code)%Z && (status_code <? 600)%Z) with true;
      [reflexivity|].
    symmetry. apply andb_true_iff. split; [apply Z.leb_le | apply Z.ltb_lt]; lia.
Qed.

Lemma scrape_all_categories_network_down_witness :
  scrape_all_categories net_down sleep_sample (init NO_DELAY)
    (Some ["Health"; "Trade"; "Travel"]) [] =
  (Ok (pd_DataFrame []),
   [request_for (init NO_DELAY) "Health"; Sleep NO_DELAY;
    request_for (init NO_DELAY) "Trade"; Sleep NO_DELAY;
    request_for (init NO_DELAY) "Travel"]).
Proof.
  refine (scrape_all_categories_network_down net_down sleep_sample (init NO_DELAY)
            (Some ["Health"; "Trade"; "Travel"]) [] _ _).
  - intros [|[|k]] url.
    + left. now exists ConnectionError.
    + right. exists 503%Z, None. split; [reflexivity | lia].
    + left. now exists Timeout.
  - intros _. reflexivity.
Defined.

(** X6. An exception of the parser ends the run: when the responses of the
    categories before [c] parse, [time.sleep] takes the delay (or no
    category comes before [c]), and the response of [c] makes the parser
    raise, the run raises that exception and returns no dataset, so the
    records gathered before are lost; the requests up to [c] have been
    issued, with the pauses between them, and nothing after. *)
Theorem scrape_all_categories_propagates :
  forall (net : nat -> string -> http_outcome)
         (sleep_error : spec_float -> option exn) (self : ODESIScraper)
         (pre : list string) (c : string) (post : list string) (t0 : trace)
         (e : exn),
    (pre <> [] -> sleep_error (delay self) = None) ->
    (forall j c', nth_error pre j = Some c' ->
       exists records,
         parse_category_data c'
           (response_data (net (requests_made t0 + j) (browse_url c')))
         = Ok records) ->
    parse_category_data c
      (response_data (net (requests_made t0 + length pre) (browse_url c)))
    = Raise e ->
    scrape_all_categories net sleep_error self (Some (pre ++ c :: post)) t0 =
    (Raise e,
     t0 ++ intersperse (Sleep (delay self)) (map (request_for self) (pre ++ [c]))).
Proof.
  intros net sleep_error self pre c post t0 e Hd Hpre Hc.
  now apply (scrape_all_categories_raises net sleep_error self
               (Some (pre ++ c :: post)) pre c post t0 e).
Qed.

Lemma scrape_all_categories_propagates_witness :
  scrape_all_categories
    (fun n url => match n with 0 => net_surveys n url | _ => net_null n url end)
    sleep_sample (init DEFAULT_DELAY)
    (Some (["Health"] ++ "Trade" :: ["Travel"])) [] =
  (Raise AttributeError,
   [request_for (init DEFAULT_DELAY) "Health"; Sleep DEFAULT_DELAY;
    request_for (init DEFAULT_DELAY) "Trade"]).
Proof.
  refine (scrape_all_categories_propagates _ sleep_sample (init DEFAULT_DELAY)
            ["Health"] "Trade" ["Travel"] [] AttributeError _ _ _).
  - intros _. reflexivity.
  - intros [|j] c' Hj; simpl in Hj.
    + injection Hj as <-. eexists. reflexivity.
    + destruct j; discriminate Hj.
  - reflexivity.
Defined.

(** X7. A delay that [time.sleep] refuses ends a run over two or more
    categories at its first pause: when the first response parses and
    [time.sleep] raises [e] on the delay (as it does on a negative one),
    the run raises [e] after one request and before any other, and returns
    no dataset. *)
Theorem scrape_all_categories_refused_delay :
  forall (net : nat -> string -> http_outcome)
         (sleep_error : spec_float -> option exn) (self : ODESIScraper)
         (c1 c2 : string) (rest : list string) (t0 : trace)
         (records : list (record json)) (e : exn),
    sleep_error (delay self) = Some e ->
    parse_category_data c1
      (response_data (net (requests_made t0) (browse_url c1))) = Ok records ->
    scrape_all_categories net sleep_error self (Some (c1 :: c2 :: rest)) t0 =
    (Raise e, t0 ++ [request_for self c1]).
Proof.
  intros net sleep_error self c1 c2 rest t0 records e Hd Hp.
  unfold scrape_all_categories. unfold bind at 1.
  cbn [enumerate for_eachM].
  unfold bind at 1. unfold bind at 1.
  rewrite fetch_category_data_run.
  unfold bind at 1. unfold lift at 1. rewrite Hp.
  cbn [length Nat.ltb Nat.leb].
  unfold bind at 1. unfold time_sleep at 1. now rewrite Hd.
Qed.

Lemma scrape_all_categories_refused_delay_witness :
  scrape_all_categories net_example sleep_sample (init MINUS_ONE)
    (Some ["Health"; "Trade"]) [] =
  (Raise ValueError, [request_for (init MINUS_ONE) "Health"]).
Proof.
  refine (scrape_all_categories_refused_delay net_example sleep_sample
            (init MINUS_ONE) "Health" "Trade" [] [] [] ValueError _ _).
  - reflexivity.
  - reflexivity.
Defined.

(** ** Detector: a second call, groups, a missing column, padded titles *)

(** X8. A second call of the detector on the same dataset gives the same
    result as the first and changes nothing more: the normalized column
    that the first call left on the caller's frame is written over, not
    added a second time. *)
Theorem find_duplicates_twice :
  forall (r : record string) (rs' : list (record string)),
    let first := find_duplicates (DataFrame_of_records (r :: rs')) in
    let second := find_duplicates (snd first) in
    fst second = fst first
    /\ snd second = snd first
    /\ columns (snd second) = RECORD_KEYS ++ ["Title_Normalized"].
Proof.
  intros r rs' first second. subst second first.
  rewrite find_duplicates_run. cbn [fst snd].
  rewrite find_duplicates_again. repeat split.
Qed.

Lemma filter_length_perm {A : Type} (p : A -> bool) (l l' : list A) :
  Permutation l l' -> length (filter p l) = length (filter p l').
Proof.
  induction 1 as [|x l l' _ IH|x y l|l l' l'' _ IH1 _ IH2]; simpl.
  - reflexivity.
  - destruct (p x); simpl; now rewrite IH.
  - destruct (p x), (p y); reflexivity.
  - now rewrite IH1.
Qed.

Lemma filter_filter_absorb {A : Type} (p q : A -> bool) (l : list A) :
  (forall x, q x = true -> p x = true) ->
  filter q (filter p l) = filter q l.
Proof.
  intros H. induction l as [|x l IH]; simpl; [reflexivity|].
  destruct (p x) eqn:Ep; simpl.
  - destruct (q x); now rewrite IH.
  - destruct (q x) eqn:Eq; [|exact IH].
    apply H in Eq. congruence.
Qed.

Lemma is_duplicate_by_key (norm : string -> string) (rs : list (record string))
    (a b : record string) :
  duplicate_key norm a = duplicate_key norm b ->
  is_duplicate norm rs a = is_duplicate norm rs b.
Proof. unfold is_duplicate. now intros ->. Qed.

Lemma duplicates_have_partners (norm : string -> string) (rs : list (record string))
    (r : record string) :
  In r (duplicates_of norm rs) -> is_duplicate norm (duplicates_of norm rs) r = true.
Proof.
  intros Hr. apply duplicates_of_in in Hr as [_ Hd].
  unfold is_duplicate at 1. unfold duplicates_of.
  rewrite (filter_length_perm _ _ _ (stable_sort_perm by_sort_key _)).
  rewrite filter_filter_absorb; [exact Hd|].
  intros x Hx. apply key_eqb_eq in Hx.
  now rewrite <- (is_duplicate_by_key norm rs r x Hx).
Qed.

(** X9. Whatever [str.lower] and [str.strip] do to a title, the records
    the detector returns for a list of text records come in groups: every
    returned record has its triple (title lower-cased then stripped, series
    name, year) in common with another returned record, so the result is
    empty or has two rows or more, never one. *)
Theorem find_duplicates_groups :
  forall (str_lower str_strip : string -> string) (rs : list (record string)),
    let norm := normalize str_lower str_strip in
    exists (d : frame) (dups : list (record string)),
      fst (find_duplicates_with str_lower str_strip (DataFrame_of_records rs)) = Ok d
      /\ rows d = map record_values dups
      /\ (forall r, In r dups ->
            2 <= length (filter (fun r' => key_eqb (duplicate_key norm r)
                                                   (duplicate_key norm r')) dups))
      /\ length (rows d) <> 1.
Proof.
  intros str_lower str_strip rs norm. subst norm.
  destruct (find_duplicates_with_returns str_lower str_strip rs) as (d & Hd & Hrows & _).
  set (norm := normalize str_lower str_strip) in *.
  exists d, (duplicates_of norm rs).
  split; [exact Hd|]. split; [exact Hrows|].
  split.
  - intros r Hr. apply Nat.leb_le. exact (duplicates_have_partners norm rs r Hr).
  - rewrite Hrows, length_map.
    destruct (duplicates_of norm rs) as [|a [|b l]] eqn:E; try discriminate.
    intros _.
    pose proof (duplicates_have_partners norm rs a) as H.
    rewrite E in H. specialize (H (or_introl eq_refl)).
    unfold is_duplicate in H. simpl in H.
    destruct (key_eqb (duplicate_key norm a) (duplicate_key norm a)); discriminate H.
Qed.

Lemma find_duplicates_groups_witness :
  exists d : frame,
    fst (find_duplicates (DataFrame_of_records labour_records)) = Ok d
    /\ length (rows d) = 2.
Proof.
  destruct (find_duplicates_groups lower strip labour_records)
    as (d & dups & Hd & _).
  exists d. split; [exact Hd|].
  assert (E : Ok d = Ok (mkFrame RECORD_KEYS
                   [["Labour and Employment"; "Labour Surveys"; "2001";
                     " labour survey 2001 "; "/b"];
                    ["Labour and Employment"; "Labour Surveys"; "2001";
                     "Labour Survey 2001"; "/a"]]))
    by (rewrite <- Hd; reflexivity).
  injection E as ->. reflexivity.
Defined.

Lemma get_loc_missing (name : string) (cols : list string) :
  ~ In name cols -> get_loc name cols = Raise (KeyError name).
Proof.
  induction cols as [|c cols IH]; intros H; simpl; [reflexivity|].
  destruct (name =? c) eqn:E.
  - apply String.eqb_eq in E. exfalso. apply H. now left.
  - rewrite IH; [reflexivity|]. intros Hin. apply H. now right.
Qed.

(** X10. On a frame that has rows and columns but no [Survey_Title] column
    the detector raises [KeyError('Survey_Title')] and leaves the frame as
    it was. *)
Theorem find_duplicates_missing_title :
  forall df : frame,
    df_empty df = false ->
    ~ In "Survey_Title" (columns df) ->
    find_duplicates df = (Raise (KeyError "Survey_Title"), df).
Proof.
  intros df He Hc.
  unfold find_duplicates, find_duplicates_with, bind, get_state, lift, getitem.
  rewrite He. now rewrite (get_loc_missing _ _ Hc).
Qed.

Lemma find_duplicates_missing_title_witness :
  find_duplicates frame_without_titles =
  (Raise (KeyError "Survey_Title"), frame_without_titles).
Proof.
  apply find_duplicates_missing_title.
  - reflexivity.
  - simpl. intros [H|[H|[]]]; discriminate H.
Defined.

(** *** Titles that differ in case and outer white space *)

Lemma lower_app (a b : string) : lower (a ++ b) = (lower a ++ lower b)%string.
Proof. induction a as [|c a IH]; simpl; [reflexivity | now rewrite IH]. Qed.

Lemma lower_char_space (c : ascii) : is_space c = true -> lower_char c = c.
Proof.
  intros H. unfold lower_char.
  destruct (is_upper c) eqn:U; [|reflexivity].
  unfold is_space in H. unfold is_upper in U.
  apply andb_true_iff in U as [U1 U2].
  apply Nat.leb_le in U1.
  apply orb_true_iff in H as [H|H]; apply andb_true_iff in H as [_ H];
    apply Nat.leb_le in H; lia.
Qed.

Lemma lower_spaces (w : string) : string_forall is_space w = true -> lower w = w.
Proof.
  induction w as [|c w IH]; simpl; [reflexivity|].
  intros H. apply andb_true_iff in H as [Hc Hw].
  now rewrite lower_char_space, IH.
Qed.

Lemma lstrip_spaces_app (w s : string) :
  string_forall is_space w = true -> lstrip (w ++ s) = lstrip s.
Proof.
  induction w as [|c w IH]; simpl; [reflexivity|].
  intros H. apply andb_true_iff in H as [Hc Hw]. rewrite Hc. now apply IH.
Qed.

Lemma lstrip_spaces (w : string) : string_forall is_space w = true -> lstrip w = "".
Proof.
  induction w as [|c w IH]; simpl; [reflexivity|].
  intros H. apply andb_true_iff in H as [Hc Hw]. rewrite Hc. now apply IH.
Qed.

Lemma rstrip_spaces (w : string) : string_forall is_space w = true -> rstrip w = "".
Proof.
  induction w as [|c w IH]; simpl; [reflexivity|].
  intros H. apply andb_true_iff in H as [Hc Hw]. now rewrite IH, Hc.
Qed.

Lemma rstrip_app_spaces (s w : string) :
  string_forall is_space w = true -> rstrip (s ++ w) = rstrip s.
Proof.
  intros H. induction s as [|c s IH]; simpl; [now apply rstrip_spaces|].
  now rewrite IH.
Qed.

Lemma strip_app_spaces (s w : string) :
  string_forall is_space w = true -> strip (s ++ w) = strip s.
Proof.
  intros H. unfold strip. induction s as [|c s IH]; simpl.
  - now rewrite (lstrip_spaces w H).
  - destruct (is_space c); [exact IH|].
    apply (rstrip_app_spaces (String c s) w H).
Qed.

(** X11. White space around a title and the case of its ASCII letters do
    not enter the comparison: a title padded with white space on either
    side, in whatever case, has the normalized title of the bare one, and
    two records at different places with such titles and the same series
    and year are both rows of the result. *)
Theorem find_duplicates_ignores_padding :
  forall (rs : list (record string)) (i j : nat) (r1 r2 : record string)
         (before after t : string),
    string_forall is_space before = true ->
    string_forall is_space after = true ->
    Survey_Title r2 = (before ++ t ++ after)%string ->
    lower t = lower (Survey_Title r1) ->
    Series_Name r1 = Series_Name r2 -> Year r1 = Year r2 ->
    i <> j -> nth_error rs i = Some r1 -> nth_error rs j = Some r2 ->
    strip (lower (Survey_Title r2)) = strip (lower (Survey_Title r1))
    /\ exists d, fst (find_duplicates (DataFrame_of_records rs)) = Ok d
                 /\ In (record_values r1) (rows d)
                 /\ In (record_values r2) (rows d).
Proof.
  intros rs i j r1 r2 before after t Hb Ha Ht Hl Hs Hy Hij Hi Hj.
  assert (Hn : strip (lower (Survey_Title r2)) = strip (lower (Survey_Title r1))).
  { rewrite Ht, !lower_app, (lower_spaces before Hb), (lower_spaces after Ha), Hl.
    unfold strip at 1. rewrite (lstrip_spaces_app before _ Hb).
    apply (strip_app_spaces (lower (Survey_Title r1)) after Ha). }
  split; [exact Hn|].
  destruct (find_duplicates_returns rs) as (d & Hd & Hrows & _).
  exists d. split; [exact Hd|]. rewrite Hrows.
  assert (Hk : duplicate_key (normalize lower strip) r1
               = duplicate_key (normalize lower strip) r2)
    by (unfold duplicate_key, normalize; now rewrite Hn, Hs, Hy).
  destruct (is_duplicate_pair (normalize lower strip) rs i j r1 r2 Hij Hi Hj Hk)
    as [H1 H2].
  split; now apply in_map.
Qed.

Lemma find_duplicates_ignores_padding_witness :
  exists d, fst (find_duplicates (DataFrame_of_records labour_records)) = Ok d
            /\ In ["Labour and Employment"; "Labour Surveys"; "2001";
                   "Labour Survey 2001"; "/a"] (rows d)
            /\ In ["Labour and Employment"; "Labour Surveys"; "2001";
                   " labour survey 2001 "; "/b"] (rows d).
Proof.
  refine (proj2 (find_duplicates_ignores_padding labour_records 0 1
                   (mkRecord "Labour and Employment" "Labour Surveys" "2001"
                      "Labour Survey 2001" "/a")
                   (mkRecord "Labour and Employment" "Labour Surveys" "2001"
                      " labour survey 2001 " "/b")
                   " " " " "labour survey 2001" _ _ _ _ _ _ _ _ _));
    try reflexivity.
  discriminate.
Defined.

(** ** Exporter: the summaries, the order of the rows, the frame afterwards *)

(** The distinct values of a column, out of the keys [agg_nunique] counts. *)
Lemma distinct_values (col : list string) :
  let names := map (hd "") (dedup (map (fun v => [v]) col)) in
  NoDup names
  /\ (forall s, In s names <-> In s col)
  /\ agg_nunique col = Number (length names).
Proof.
  intros names. subst names.
  set (l := dedup (map (fun v : string => [v]) col)).
  assert (Hsingle : forall k, In k l -> exists v, k = [v] /\ In v col).
  { intros k Hk. unfold l in Hk. apply (proj1 (dedup_in _ _)) in Hk.
    apply in_map_iff in Hk as (v & <- & Hv). now exists v. }
  split; [|split].
  - apply NoDup_map_NoDup_ForallPairs; [|apply dedup_nodup].
    intros a b Ha Hb Hab.
    destruct (Hsingle a Ha) as (va & -> & _).
    destruct (Hsingle b Hb) as (vb & -> & _).
    simpl in Hab. now subst.
  - intros s. rewrite in_map_iff. split.
    + intros (k & <- & Hk). destruct (Hsingle k Hk) as (v & -> & Hv). exact Hv.
    + intros Hs. exists [s]. split; [reflexivity|].
      unfold l. apply (proj2 (dedup_in _ _)), in_map_iff. now exists s.
  - unfold agg_nunique. now rewrite length_map.
Qed.

(** X12. When the writer can open the file, in the export of a non-empty
    list of text records within the limits of a sheet whose fields are
    taken as they are, the [Category_Summary] sheet has, for every category
    met in the list, one row: the category, the number of distinct series
    names among its records, and the number of its records; and it has no
    other row. *)
Theorem export_category_summary :
  forall (str_lower str_strip : string -> string)
         (writer_error : string -> option exn)
         (r0 : record string) (rs' : list (record string)) (filename : string),
    let rs := r0 :: rs' in
    let out := export_to_excel str_lower str_strip writer_error
                 (DataFrame_of_records rs) filename in
    writer_error filename = None ->
    fits_a_sheet (length rs) -> forallb writable_record rs = true ->
    exists wb sh,
      saved_workbook out = Some wb
      /\ sheet_named "Category_Summary" wb = Some sh
      /\ header sh = ["Category"; "Unique_Series"; "Total_Surveys"]
      /\ (forall r, In r rs ->
            let g := filter (same_category (Category r)) rs in
            exists names,
              NoDup names
              /\ (forall s, In s names <->
                            exists r', In r' g /\ Series_Name r' = s)
              /\ In [Text (Category r); Number (length names); Number (length g)]
                    (body sh))
      /\ (forall row, In row (body sh) ->
            exists r, In r rs /\ firstn 1 row = [Text (Category r)])
      /\ NoDup (map (firstn 1) (body sh)).
Proof.
  intros str_lower str_strip writer_error r0 rs' filename rs out Hopen Hfit Hw.
  subst out rs.
  rewrite (export_to_excel_run str_lower str_strip writer_error r0 rs' filename
             Hopen Hfit Hw).
  unfold saved_workbook. cbn [fst snd].
  set (rs := r0 :: rs').
  eexists. exists (category_summary_sheet rs).
  split; [reflexivity|]. split; [reflexivity|]. split; [reflexivity|].
  cbn [category_summary_sheet body].
  split; [|split].
  - intros r Hr.
    set (g := filter (same_category (Category r)) rs).
    assert (Hg : category_group rs [Category r] = g)
      by apply category_group_same_category.
    destruct (distinct_values (map Series_Name g)) as (Hnd & Hin & Hn).
    eexists. split; [exact Hnd|]. split.
    + intros sname. rewrite Hin, in_map_iff.
      split; intros (r' & H1 & H2); exists r'; auto.
    + apply in_map_iff. exists [Category r]. split.
      * rewrite Hg, Hn. unfold agg_count.
        rewrite (length_map Survey_Title). reflexivity.
      * apply category_keys_in. now exists r.
  - intros row Hrow. apply in_map_iff in Hrow as (k & <- & Hk).
    apply category_keys_in in Hk as (r & Hr & ->).
    exists r. split; [exact Hr | reflexivity].
  - rewrite map_map.
    rewrite (map_ext_in _ (map Text)).
    + apply Finite.Injective_map_NoDup; [|apply category_keys_nodup].
      intros a b. apply map_Text_injective.
    + intros k Hk. apply category_keys_in in Hk as (r & _ & ->). reflexivity.
Qed.

Lemma export_category_summary_witness :
  exists (wb : workbook) (sh : sheet) (names : list string),
    saved_workbook
      (export_to_excel lower strip writer_sample
         (DataFrame_of_records labour_records) "odesi_data.xlsx") = Some wb
    /\ sheet_named "Category_Summary" wb = Some sh
    /\ NoDup names
    /\ In [Text "Labour and Employment"; Number (length names); Number 3] (body sh).
Proof.
  destruct (export_category_summary lower strip writer_sample
              (mkRecord "Labour and Employment" "Labour Surveys" "2001"
                 "Labour Survey 2001" "/a")
              [mkRecord "Labour and Employment" "Labour Surveys" "2001"
                 " labour survey 2001 " "/b";
               mkRecord "Labour and Employment" "Labour Surveys" "2002"
                 "Labour Survey 2002" "/c"]
              "odesi_data.xlsx")
    as (wb & sh & Hwb & Hsh & _ & Hrow & _).
  - reflexivity.
  - unfold fits_a_sheet, MAX_ROWS. simpl. lia.
  - reflexivity.
  - destruct (Hrow (mkRecord "Labour and Employment" "Labour Surveys" "2002"
                      "Labour Survey 2002" "/c"))
      as (names & Hnd & _ & Hin).
    + right. right. now left.
    + exists wb, sh, names. auto.
Defined.

(** *** The counts of the summaries add up *)

Lemma list_sum_map_add {A : Type} (f g : A -> nat) (l : list A) :
  list_sum (map (fun x => f x + g x) l) = list_sum (map f l) + list_sum (map g l).
Proof. induction l as [|x l IH]; simpl; [reflexivity | rewrite IH; lia]. Qed.

Lemma indicator_sum (x : list string) (K : list (list string)) :
  NoDup K -> In x K ->
  list_sum (map (fun k => if key_eqb k x then 1 else 0) K) = 1.
Proof.
  induction K as [|k K IH]; intros Hnd Hin; [destruct Hin|].
  inversion Hnd as [|? ? Hk HK]; subst. simpl.
  destruct (key_eqb k x) eqn:E.
  - apply key_eqb_eq in E. subst k. f_equal.
    clear IH Hin Hnd HK. induction K as [|k K IH]; simpl; [reflexivity|].
    destruct (key_eqb k x) eqn:E.
    + apply key_eqb_eq in E. subst. exfalso. apply Hk. now left.
    + apply IH. intros H. apply Hk. now right.
  - destruct Hin as [->|Hin]; [now rewrite key_eqb_refl in E|].
    now apply IH.
Qed.

(** Groups by a key split a list: their sizes add up to its length. *)
Lemma group_sizes_add_up (key : record string -> list string)
    (K : list (list string)) (rs : list (record string)) :
  NoDup K -> (forall r, In r rs -> In (key r) K) ->
  list_sum (map (fun k => length (filter (fun r => key_eqb k (key r)) rs)) K)
  = length rs.
Proof.
  intros Hnd. induction rs as [|r rs IH]; intros Hin.
  - simpl. clear Hnd Hin. induction K; simpl; auto.
  - rewrite (map_ext _ (fun k => (if key_eqb k (key r) then 1 else 0)
                                  + length (filter (fun r' => key_eqb k (key r')) rs))).
    + rewrite list_sum_map_add, indicator_sum, IH; auto.
      * intros r' Hr'. apply Hin. now right.
      * apply Hin. now left.
    + intros k. simpl. destruct (key_eqb k (key r)); reflexivity.
Qed.

(** X13. When the writer can open the file, in the export of a non-empty
    list of text records within the limits of a sheet whose fields are
    taken as they are, the counts of both summaries account for every
    record once: the [Survey_Count] cells of [Series_Summary] add up to the
    number of records exported, and so do the [Total_Surveys] cells of
    [Category_Summary]. *)
Theorem export_summary_counts_add_up :
  forall (str_lower str_strip : string -> string)
         (writer_error : string -> option exn)
         (r0 : record string) (rs' : list (record string)) (filename : string),
    let rs := r0 :: rs' in
    let out := export_to_excel str_lower str_strip writer_error
                 (DataFrame_of_records rs) filename in
    writer_error filename = None ->
    fits_a_sheet (length rs) -> forallb writable_record rs = true ->
    exists wb series categories,
      saved_workbook out = Some wb
      /\ sheet_named "Series_Summary" wb = Some series
      /\ sheet_named "Category_Summary" wb = Some categories
      /\ list_sum (map (number_at 2) (body series)) = length rs
      /\ list_sum (map (number_at 2) (body categories)) = length rs.
Proof.
  intros str_lower str_strip writer_error r0 rs' filename rs out Hopen Hfit Hw.
  subst out rs.
  rewrite (export_to_excel_run str_lower str_strip writer_error r0 rs' filename
             Hopen Hfit Hw).
  unfold saved_workbook. cbn [fst snd].
  set (rs := r0 :: rs').
  eexists. exists (series_summary_sheet rs), (category_summary_sheet rs).
  split; [reflexivity|]. split; [reflexivity|]. split; [reflexivity|]. split.
  - cbn [series_summary_sheet body]. rewrite map_map.
    rewrite <- (group_sizes_add_up group_key (group_keys rs) rs).
    + f_equal. apply map_ext_in. intros k Hk.
      apply group_keys_in in Hk as (r & _ & ->).
      unfold number_at, agg_count, group_of. cbn. now rewrite length_map.
    + apply group_keys_nodup.
    + intros r Hr. apply group_keys_in. now exists r.
  - cbn [category_summary_sheet body]. rewrite map_map.
    rewrite <- (group_sizes_add_up (fun r => [Category r]) (category_keys rs) rs).
    + f_equal. apply map_ext_in. intros k Hk.
      apply category_keys_in in Hk as (r & _ & ->).
      unfold number_at, agg_count, category_group. cbn. now rewrite length_map.
    + apply category_keys_nodup.
    + intros r Hr. apply category_keys_in. now exists r.
Qed.

Lemma export_summary_counts_add_up_witness :
  exists wb series categories,
    saved_workbook
      (export_to_excel lower strip writer_sample
         (DataFrame_of_records labour_records) "odesi_data.xlsx") = Some wb
    /\ sheet_named "Series_Summary" wb = Some series
    /\ sheet_named "Category_Summary" wb = Some categories
    /\ list_sum (map (number_at 2) (body series)) = 3
    /\ list_sum (map (number_at 2) (body categories)) = 3.
Proof.
  apply (export_summary_counts_add_up lower strip writer_sample
           (mkRecord "Labour and Employment" "Labour Surveys" "2001"
                 "Labour Survey 2001" "/a")
              [mkRecord "Labour and Employment" "Labour Surveys" "2001"
                 " labour survey 2001 " "/b";
               mkRecord "Labour and Employment" "Labour Surveys" "2002"
                 "Labour Survey 2002" "/c"]
           "odesi_data.xlsx").
  - reflexivity.
  - unfold fits_a_sheet, MAX_ROWS. simpl. lia.
  - reflexivity.
Defined.

(** X14. When the writer can open the file, in the export of a non-empty
    list of text records within the limits of a sheet whose fields are
    taken as they are, the rows of both summaries are in ascending order of
    their keys, compared as tuples of strings, without repetition: by
    (category, series name) in [Series_Summary] and by category in
    [Category_Summary]. *)
Theorem export_summaries_sorted :
  forall (str_lower str_strip : string -> string)
         (writer_error : string -> option exn)
         (r0 : record string) (rs' : list (record string)) (filename : string),
    let rs := r0 :: rs' in
    let out := export_to_excel str_lower str_strip writer_error
                 (DataFrame_of_records rs) filename in
    writer_error filename = None ->
    fits_a_sheet (length rs) -> forallb writable_record rs = true ->
    exists wb series categories pairs names,
      saved_workbook out = Some wb
      /\ sheet_named "Series_Summary" wb = Some series
      /\ sheet_named "Category_Summary" wb = Some categories
      /\ map (firstn 2) (body series) = map (map Text) pairs
      /\ map (firstn 1) (body categories) = map (map Text) names
      /\ StronglySorted (fun a b => lex_leb a b = true) pairs /\ NoDup pairs
      /\ StronglySorted (fun a b => lex_leb a b = true) names /\ NoDup names.
Proof.
  intros str_lower str_strip writer_error r0 rs' filename rs out Hopen Hfit Hw.
  subst out rs.
  rewrite (export_to_excel_run str_lower str_strip writer_error r0 rs' filename
             Hopen Hfit Hw).
  unfold saved_workbook. cbn [fst snd].
  set (rs := r0 :: rs').
  eexists. exists (series_summary_sheet rs), (category_summary_sheet rs),
         (group_keys rs), (category_keys rs).
  split; [reflexivity|]. split; [reflexivity|]. split; [reflexivity|].
  split; [|split; [|split; [|split; [|split]]]].
  - cbn [series_summary_sheet body]. rewrite map_map. apply map_ext_in.
    intros k Hk. apply group_keys_in in Hk as (r & _ & ->). reflexivity.
  - cbn [category_summary_sheet body]. rewrite map_map. apply map_ext_in.
    intros k Hk. apply category_keys_in in Hk as (r & _ & ->). reflexivity.
  - apply (stable_sort_sorted lex_leb lex_leb_total lex_leb_trans).
  - apply group_keys_nodup.
  - apply (stable_sort_sorted lex_leb lex_leb_total lex_leb_trans).
  - apply category_keys_nodup.
Qed.

Lemma export_summaries_sorted_witness :
  exists wb series categories,
    saved_workbook
      (export_to_excel lower strip writer_sample
         (DataFrame_of_records labour_records) "odesi_data.xlsx") = Some wb
    /\ sheet_named "Series_Summary" wb = Some series
    /\ sheet_named "Category_Summary" wb = Some categories
    /\ NoDup (map (firstn 2) (body series)).
Proof.
  destruct (export_summaries_sorted lower strip writer_sample
              (mkRecord "Labour and Employment" "Labour Surveys" "2001"
                 "Labour Survey 2001" "/a")
              [mkRecord "Labour and Employment" "Labour Surveys" "2001"
                 " labour survey 2001 " "/b";
               mkRecord "Labour and Employment" "Labour Surveys" "2002"
                 "Labour Survey 2002" "/c"]
              "odesi_data.xlsx")
    as (wb & series & categories & pairs & names & Hwb & Hs & Hc & Hp & _ & _ & Hnd & _).
  - reflexivity.
  - unfold fits_a_sheet, MAX_ROWS. simpl. lia.
  - reflexivity.
  - exists wb, series, categories.
    split; [exact Hwb|]. split; [exact Hs|]. split; [exact Hc|].
    rewrite Hp. apply Finite.Injective_map_NoDup; [|exact Hnd].
    intros a b. apply map_Text_injective.
Defined.

(** *** The frame after an export, and a second export *)

(** X15. When the writer can open both files, an export of a non-empty
    list of text records within the limits of a sheet, whose fields and
    normalized titles are taken as they are, returns normally and leaves
    the detector's column on the caller's frame; a second export of the
    same frame then writes that column to [All_Data], as a sixth header
    [Title_Normalized] and a sixth cell holding the title lower-cased then
    stripped in every row, while its other sheets are those of the first
    export. *)
Theorem export_to_excel_twice :
  forall (str_lower str_strip : string -> string)
         (writer_error : string -> option exn)
         (r0 : record string) (rs' : list (record string)) (file1 file2 : string),
    let rs := r0 :: rs' in
    let export := export_to_excel str_lower str_strip writer_error in
    let first := export (DataFrame_of_records rs) file1 in
    let second := export (snd first) file2 in
    writer_error file1 = None -> writer_error file2 = None ->
    fits_a_sheet (length rs) -> forallb writable_record rs = true ->
    forallb (fun r => writable (str_strip (str_lower (Survey_Title r)))) rs = true ->
    fst (fst first) = Ok tt
    /\ columns (snd first) = RECORD_KEYS ++ ["Title_Normalized"]
    /\ fst (fst second) = Ok tt
    /\ snd second = snd first
    /\ exists data sh rest,
         saved_workbook first = Some (Full data :: rest)
         /\ saved_workbook second = Some (Full sh :: rest)
         /\ sheet_name sh = "All_Data"
         /\ header sh = ["Category"; "Series_Name"; "Year"; "Survey_Title"; "URI";
                         "Title_Normalized"]
         /\ body sh =
              map (fun r => [Text (Category r); Text (Series_Name r); Text (Year r);
                             Text (Survey_Title r); Text (URI r);
                             Text (str_strip (str_lower (Survey_Title r)))]) rs.
Proof.
  intros str_lower str_strip writer_error r0 rs' file1 file2 rs export first second
         Hopen1 Hopen2 Hfit Hw Hn.
  subst second first export rs.
  rewrite (export_to_excel_run str_lower str_strip writer_error r0 rs' file1
             Hopen1 Hfit Hw).
  cbn [fst snd].
  rewrite (export_to_excel_again str_lower str_strip writer_error r0 rs' file2
             Hopen2 Hfit Hw Hn).
  unfold saved_workbook. cbn [fst snd app].
  repeat (split; [reflexivity|]).
  do 3 eexists. split; [reflexivity|]. split; [reflexivity|].
  split; [reflexivity|]. split; reflexivity.
Qed.

Lemma export_to_excel_twice_witness :
  let first := export_to_excel lower strip writer_sample
                 (DataFrame_of_records labour_records) "odesi_data.xlsx" in
  let second := export_to_excel lower strip writer_sample (snd first) "odesi_again.xlsx" in
  fst (fst second) = Ok tt /\ snd second = snd first.
Proof.
  destruct (export_to_excel_twice lower strip writer_sample
              (mkRecord "Labour and Employment" "Labour Surveys" "2001"
                 "Labour Survey 2001" "/a")
              [mkRecord "Labour and Employment" "Labour Surveys" "2001"
                 " labour survey 2001 " "/b";
               mkRecord "Labour and Employment" "Labour Surveys" "2002"
                 "Labour Survey 2002" "/c"]
              "odesi_data.xlsx" "odesi_again.xlsx")
    as (_ & _ & H3 & H4 & _).
  - reflexivity.
  - reflexivity.
  - unfold fits_a_sheet, MAX_ROWS. simpl. lia.
  - reflexivity.
  - reflexivity.
  - split; [exact H3 | exact H4].
Defined.

Lemma get_locs_missing_first (name : string) (names cols : list string) :
  ~ In name cols -> get_locs (name :: names) cols = Raise (KeyError name).
Proof.
  intros H. cbn [get_locs]. now rewrite (get_loc_missing _ _ H).
Qed.

(** X16. When the writer can open the file, on a frame that has rows and
    columns but no [Category] column, that is within the limits of a sheet
    and whose labels and cells are taken as they are, the exporter raises
    [KeyError('Category')] at the first summary; the workbook is saved all
    the same, with the [All_Data] sheet alone, and the frame is as it
    was. *)
Theorem export_to_excel_missing_category :
  forall (str_lower str_strip : string -> string)
         (writer_error : string -> option exn) (df : frame) (filename : string),
    writer_error filename = None ->
    writable_frame df = true ->
    df_empty df = false ->
    ~ In "Category" (columns df) ->
    export_to_excel str_lower str_strip writer_error df filename =
    (Raise (KeyError "Category"), Some [Full (sheet_of_frame "All_Data" df)], df).
Proof.
  intros str_lower str_strip writer_error df filename Hopen Hw He Hc.
  unfold export_to_excel. rewrite Hopen.
  unfold export_to_excel_body.
  unfold bind at 1. unfold on_frame at 1, get_state at 1. cbn [df_obj book].
  unfold bind at 1. rewrite (to_excel_full _ _ _ Hw). rewrite He. cbn [negb].
  unfold bind at 1. unfold lift at 1.
  unfold category_summary, groupby.
  rewrite (get_locs_missing_first "Category" [] (columns df) Hc).
  reflexivity.
Qed.

Lemma export_to_excel_missing_category_witness :
  export_to_excel lower strip writer_sample frame_without_category "odesi_data.xlsx" =
  (Raise (KeyError "Category"),
   Some [Full (sheet_of_frame "All_Data" frame_without_category)],
   frame_without_category).
Proof.
  apply export_to_excel_missing_category.
  - reflexivity.
  - reflexivity.
  - reflexivity.
  - simpl. intros [H|[H|[H|[]]]]; discriminate H.
Defined.

(** X17. When the writer can open the file, the sheets of an export of a
    non-empty list of text records within the limits of a sheet whose
    fields are taken as they are come in the order [All_Data],
    [Category_Summary], [Series_Summary] and, when the detector returns
    rows, [Potential_Duplicates]; that last sheet is the frame the detector
    returns, written as it is: its five column labels, without the
    normalized column, and its rows in the detector's order. *)
Theorem export_to_excel_duplicates_sheet :
  forall (str_lower str_strip : string -> string)
         (writer_error : string -> option exn)
         (r0 : record string) (rs' : list (record string)) (filename : string),
    let rs := r0 :: rs' in
    let out := export_to_excel str_lower str_strip writer_error
                 (DataFrame_of_records rs) filename in
    writer_error filename = None ->
    fits_a_sheet (length rs) -> forallb writable_record rs = true ->
    exists d wb,
      fst (find_duplicates_with str_lower str_strip (DataFrame_of_records rs)) = Ok d
      /\ saved_workbook out = Some wb
      /\ (rows d = [] ->
          map written_name wb = ["All_Data"; "Category_Summary"; "Series_Summary"])
      /\ (rows d <> [] ->
          map written_name wb =
            ["All_Data"; "Category_Summary"; "Series_Summary"; "Potential_Duplicates"]
          /\ sheet_named "Potential_Duplicates" wb
             = Some (mkSheet "Potential_Duplicates" (columns d)
                       (map (map Text) (rows d)))
          /\ columns d = ["Category"; "Series_Name"; "Year"; "Survey_Title"; "URI"]).
Proof.
  intros str_lower str_strip writer_error r0 rs' filename rs out Hopen Hfit Hw.
  subst out rs.
  rewrite (export_to_excel_run str_lower str_strip writer_error r0 rs' filename
             Hopen Hfit Hw).
  rewrite find_duplicates_with_run.
  unfold saved_workbook. cbn [fst snd].
  set (rs := r0 :: rs').
  do 2 eexists. split; [reflexivity|]. split; [reflexivity|]. cbn [rows columns].
  unfold duplicates_sheet.
  destruct (duplicates_of (normalize str_lower str_strip) rs) as [|a l]; split.
  - reflexivity.
  - intros H. now contradiction H.
  - discriminate.
  - intros _. split; [reflexivity|]. split; [|reflexivity].
    cbn [app sheet_named sheet_name all_data_sheet category_summary_sheet
         series_summary_sheet].
    rewrite map_map. reflexivity.
Qed.

Lemma export_to_excel_duplicates_sheet_witness :
  exists wb,
    saved_workbook
      (export_to_excel lower strip writer_sample
         (DataFrame_of_records labour_records) "odesi_data.xlsx") = Some wb
    /\ map written_name wb
       = ["All_Data"; "Category_Summary"; "Series_Summary"; "Potential_Duplicates"].
Proof.
  destruct (export_to_excel_duplicates_sheet lower strip writer_sample
              (mkRecord "Labour and Employment" "Labour Surveys" "2001"
                 "Labour Survey 2001" "/a")
              [mkRecord "Labour and Employment" "Labour Surveys" "2001"
                 " labour survey 2001 " "/b";
               mkRecord "Labour and Employment" "Labour Surveys" "2002"
                 "Labour Survey 2002" "/c"]
              "odesi_data.xlsx")
    as (d & wb & Hd & Hwb & _ & Hsome).
  - reflexivity.
  - unfold fits_a_sheet, MAX_ROWS. simpl. lia.
  - reflexivity.
  - exists wb. split; [exact Hwb|].
    apply Hsome. intros Hrows.
    assert (E : Ok d = Ok (mkFrame RECORD_KEYS
                     [["Labour and Employment"; "Labour Surveys"; "2001";
                       " labour survey 2001 "; "/b"];
                      ["Labour and Employment"; "Labour Surveys"; "2001";
                       "Labour Survey 2001"; "/a"]]))
      by (rewrite <- Hd; reflexivity).
    injection E as ->. discriminate Hrows.
Defined.

(** *** A cell that the sheet refuses *)

(** X18. When the writer can open the file and the list of text records is
    within the limits of a sheet, a field that openpyxl refuses (a control
    character other than tab, line feed and carriage return among its
    first 32767 characters) ends the export while [All_Data] is written:
    the exporter raises [IllegalCharacterError], the workbook is saved with
    that sheet alone, cut short, and the caller's frame is as it was, the
    detector not having run. *)
Theorem export_to_excel_illegal_character :
  forall (str_lower str_strip : string -> string)
         (writer_error : string -> option exn)
         (rs : list (record string)) (filename : string)
         (r : record string) (v : string),
    writer_error filename = None ->
    fits_a_sheet (length rs) ->
    In r rs -> In v (record_values r) ->
    string_exists illegal_character (take_chars 32767 v) = true ->
    export_to_excel str_lower str_strip writer_error (DataFrame_of_records rs) filename =
    (Raise IllegalCharacterError, Some [Partial "All_Data"], DataFrame_of_records rs).
Proof.
  intros str_lower str_strip writer_error rs filename r v Hopen Hfit Hr Hv Hill.
  assert (Hraise : check_string v = Raise IllegalCharacterError).
  { unfold check_string. now rewrite Hill. }
  destruct rs as [|r0 rs']; [destruct Hr|].
  set (rs := r0 :: rs') in *.
  change (DataFrame_of_records rs) with (mkFrame RECORD_KEYS (map record_values rs)).
  assert (Hrows : exists e, map_result (map_result write_cell)
                              (map (map Text) (map record_values rs)) = Raise e).
  { assert (Hrow : exists e, map_result write_cell (map Text (record_values r)) = Raise e).
    { apply (map_result_stops write_cell _ (Text v) IllegalCharacterError).
      - now apply in_map.
      - cbn [write_cell]. now rewrite Hraise. }
    destruct Hrow as (e & Hrow).
    apply (map_result_stops _ _ (map Text (record_values r)) e); [|exact Hrow].
    apply in_map, in_map. exact Hr. }
  destruct Hrows as (e & Hrows).
  assert (He : e = IllegalCharacterError).
  { apply map_result_raises in Hrows as (row & _ & Hrow).
    apply map_result_raises in Hrow as (c & _ & Hc).
    exact (write_cell_raises c e Hc). }
  subst e.
  unfold export_to_excel. rewrite Hopen.
  unfold export_to_excel_body.
  unfold bind at 1. unfold on_frame at 1, get_state at 1. cbn [df_obj book].
  unfold bind at 1. unfold to_excel, write_table. cbn [columns rows].
  rewrite length_map.
  unfold fits_a_sheet in Hfit. apply Z.ltb_ge in Hfit. rewrite Hfit.
  replace (MAX_COLS <? Z.of_nat (length RECORD_KEYS))%Z with false by reflexivity.
  cbn [orb].
  replace (map_result check_string RECORD_KEYS) with (Ok RECORD_KEYS)
    by (vm_compute; reflexivity).
  rewrite Hrows. reflexivity.
Qed.

Lemma export_to_excel_illegal_character_witness :
  export_to_excel lower strip writer_sample
    (DataFrame_of_records vertical_tab_record) "odesi_data.xlsx"
  = (Raise IllegalCharacterError, Some [Partial "All_Data"],
     DataFrame_of_records vertical_tab_record).
Proof.
  apply (export_to_excel_illegal_character lower strip writer_sample
           vertical_tab_record "odesi_data.xlsx"
           (mkRecord "Health" "Labour Force Survey" "2001"
              (String (ascii_of_nat 11) "LFS 2001 Wave 1") "/lfs/2001/1")
           (String (ascii_of_nat 11) "LFS 2001 Wave 1")).
  - reflexivity.
  - unfold fits_a_sheet, MAX_ROWS. simpl. lia.
  - now left.
  - right. right. right. now left.
  - reflexivity.
Defined.
